(** * Dynamic camper parking finder: the aggregation pipeline

    A shallow embedding of [src/dynamic_camper_parking_ai.py]:
    the record types, the haversine distance, the proximity
    de-duplication, the requirement filter with its confidence ranking,
    the three source connectors seen from their [try]/[except] structure,
    the cached orchestrator [find_parking_spots] and the front end
    [search_parking].

    Numbers.  Python floats are modelled by their exact values: every
    finite float is a rational, and [<], [>], [==] on finite floats agree
    with the same comparisons on those rationals, so record fields are
    [Q] and comparisons are the boolean ones of [QArith].  The haversine
    formula needs [sin], [cos], [asin] and [sqrt]; it is written over
    [R] exactly as the source writes it over floats, and the threshold
    test [< 0.1] is decided with [Rlt_dec].  Rounding error of the float
    operations, NaN, infinities and the sign of zero are outside the
    model.  Where a property is stated of the results of arithmetic
    (the bounds of the map view, the limits read from tags) it is
    stated in a form that rounding to the nearest float keeps.

    Texts.  A Python [str] is modelled by a [string], read as its UTF-8
    bytes.  Lower-casing and the recognition of digits are those of
    ASCII; letters and decimal digits outside ASCII, which Python's
    [str.lower], pattern [\d] and [float] handle too, are outside the
    model. *)

From Stdlib Require Import List String Ascii Bool Arith ZArith Lia.
From Stdlib Require Import QArith Qabs Qround Qreals Reals Lqa Lra.
From Stdlib Require Import Permutation Sorted DecimalString DecimalPos DecimalN.
Import ListNotations.

(* ------------------------------------------------------------------ *)
(** ** Exceptions and results *)

(** The exception classes the source distinguishes in its [except]
    clauses, as disjoint cases: [RequestException] is
    [requests.RequestException] with its subclasses, [JSONDecodeError] is
    [json.JSONDecodeError], [ValueError] a [ValueError] that is not a
    JSON one, and [OtherException] any other subclass of [Exception]. *)
Inductive exn : Type :=
  | RequestException
  | JSONDecodeError
  | ValueError
  | OtherException.

(** What a Python call does: it returns a value or raises. *)
Inductive outcome (A : Type) : Type :=
  | Returned (a : A)
  | Raised (e : exn).

Arguments Returned {A} a.
Arguments Raised {A} e.

Definition obind {A B} (m : outcome A) (k : A -> outcome B) : outcome B :=
  match m with
  | Returned a => k a
  | Raised e => Raised e
  end.

Declare Scope outcome_scope.
Delimit Scope outcome_scope with outcome.
Notation "x <- m ;; k" := (obind m (fun x => k))
  (at level 61, m at next level, right associativity) : outcome_scope.

(* ------------------------------------------------------------------ *)
(** ** Data model *)

(** [@dataclass ScrapedParkingSpot]. *)
Record ScrapedParkingSpot : Type := {
  name : string;
  latitude : Q;
  longitude : Q;
  address : string;
  parking_type : string;
  max_height : option Q;
  max_weight : option Q;
  has_facilities : bool;
  overnight_allowed : bool;
  restrictions : list string;
  source : string;
  confidence : Q
}.

(** [@dataclass CamperRequirements]. *)
Record CamperRequirements : Type := {
  height : Q;
  weight : Q;
  length : Q;
  needs_facilities : bool;
  needs_overnight : bool;
  radius_km : Q
}.

(** [a < b] on floats. *)
Definition Qlt_bool (a b : Q) : bool := negb (Qle_bool b a).

(** [==] of two [Optional[float]] values. *)
Definition opt_float_eqb (a b : option Q) : bool :=
  match a, b with
  | None, None => true
  | Some x, Some y => Qeq_bool x y
  | _, _ => false
  end.

Fixpoint list_string_eqb (a b : list string) : bool :=
  match a, b with
  | [], [] => true
  | x :: a', y :: b' => String.eqb x y && list_string_eqb a' b'
  | _, _ => false
  end.

(** The [__eq__] a dataclass generates: the tuples of fields are
    compared, field by field. *)
Definition spot_eqb (a b : ScrapedParkingSpot) : bool :=
  String.eqb (name a) (name b)
  && Qeq_bool (latitude a) (latitude b)
  && Qeq_bool (longitude a) (longitude b)
  && String.eqb (address a) (address b)
  && String.eqb (parking_type a) (parking_type b)
  && opt_float_eqb (max_height a) (max_height b)
  && opt_float_eqb (max_weight a) (max_weight b)
  && Bool.eqb (has_facilities a) (has_facilities b)
  && Bool.eqb (overnight_allowed a) (overnight_allowed b)
  && list_string_eqb (restrictions a) (restrictions b)
  && String.eqb (source a) (source b)
  && Qeq_bool (confidence a) (confidence b).

(* ------------------------------------------------------------------ *)
(** ** Geo math: [_calculate_distance] *)

Module Geo.
Local Open Scope R_scope.

(** [math.radians]. *)
Definition radians (deg : R) : R := deg * PI / 180.

(** [DynamicParkingFinder._calculate_distance]: the haversine formula
    with the Earth radius fixed at 6371 km. *)
Definition _calculate_distance (lat1 lon1 lat2 lon2 : R) : R :=
  let lat1 := radians lat1 in
  let lon1 := radians lon1 in
  let lat2 := radians lat2 in
  let lon2 := radians lon2 in
  let dlat := lat2 - lat1 in
  let dlon := lon2 - lon1 in
  let a := sin (dlat / 2) ^ 2 + cos lat1 * cos lat2 * sin (dlon / 2) ^ 2 in
  2 * asin (sqrt a) * 6371.

(** The duplicate-distance threshold of [_deduplicate_spots], in km. *)
Definition duplicate_threshold : R := 1 / 10.

End Geo.

(** The test of the inner loop of [_deduplicate_spots]:
    [_calculate_distance(spot.latitude, spot.longitude,
                         existing.latitude, existing.longitude) < 0.1]. *)
Definition spot_distance (spot existing : ScrapedParkingSpot) : R :=
  Geo._calculate_distance (Q2R (latitude spot)) (Q2R (longitude spot))
                          (Q2R (latitude existing)) (Q2R (longitude existing)).

Definition within_threshold (spot existing : ScrapedParkingSpot) : bool :=
  if Rlt_dec (spot_distance spot existing) Geo.duplicate_threshold
  then true else false.

(* ------------------------------------------------------------------ *)
(** ** De-duplication: [_deduplicate_spots] *)

Local Open Scope outcome_scope.

(** [list.remove(x)]: drops the first element equal to [x], and raises
    [ValueError] when there is none. *)
Fixpoint list_remove (x : ScrapedParkingSpot) (l : list ScrapedParkingSpot)
  : outcome (list ScrapedParkingSpot) :=
  match l with
  | [] => Raised ValueError
  | y :: l' =>
      if spot_eqb y x then Returned l'
      else (r <- list_remove x l' ;; Returned (y :: r))
  end.

(** One turn of the outer loop.  The inner [for existing in unique_spots]
    stops at the first accepted spot under the threshold ([break]), so it
    is a [find]; [is_duplicate] is whether it found one. *)
Definition dedup_step (unique_spots : list ScrapedParkingSpot)
    (spot : ScrapedParkingSpot) : outcome (list ScrapedParkingSpot) :=
  match find (within_threshold spot) unique_spots with
  | Some existing =>
      if Qlt_bool (confidence existing) (confidence spot)
      then (removed <- list_remove existing unique_spots ;;
            Returned (removed ++ [spot]))
      else Returned unique_spots
  | None => Returned (unique_spots ++ [spot])
  end.

Fixpoint dedup_loop (spots unique_spots : list ScrapedParkingSpot)
  : outcome (list ScrapedParkingSpot) :=
  match spots with
  | [] => Returned unique_spots
  | spot :: rest =>
      unique_spots' <- dedup_step unique_spots spot ;;
      dedup_loop rest unique_spots'
  end.

Definition _deduplicate_spots (spots : list ScrapedParkingSpot)
  : outcome (list ScrapedParkingSpot) :=
  dedup_loop spots [].

(* ------------------------------------------------------------------ *)
(** ** Requirement filter and ranking: [_filter_spots] *)

(** [limit and limit < need] for an [Optional[float]] [limit]: Python's
    [and] evaluates the comparison only when [limit] is truthy, and a
    float is truthy when it is not zero; [None] is falsy. *)
Definition restricted_below (limit : option Q) (need : Q) : bool :=
  match limit with
  | None => false
  | Some v => negb (Qeq_bool v 0) && Qlt_bool v need
  end.

(** The body of the [for spot in spots] loop: [false] where the source
    does [continue], [true] where it reaches [suitable_spots.append]. *)
Definition suitable (reqs : CamperRequirements) (spot : ScrapedParkingSpot)
  : bool :=
  if restricted_below (max_height spot) (height reqs) then false
  else if restricted_below (max_weight spot) (weight reqs) then false
  else if needs_facilities reqs && negb (has_facilities spot) then false
  else if needs_overnight reqs && negb (overnight_allowed spot) then false
  else true.

(** [sorted(xs, key=lambda x: x.confidence, reverse=True)].  Python's
    sort is stable, also with [reverse=True]; the model is the stable
    insertion sort: an element goes behind every element of strictly
    greater confidence and in front of the first one that is not. *)
Fixpoint insert_by_confidence (x : ScrapedParkingSpot)
    (l : list ScrapedParkingSpot) : list ScrapedParkingSpot :=
  match l with
  | [] => [x]
  | y :: l' =>
      if Qlt_bool (confidence x) (confidence y)
      then y :: insert_by_confidence x l'
      else x :: y :: l'
  end.

Definition sorted_by_confidence (l : list ScrapedParkingSpot)
  : list ScrapedParkingSpot :=
  fold_right insert_by_confidence [] l.

Definition _filter_spots (spots : list ScrapedParkingSpot)
    (reqs : CamperRequirements) : list ScrapedParkingSpot :=
  let suitable_spots := filter (suitable reqs) spots in
  sorted_by_confidence suitable_spots.

(* ------------------------------------------------------------------ *)
(** ** Cache key: [f"{lat:.4f}_{lon:.4f}_{camper_reqs.radius_km}"] *)

(** Rounding of a non-negative rational to the nearest integer, ties to
    the even one: the rounding of the [.4f] format. *)
Definition round_half_even (x : Q) : Z :=
  let f := Qfloor x in
  match Qcompare (x - inject_Z f) (1 # 2) with
  | Lt => f
  | Gt => (f + 1)%Z
  | Eq => if Z.even f then f else (f + 1)%Z
  end.

Definition decimal (n : Z) : string :=
  NilZero.string_of_uint (N.to_uint (Z.to_N n)).

Definition digit (n : Z) : string := decimal (n mod 10).

(** [f"{x:.4f}"]: sign, integer part, point, four digits. *)
Definition format_4f (x : Q) : string :=
  let n := round_half_even (Qabs x * inject_Z 10000) in
  let sign := if Qlt_bool x 0 then "-"%string else ""%string in
  (sign ++ decimal (n / 10000) ++ "."
   ++ digit (n / 1000) ++ digit (n / 100) ++ digit (n / 10) ++ digit n)%string.

(** The three pieces of the key string.  No piece holds an underscore,
    so two key strings are equal exactly when their pieces are.  The
    third piece is [str(radius_km)], which differs for different finite
    floats; the model keeps the number itself. *)
Record CacheKey : Type := {
  key_lat : string;
  key_lon : string;
  key_radius : Q
}.

Definition cache_key (lat lon radius_km : Q) : CacheKey :=
  {| key_lat := format_4f lat; key_lon := format_4f lon;
     key_radius := radius_km |}.

Definition cache_key_eqb (a b : CacheKey) : bool :=
  String.eqb (key_lat a) (key_lat b)
  && String.eqb (key_lon a) (key_lon b)
  && Qeq_bool (key_radius a) (key_radius b).

(** [self.cache]: a dict from key to [(unique_spots, timestamp)]. *)
Definition CacheEntry : Type := (list ScrapedParkingSpot * Q)%type.
Definition Cache : Type := list (CacheKey * CacheEntry).

(** [self.cache[key]] when [key in self.cache]. *)
Definition cache_lookup (key : CacheKey) (c : Cache) : option CacheEntry :=
  match find (fun kv => cache_key_eqb (fst kv) key) c with
  | Some kv => Some (snd kv)
  | None => None
  end.

(** [self.cache[key] = entry]: the entry of an equal key is replaced. *)
Definition cache_store (key : CacheKey) (entry : CacheEntry) (c : Cache)
  : Cache :=
  (key, entry) :: filter (fun kv => negb (cache_key_eqb (fst kv) key)) c.

(** [self.cache_duration = 3600]. *)
Definition cache_duration : Q := 3600.

(** [time.time() - timestamp < self.cache_duration]. *)
Definition cache_fresh (now timestamp : Q) : bool :=
  Qlt_bool (now - timestamp) cache_duration.

(* ------------------------------------------------------------------ *)
(** ** The finder's state and its environment *)

(** A call of a connector's [search_parking_spots], as the orchestrator
    makes it. *)
Inductive ConnectorCall : Type :=
  | OsmCall (lat lon radius_km : Q)
  | GoogleCall (lat lon radius_km : Q)
  | CityCall (city : string) (lat lon radius_km : Q).

(** The mutable state of a [DynamicParkingFinder]: its cache, and two
    ghost fields that record what it did to the outside: how many times
    it consulted the clock or the network ([ticks]) and which connectors
    it called, latest first ([calls]). *)
Record FinderState : Type := {
  cache : Cache;
  ticks : nat;
  calls : list ConnectorCall
}.

(** What the finder does not own: the clock, the network behind each
    scraper, and the API key it was built with.  Every answer may depend
    on the moment of asking, given as the number of earlier interactions.
    A network function stands for the part of the source that does the
    request and parses the answer, and says what that part does: it
    returns the spots it built or raises. *)
Record Env : Type := {
  (** [time.time()] *)
  time_time : nat -> Q;
  (** the [try] block of [_geocode_location]: [Some] when Nominatim
      gave a place, [None] when its answer was empty *)
  nominatim_search : nat -> string -> outcome (option (Q * Q));
  (** the [try] block of [OpenStreetMapScraper.search_parking_spots] *)
  overpass_query : nat -> Q -> Q -> Q -> outcome (list ScrapedParkingSpot);
  (** [GooglePlacesScraper.api_key] *)
  api_key : option string;
  (** [GooglePlacesScraper._search_by_type] *)
  _search_by_type :
    nat -> Q -> Q -> Q -> string -> outcome (list ScrapedParkingSpot);
  (** [HelsinkiOfficialScraper._scrape_palvelukartta_api] *)
  _scrape_palvelukartta_api :
    nat -> Q -> Q -> Q -> outcome (list ScrapedParkingSpot);
  (** [HelsinkiOfficialScraper._scrape_parking_info_page] *)
  _scrape_parking_info_page :
    nat -> Q -> Q -> outcome (list ScrapedParkingSpot);
  (** [CityWebsiteScraper._scrape_city_parking_page] *)
  _scrape_city_parking_page :
    nat -> string -> Q -> Q -> outcome (list ScrapedParkingSpot)
}.

(** Computations of the finder: they read and change its state and may
    raise; a raise keeps the state changes made before it. *)
Definition M (A : Type) : Type := FinderState -> outcome A * FinderState.

Definition ret {A} (a : A) : M A := fun st => (Returned a, st).

Definition raise {A} (e : exn) : M A := fun st => (Raised e, st).

Definition bind {A B} (m : M A) (k : A -> M B) : M B :=
  fun st =>
    match m st with
    | (Returned a, st') => k a st'
    | (Raised e, st') => (Raised e, st')
    end.

Declare Scope finder_scope.
Delimit Scope finder_scope with finder.
Notation "x <- m ;; k" := (bind m (fun x => k))
  (at level 61, m at next level, right associativity) : finder_scope.

(** [try: m  except <classes>: h]. *)
Definition try_except {A} (m : M A) (h : exn -> M A) : M A :=
  fun st =>
    match m st with
    | (Returned a, st') => (Returned a, st')
    | (Raised e, st') => h e st'
    end.

(** One interaction with the outside. *)
Definition interact {A} (f : nat -> outcome A) : M A :=
  fun st =>
    (f (ticks st),
     {| cache := cache st; ticks := S (ticks st); calls := calls st |}).

Definition log_call (c : ConnectorCall) : M unit :=
  fun st =>
    (Returned tt,
     {| cache := cache st; ticks := ticks st; calls := c :: calls st |}).

Definition get_cache : M Cache := fun st => (Returned (cache st), st).

Definition set_cache (c : Cache) : M unit :=
  fun st => (Returned tt, {| cache := c; ticks := ticks st; calls := calls st |}).

Definition lift {A} (o : outcome A) : M A := fun st => (o, st).

(* ------------------------------------------------------------------ *)
(** ** Source connectors *)

Local Open Scope finder_scope.

(** [OpenStreetMapScraper.search_parking_spots].  Only
    [requests.RequestException] and [json.JSONDecodeError] are handled;
    both can only come from the request and the decoding, before the
    first [spots.append], so the handlers leave [spots] empty. *)
Definition osm_search_parking_spots (env : Env) (lat lon radius_km : Q)
  : M (list ScrapedParkingSpot) :=
  _ <- log_call (OsmCall lat lon radius_km) ;;
  try_except (interact (fun t => overpass_query env t lat lon radius_km))
    (fun e =>
       match e with
       | RequestException => ret []
       | JSONDecodeError => ret []
       | _ => raise e
       end).

(** Truthiness of [self.api_key]: [None] and the empty string are
    falsy. *)
Definition has_api_key (env : Env) : bool :=
  match api_key env with
  | None => false
  | Some k => negb (String.eqb k "")
  end.

Definition search_types : list string :=
  ["parking"; "campground"; "rv_park"; "rest_area"]%string.

(** The [for search_type in search_types] loop: each turn is its own
    [try] with [except Exception]. *)
Fixpoint google_loop (env : Env) (lat lon radius_km : Q)
    (types : list string) (spots : list ScrapedParkingSpot)
  : M (list ScrapedParkingSpot) :=
  match types with
  | [] => ret spots
  | search_type :: rest =>
      spots' <-
        try_except
          (found <- interact (fun t =>
                      _search_by_type env t lat lon radius_km search_type) ;;
           ret (spots ++ found))
          (fun _ => ret spots) ;;
      google_loop env lat lon radius_km rest spots'
  end.

(** [GooglePlacesScraper.search_parking_spots]. *)
Definition google_search_parking_spots (env : Env) (lat lon radius_km : Q)
  : M (list ScrapedParkingSpot) :=
  _ <- log_call (GoogleCall lat lon radius_km) ;;
  if has_api_key env
  then google_loop env lat lon radius_km search_types []
  else ret [].

(** [HelsinkiOfficialScraper.search_helsinki_parking_spots]: two [try]
    blocks, each with [except Exception]. *)
Definition search_helsinki_parking_spots (env : Env) (lat lon radius_km : Q)
  : M (list ScrapedParkingSpot) :=
  spots1 <-
    try_except
      (found <- interact (fun t =>
                  _scrape_palvelukartta_api env t lat lon radius_km) ;;
       ret found)
      (fun _ => ret []) ;;
  try_except
    (found <- interact (fun t => _scrape_parking_info_page env t lat lon) ;;
     ret (spots1 ++ found))
    (fun _ => ret spots1).

(** [str.lower] on the ASCII letters: [A] to [Z] go to [a] to [z] and
    every other byte stays.  Python lowers the letters outside ASCII
    too, and a few of them to ASCII letters (the Kelvin sign to [k]);
    texts with such letters are outside the model. *)
Definition ascii_lower (c : ascii) : ascii :=
  let n := nat_of_ascii c in
  if Nat.leb 65 n && Nat.leb n 90 then ascii_of_nat (n + 32) else c.

Fixpoint lower (s : string) : string :=
  match s with
  | EmptyString => EmptyString
  | String c s' => String (ascii_lower c) (lower s')
  end.

(** [needle in hay] for strings. *)
Fixpoint contains (needle hay : string) : bool :=
  String.prefix needle hay
  || match hay with
     | EmptyString => false
     | String _ hay' => contains needle hay'
     end.

(** The keys of [CityWebsiteScraper.city_parking_urls]. *)
Definition city_parking_urls : list string :=
  ["tampere"; "turku"; "oulu"]%string.

(** [CityWebsiteScraper.search_parking_spots]. *)
Definition city_search_parking_spots (env : Env) (city : string)
    (lat lon radius_km : Q) : M (list ScrapedParkingSpot) :=
  _ <- log_call (CityCall city lat lon radius_km) ;;
  let city_lower := lower city in
  if contains "helsinki" city_lower
  then try_except (search_helsinki_parking_spots env lat lon radius_km)
         (fun _ => ret [])
  else if negb (existsb (String.eqb city_lower) city_parking_urls)
  then ret []
  else try_except
         (interact (fun t => _scrape_city_parking_page env t city_lower lat lon))
         (fun _ => ret []).

(* ------------------------------------------------------------------ *)
(** ** The orchestrator: [DynamicParkingFinder.find_parking_spots] *)

(** [_geocode_location]: every exception of the [try] block is caught,
    and the function then falls through to [return None]. *)
Definition _geocode_location (env : Env) (location : string)
  : M (option (Q * Q)) :=
  try_except (interact (fun t => nominatim_search env t location))
    (fun _ => ret None).

(** The cache check: the clock is read only when the key is present. *)
Definition check_cache (env : Env) (key : CacheKey)
  : M (option (list ScrapedParkingSpot)) :=
  c <- get_cache ;;
  match cache_lookup key c with
  | Some (cached_data, timestamp) =>
      now <- interact (fun t => Returned (time_time env t)) ;;
      if cache_fresh now timestamp then ret (Some cached_data) else ret None
  | None => ret None
  end.

Definition find_parking_spots (env : Env) (location : string)
    (camper_reqs : CamperRequirements) : M (list ScrapedParkingSpot) :=
  coords <- _geocode_location env location ;;
  match coords with
  | None => ret []
  | Some (lat, lon) =>
      let key := cache_key lat lon (radius_km camper_reqs) in
      hit <- check_cache env key ;;
      match hit with
      | Some cached_data => ret (_filter_spots cached_data camper_reqs)
      | None =>
          osm_spots <-
            osm_search_parking_spots env lat lon (radius_km camper_reqs) ;;
          google_spots <-
            google_search_parking_spots env lat lon (radius_km camper_reqs) ;;
          city_spots <-
            city_search_parking_spots env location lat lon
              (radius_km camper_reqs) ;;
          let all_spots := osm_spots ++ google_spots ++ city_spots in
          unique_spots <- lift (_deduplicate_spots all_spots) ;;
          now <- interact (fun t => Returned (time_time env t)) ;;
          c <- get_cache ;;
          _ <- set_cache (cache_store key (unique_spots, now) c) ;;
          ret (_filter_spots unique_spots camper_reqs)
      end
  end.

(* ------------------------------------------------------------------ *)
(** ** The front end: [DynamicCamperParkingAI.search_parking] *)

(** The [search_params] dict. *)
Record SearchParams : Type := {
  sp_location : string;
  sp_height : Q;
  sp_weight : Q;
  sp_length : Q;
  sp_needs_facilities : bool;
  sp_needs_overnight : bool;
  sp_radius_km : Q
}.

(** [x if x else "Unknown"] of [_format_spot]: [None] stands for the
    text "Unknown". *)
Definition known_limit (x : option Q) : option Q :=
  match x with
  | None => None
  | Some v => if Qeq_bool v 0 then None else Some v
  end.

(** The dict [_format_spot] builds; numbers are kept as numbers. *)
Record FormattedSpot : Type := {
  f_name : string;
  f_address : string;
  f_coordinates : Q * Q;
  f_type : string;
  f_overnight_allowed : bool;
  f_facilities : bool;
  f_max_height : option Q;
  f_max_weight : option Q;
  f_restrictions : list string;
  f_source : string;
  f_confidence : Q
}.

Definition _format_spot (spot : ScrapedParkingSpot) : FormattedSpot :=
  {| f_name := name spot;
     f_address := address spot;
     f_coordinates := (latitude spot, longitude spot);
     f_type := parking_type spot;
     f_overnight_allowed := overnight_allowed spot;
     f_facilities := has_facilities spot;
     f_max_height := known_limit (max_height spot);
     f_max_weight := known_limit (max_weight spot);
     f_restrictions := restrictions spot;
     f_source := source spot;
     f_confidence := confidence spot |}.

(** The dict [search_parking] returns, by its ["status"]. *)
Inductive SearchResult : Type :=
  | no_results (message suggestion : string) (current_params : SearchParams)
  | success (location : string) (search_radius : Q) (camper_specs : Q * Q * Q)
      (spots_found : nat) (parking_spots : list FormattedSpot)
  | error (raised : exn).

Definition status (r : SearchResult) : string :=
  match r with
  | no_results _ _ _ => "no_results"
  | success _ _ _ _ _ => "success"
  | error _ => "error"
  end.

(** The state of a [DynamicCamperParkingAI]. *)
Record AIState : Type := {
  finder : FinderState;
  default_params : SearchParams
}.

(** [search_parking].  [_save_defaults] writes a file and catches its
    own exceptions; the file is read again only by a later process. *)
Definition search_parking (env : Env) (ai : AIState) (location : string)
    (height weight length : Q) (needs_facilities needs_overnight : bool)
    (radius_km : Q) : SearchResult * AIState :=
  let search_params :=
    {| sp_location := location; sp_height := height; sp_weight := weight;
       sp_length := length; sp_needs_facilities := needs_facilities;
       sp_needs_overnight := needs_overnight; sp_radius_km := radius_km |} in
  let reqs :=
    Build_CamperRequirements height weight length
      needs_facilities needs_overnight radius_km in
  let (result, finder') := find_parking_spots env location reqs (finder ai) in
  let ai' := {| finder := finder'; default_params := search_params |} in
  match result with
  | Returned [] =>
      (no_results ("No suitable parking spots found near " ++ location)
         "Try expanding search radius or adjusting requirements"
         search_params, ai')
  | Returned spots =>
      (success location radius_km (height, weight, length)
         (List.length spots) (map _format_spot spots), ai')
  | Raised e => (error e, ai')
  end.

(* ------------------------------------------------------------------ *)
(** ** Sample data *)

Definition sample_spot (nm : string) (lat lon : Q) (h : option Q)
    (overnight : bool) (conf : Q) : ScrapedParkingSpot :=
  {| name := nm; latitude := lat; longitude := lon;
     address := "Unknown address"; parking_type := "parking_lot";
     max_height := h; max_weight := None; has_facilities := false;
     overnight_allowed := overnight; restrictions := [];
     source := "OpenStreetMap"; confidence := conf |}.

(** Three spots on the meridian 24.9384 E, 0.0007 degrees of latitude
    (about 78 m) apart from one to the next. *)
Definition spot_south : ScrapedParkingSpot :=
  sample_spot "south" (601699 # 10000) (249384 # 10000) None true (7 # 10).
Definition spot_north : ScrapedParkingSpot :=
  sample_spot "north" (601713 # 10000) (249384 # 10000) None true (7 # 10).
Definition spot_middle : ScrapedParkingSpot :=
  sample_spot "middle" (601706 # 10000) (249384 # 10000) None true (95 # 100).

(** A spot with the given height limit, in Example 3 of the
    specification the limit 3.0 m. *)
Definition spot_3m : ScrapedParkingSpot :=
  sample_spot "low bridge" (601699 # 10000) (249384 # 10000) (Some 3) true
    (8 # 10).

(** A spot whose recorded height limit is 0.0. *)
Definition spot_zero_limit : ScrapedParkingSpot :=
  sample_spot "zero" (601699 # 10000) (249384 # 10000) (Some 0) true (8 # 10).

(** A spot whose recorded height and weight limits are both 0.0. *)
Definition spot_zero_limits : ScrapedParkingSpot :=
  {| name := "zeros"; latitude := 601699 # 10000; longitude := 249384 # 10000;
     address := "Unknown address"; parking_type := "parking_lot";
     max_height := Some 0; max_weight := Some 0; has_facilities := false;
     overnight_allowed := true; restrictions := [];
     source := "OpenStreetMap"; confidence := 8 # 10 |}.

Definition reqs_of_height (h : Q) : CamperRequirements :=
  {| height := h; weight := 35 # 10; length := 7;
     needs_facilities := false; needs_overnight := true; radius_km := 10 |}.

(** The spot with its height limit, or its weight limit, taken away. *)
Definition without_max_height (s : ScrapedParkingSpot) : ScrapedParkingSpot :=
  {| name := name s; latitude := latitude s; longitude := longitude s;
     address := address s; parking_type := parking_type s;
     max_height := None; max_weight := max_weight s;
     has_facilities := has_facilities s;
     overnight_allowed := overnight_allowed s;
     restrictions := restrictions s; source := source s;
     confidence := confidence s |}.

Definition without_max_weight (s : ScrapedParkingSpot) : ScrapedParkingSpot :=
  {| name := name s; latitude := latitude s; longitude := longitude s;
     address := address s; parking_type := parking_type s;
     max_height := max_height s; max_weight := None;
     has_facilities := has_facilities s;
     overnight_allowed := overnight_allowed s;
     restrictions := restrictions s; source := source s;
     confidence := confidence s |}.

(* ------------------------------------------------------------------ *)
(** ** Sequences without duplicates *)

(** Every spot of [l] is at or over the threshold from the spots of
    [accepted] and from the spots of [l] before it. *)
Fixpoint separated (accepted l : list ScrapedParkingSpot) : Prop :=
  match l with
  | [] => True
  | spot :: rest =>
      Forall (fun e => within_threshold spot e = false) accepted
      /\ separated (accepted ++ [spot]) rest
  end.

(* ------------------------------------------------------------------ *)
(** ** The retention condition in the words of the specification *)

(** "record has no max height, OR max height >= requirement height". *)
Definition spec_limit_ok (limit : option Q) (need : Q) : bool :=
  match limit with
  | None => true
  | Some v => Qle_bool need v
  end.

Definition spec_retains (reqs : CamperRequirements)
    (spot : ScrapedParkingSpot) : bool :=
  spec_limit_ok (max_height spot) (height reqs)
  && spec_limit_ok (max_weight spot) (weight reqs)
  && (negb (needs_facilities reqs) || has_facilities spot)
  && (negb (needs_overnight reqs) || overnight_allowed spot).

(** The same with a recorded limit of zero counted as no limit. *)
Definition limit_ok (limit : option Q) (need : Q) : bool :=
  match limit with
  | None => true
  | Some v => Qeq_bool v 0 || Qle_bool need v
  end.

Definition retains (reqs : CamperRequirements)
    (spot : ScrapedParkingSpot) : bool :=
  limit_ok (max_height spot) (height reqs)
  && limit_ok (max_weight spot) (weight reqs)
  && (negb (needs_facilities reqs) || has_facilities spot)
  && (negb (needs_overnight reqs) || overnight_allowed spot).

(** Descending confidence. *)
Definition conf_ge (a b : ScrapedParkingSpot) : Prop :=
  (confidence b <= confidence a)%Q.

(** The records of one confidence value, in their order. *)
Definition of_confidence (c : Q) (l : list ScrapedParkingSpot)
  : list ScrapedParkingSpot :=
  filter (fun s => Qeq_bool (confidence s) c) l.

(* ------------------------------------------------------------------ *)
(** ** What the connectors deliver *)

(** The records a piece of scraping contributes to its connector when
    the exception it may raise is caught there: none if it raised. *)
Definition records (o : outcome (list ScrapedParkingSpot))
  : list ScrapedParkingSpot :=
  match o with
  | Returned l => l
  | Raised _ => []
  end.

(** The state after [n] further interactions with the outside, and
    after a connector call is recorded. *)
Definition advance (n : nat) (st : FinderState) : FinderState :=
  {| cache := cache st; ticks := n + ticks st; calls := calls st |}.

Definition logged (c : ConnectorCall) (st : FinderState) : FinderState :=
  {| cache := cache st; ticks := ticks st; calls := c :: calls st |}.

(** The records of the Google search types queried from moment [t] on. *)
Fixpoint google_loop_records (env : Env) (lat lon radius_km : Q)
    (types : list string) (t : nat) : list ScrapedParkingSpot :=
  match types with
  | [] => []
  | search_type :: rest =>
      records (_search_by_type env t lat lon radius_km search_type)
      ++ google_loop_records env lat lon radius_km rest (S t)
  end.

Definition google_records (env : Env) (lat lon radius_km : Q) (t : nat)
  : list ScrapedParkingSpot :=
  if has_api_key env
  then google_loop_records env lat lon radius_km search_types t
  else [].

Definition google_ticks (env : Env) : nat :=
  if has_api_key env then 4 else 0.

Definition city_records (env : Env) (city : string) (lat lon radius_km : Q)
    (t : nat) : list ScrapedParkingSpot :=
  if contains "helsinki" (lower city)
  then records (_scrape_palvelukartta_api env t lat lon radius_km)
       ++ records (_scrape_parking_info_page env (S t) lat lon)
  else if negb (existsb (String.eqb (lower city)) city_parking_urls)
  then []
  else records (_scrape_city_parking_page env t (lower city) lat lon).

Definition city_ticks (city : string) : nat :=
  if contains "helsinki" (lower city) then 2
  else if negb (existsb (String.eqb (lower city)) city_parking_urls) then 0
  else 1.

(** The exceptions [OpenStreetMapScraper.search_parking_spots] has a
    handler for. *)
Definition osm_handles (e : exn) : bool :=
  match e with
  | RequestException | JSONDecodeError => true
  | _ => false
  end.

(** A scraping pass that starts in state [st], after the cache check:
    the moments at which Google, the city connector and the clock are
    asked, the records gathered when the OpenStreetMap part did [o], and
    the state once [unique_spots] is stored. *)
Definition t_google (st : FinderState) : nat := S (ticks st).

Definition t_city (env : Env) (st : FinderState) : nat :=
  google_ticks env + S (ticks st).

Definition t_store (env : Env) (city : string) (st : FinderState) : nat :=
  city_ticks city + (google_ticks env + S (ticks st)).

Definition all_spots_of (env : Env) (location : string)
    (lat lon radius_km : Q) (st : FinderState)
    (o : outcome (list ScrapedParkingSpot)) : list ScrapedParkingSpot :=
  records o
  ++ google_records env lat lon radius_km (t_google st)
  ++ city_records env location lat lon radius_km (t_city env st).

Definition stored_state (env : Env) (location : string)
    (lat lon radius_km : Q) (st : FinderState)
    (unique_spots : list ScrapedParkingSpot) : FinderState :=
  {| cache :=
       cache_store (cache_key lat lon radius_km)
         (unique_spots, time_time env (t_store env location st)) (cache st);
     ticks := S (t_store env location st);
     calls := CityCall location lat lon radius_km
              :: GoogleCall lat lon radius_km
              :: OsmCall lat lon radius_km :: calls st |}.

(* ------------------------------------------------------------------ *)
(** ** Sample environments *)

(** A finder as [__init__] leaves it: [self.cache = {}]. *)
Definition initial_state : FinderState :=
  {| cache := []; ticks := 0; calls := [] |}.

(** The defaults of [_load_defaults] when no file was saved. *)
Definition initial_ai : AIState :=
  {| finder := initial_state;
     default_params :=
       {| sp_location := ""; sp_height := 32 # 10; sp_weight := 35 # 10;
          sp_length := 7; sp_needs_facilities := false;
          sp_needs_overnight := true; sp_radius_km := 10 |} |}.

(** An environment without a Google key, whose clock advances one
    second per interaction, whose geocoder does [geo], whose
    OpenStreetMap request does [osm], and whose city pages hold
    nothing. *)
Definition sample_env (geo : outcome (option (Q * Q)))
    (osm : outcome (list ScrapedParkingSpot)) : Env :=
  {| time_time := fun t => inject_Z (Z.of_nat t);
     nominatim_search := fun _ _ => geo;
     overpass_query := fun _ _ _ _ => osm;
     api_key := None;
     _search_by_type := fun _ _ _ _ _ => Returned [];
     _scrape_palvelukartta_api := fun _ _ _ _ => Returned [];
     _scrape_parking_info_page := fun _ _ _ => Returned [];
     _scrape_city_parking_page := fun _ _ _ _ => Returned [] |}.

Definition espoo : outcome (option (Q * Q)) :=
  Returned (Some (602055 # 10000, 246559 # 10000)).

(** A geocoder that gives three points a few metres apart for three
    spellings of one place: 60.2055, 60.20554 and 60.20556 degrees of
    latitude.  The first two print alike with four decimals, the third
    does not. *)
Definition espoo_spellings (location : string) : outcome (option (Q * Q)) :=
  if String.eqb location "Espoo"
  then Returned (Some (602055 # 10000, 246559 # 10000))
  else if String.eqb location "Espoo, Finland"
  then Returned (Some (6020554 # 100000, 246559 # 10000))
  else Returned (Some (6020556 # 100000, 246559 # 10000)).

(** [sample_env] with a geocoder that looks at the place text. *)
Definition spellings_env (osm : outcome (list ScrapedParkingSpot)) : Env :=
  {| time_time := fun t => inject_Z (Z.of_nat t);
     nominatim_search := fun _ location => espoo_spellings location;
     overpass_query := fun _ _ _ _ => osm;
     api_key := None;
     _search_by_type := fun _ _ _ _ _ => Returned [];
     _scrape_palvelukartta_api := fun _ _ _ _ => Returned [];
     _scrape_parking_info_page := fun _ _ _ => Returned [];
     _scrape_city_parking_page := fun _ _ _ _ => Returned [] |}.

(** The requirements of a vehicle of height [h] that searches within
    [r] kilometres. *)
Definition reqs_of_height_radius (h r : Q) : CamperRequirements :=
  {| height := h; weight := 35 # 10; length := 7;
     needs_facilities := false; needs_overnight := true; radius_km := r |}.

(* ------------------------------------------------------------------ *)
(** ** Notions for the further properties *)

(** Two spots that the duplicate test keeps apart. *)
Definition far (a b : ScrapedParkingSpot) : Prop :=
  within_threshold a b = false.

(** Confidence does not rise along the sequence. *)
Definition confidence_descending (l : list ScrapedParkingSpot) : Prop :=
  StronglySorted conf_ge l.

(** The requirements [loose] ask for no more than [strict]. *)
Definition relaxes (loose strict : CamperRequirements) : Prop :=
  (height loose <= height strict)%Q
  /\ (weight loose <= weight strict)%Q
  /\ (needs_facilities loose = true -> needs_facilities strict = true)
  /\ (needs_overnight loose = true -> needs_overnight strict = true).

(** Far from each other, whichever of the two the test starts from. *)
Definition apart (a b : ScrapedParkingSpot) : Prop := far a b /\ far b a.

(* ------------------------------------------------------------------ *)
(** ** The map view: [show_map] and [ParkingMapVisualization.__init__] *)

(** [min(...)] over a generator: the first least element, [ValueError]
    when there is none. *)
Fixpoint min_from (current : Q) (l : list Q) : Q :=
  match l with
  | [] => current
  | x :: l' => min_from (if Qlt_bool x current then x else current) l'
  end.

Definition py_min (l : list Q) : outcome Q :=
  match l with
  | [] => Raised ValueError
  | x :: l' => Returned (min_from x l')
  end.

Fixpoint max_from (current : Q) (l : list Q) : Q :=
  match l with
  | [] => current
  | x :: l' => max_from (if Qlt_bool current x then x else current) l'
  end.

Definition py_max (l : list Q) : outcome Q :=
  match l with
  | [] => Raised ValueError
  | x :: l' => Returned (max_from x l')
  end.

(** [(max - min) * 0.1 or 0.01]: the second value when the first is
    zero.  The product is the exact one, where the source has the float
    nearest to it (which is zero also for a span so small that the
    product underflows); the same holds for the sums and differences of
    [map_bounds].  What is proved of the bounds is stated so that it
    holds of the rounded values too. *)
Definition padding (span : Q) : Q :=
  let p := span * (1 # 10) in
  if Qeq_bool p 0 then 1 # 100 else p.

Record MapBounds : Type := {
  min_lat : Q;
  max_lat : Q;
  min_lon : Q;
  max_lon : Q
}.

(** The bounds computed in [ParkingMapVisualization.__init__] from the
    coordinates of the spots. *)
Definition map_bounds (coords : list (Q * Q)) : outcome MapBounds :=
  (lo_lat <- py_min (map fst coords) ;;
   hi_lat <- py_max (map fst coords) ;;
   lo_lon <- py_min (map snd coords) ;;
   hi_lon <- py_max (map snd coords) ;;
   let lat_padding := padding (hi_lat - lo_lat) in
   let lon_padding := padding (hi_lon - lo_lon) in
   Returned {| min_lat := lo_lat - lat_padding;
               max_lat := hi_lat + lat_padding;
               min_lon := lo_lon - lon_padding;
               max_lon := hi_lon + lon_padding |})%outcome.

(** [ParkingMapVisualization(results)] up to the bounds: a result
    without the key ["parking_spots"] gives a [KeyError]. *)
Definition visualization_bounds (results : SearchResult) : outcome MapBounds :=
  match results with
  | success _ _ _ _ parking_spots =>
      map_bounds (map f_coordinates parking_spots)
  | _ => Raised OtherException
  end.

(** The guard of [show_map]: nothing is drawn when
    [results["status"] != "success" or not results["parking_spots"]]. *)
Definition show_map_draws (results : SearchResult) : bool :=
  match results with
  | success _ _ _ _ (_ :: _) => true
  | _ => false
  end.

(* ------------------------------------------------------------------ *)
(** ** OpenStreetMap elements: [_parse_osm_element] and its helpers *)

(** The [tags] object of an element. *)
Definition Tags : Type := list (string * string).

(** [tags.get(k)]. *)
Fixpoint tags_get (tags : Tags) (k : string) : option string :=
  match tags with
  | [] => None
  | (k', v) :: rest => if String.eqb k' k then Some v else tags_get rest k
  end.

(** [tags.get(k, default)]. *)
Definition tags_get_default (tags : Tags) (k default : string) : string :=
  match tags_get tags k with
  | Some v => v
  | None => default
  end.

(** [tags.get(k) == v]. *)
Definition tag_is (tags : Tags) (k v : string) : bool :=
  match tags_get tags k with
  | Some x => String.eqb x v
  | None => false
  end.

Definition _determine_parking_type (tags : Tags) : string :=
  if tag_is tags "tourism" "camp_site" then "campsite"
  else if tag_is tags "highway" "rest_area" then "rest_area"
  else if tag_is tags "leisure" "park" then "park_area"
  else if tag_is tags "parking" "surface" then "surface_parking"
  else if tag_is tags "parking" "multi-storey" then "parking_garage"
  else "parking_lot".

(** The digits [0] to [9]. *)
Definition is_digit (c : ascii) : bool :=
  let n := nat_of_ascii c in Nat.leb 48 n && Nat.leb n 57.

(** The longest prefix of digits, and what follows it. *)
Fixpoint digits_prefix (s : string) : string * string :=
  match s with
  | EmptyString => (EmptyString, EmptyString)
  | String c s' =>
      if is_digit c
      then let (d, rest) := digits_prefix s' in (String c d, rest)
      else (EmptyString, s)
  end.

(** The text after an optional point: the point and the digits that
    follow it. *)
Definition fraction_text (rest : string) : string :=
  match rest with
  | String "."%char rest' => String "."%char (fst (digits_prefix rest'))
  | _ => EmptyString
  end.

(** [re.search] for the pattern of the source (one or more digits, an
    optional point, any number of digits), giving [match.group(1)]: the
    match starts at the first digit of [s] and is greedy.  Digits are
    the ASCII ones; the digits of other scripts, which Python's pattern
    accepts too, are outside the model. *)
Fixpoint search_number (s : string) : option string :=
  match s with
  | EmptyString => None
  | String c s' =>
      if is_digit c
      then let (int_text, rest) := digits_prefix s in
           Some (int_text ++ fraction_text rest)%string
      else search_number s'
  end.

Fixpoint digits_value (s : string) (acc : Z) : Z :=
  match s with
  | EmptyString => acc
  | String c s' =>
      digits_value s' (10 * acc + Z.of_nat (nat_of_ascii c - 48))%Z
  end.

Fixpoint pow10 (n : nat) : positive :=
  match n with
  | O => 1%positive
  | S n' => (10 * pow10 n')%positive
  end.

(** [float(text)] for a text of the form the pattern matches: digits,
    then possibly a point and digits.  The value is the decimal number
    itself, where the source has the float nearest to it. *)
Definition float_of_number (text : string) : Q :=
  let (int_text, rest) := digits_prefix text in
  let frac_text :=
    match rest with
    | String "."%char rest' => fst (digits_prefix rest')
    | _ => EmptyString
    end in
  digits_value (int_text ++ frac_text)%string 0 # pow10 (String.length frac_text).

(** The text [_parse_height_restriction] reads:
    [tags.get('maxheight', tags.get('height', ''))]. *)
Definition height_text (tags : Tags) : string :=
  tags_get_default tags "maxheight" (tags_get_default tags "height" "").

Definition _parse_height_restriction (tags : Tags) : option Q :=
  let height_str := height_text tags in
  if negb (String.eqb height_str "")
  then match search_number height_str with
       | Some text => Some (float_of_number text)
       | None => None
       end
  else None.

Definition weight_text (tags : Tags) : string :=
  tags_get_default tags "maxweight" "".

Definition _parse_weight_restriction (tags : Tags) : option Q :=
  let weight_str := weight_text tags in
  if negb (String.eqb weight_str "")
  then match search_number weight_str with
       | Some text =>
           let weight := float_of_number text in
           Some (if contains "kg" (lower weight_str)
                 then weight / 1000 else weight)
       | None => None
       end
  else None.

Definition facility_indicators : list string :=
  ["toilets"; "drinking_water"; "shower"; "waste_disposal";
   "electricity"; "water_point"]%string.

Definition _has_facilities (tags : Tags) : bool :=
  existsb (fun indicator => tag_is tags indicator "yes") facility_indicators.

Definition _overnight_allowed (tags : Tags) : bool :=
  if tag_is tags "camping" "no" then false
  else if contains "no overnight" (lower (tags_get_default tags "note" ""))
  then false
  else if tag_is tags "tourism" "camp_site" then true
  else if tag_is tags "highway" "rest_area" then true
  else true.

Definition _parse_restrictions (tags : Tags) : list string :=
  (if tag_is tags "access" "private"
   then ["Private access only"%string] else [])
  ++ (if tag_is tags "fee" "yes" then ["Paid parking"%string] else [])
  ++ (match tags_get tags "time_limit" with
      | Some v => [("Time limit: " ++ v)%string]
      | None => []
      end)
  ++ (match tags_get tags "opening_hours" with
      | Some v => if String.eqb v "" then [] else [("Hours: " ++ v)%string]
      | None => []
      end).

(** An element of the Overpass answer: its own [lat] and [lon], its
    [center] object, its [tags] object, each of which may be missing. *)
Record OsmCenter : Type := {
  center_lat : option Q;
  center_lon : option Q
}.

Record OsmElement : Type := {
  el_lat : option Q;
  el_lon : option Q;
  el_center : option OsmCenter;
  el_tags : option Tags
}.

(** The coordinates as [_parse_osm_element] gets them: the element's
    own pair, else those of its [center], where a missing key raises
    [KeyError]; [None] when there is neither. *)
Definition element_coordinates (element : OsmElement)
  : outcome (option (Q * Q)) :=
  match el_lat element, el_lon element with
  | Some lat, Some lon => Returned (Some (lat, lon))
  | _, _ =>
      match el_center element with
      | Some center =>
          match center_lat center with
          | None => Raised OtherException
          | Some lat =>
              match center_lon center with
              | None => Raised OtherException
              | Some lon => Returned (Some (lat, lon))
              end
          end
      | None => Returned None
      end
  end.

Definition _parse_osm_element (element : OsmElement)
  : outcome (option ScrapedParkingSpot) :=
  let tags := match el_tags element with Some t => t | None => [] end in
  (coords <- element_coordinates element ;;
   match coords with
   | None => Returned None
   | Some (lat, lon) =>
       Returned (Some
         {| name := tags_get_default tags "name"
                      ("Parking near " ++ format_4f lat ++ ", "
                       ++ format_4f lon)%string;
            latitude := lat;
            longitude := lon;
            address := tags_get_default tags "addr:street" "Unknown address";
            parking_type := _determine_parking_type tags;
            max_height := _parse_height_restriction tags;
            max_weight := _parse_weight_restriction tags;
            has_facilities := _has_facilities tags;
            overnight_allowed := _overnight_allowed tags;
            restrictions := _parse_restrictions tags;
            source := "OpenStreetMap";
            confidence := 8 # 10 |})
   end)%outcome.

(** The loop of [OpenStreetMapScraper.search_parking_spots] over
    [data.get('elements', [])]. *)
Fixpoint osm_collect (elements : list OsmElement)
    (spots : list ScrapedParkingSpot) : outcome (list ScrapedParkingSpot) :=
  match elements with
  | [] => Returned spots
  | element :: rest =>
      (spot <- _parse_osm_element element ;;
       match spot with
       | Some s => osm_collect rest (spots ++ [s])
       | None => osm_collect rest spots
       end)%outcome
  end.

(** The [try] block of [OpenStreetMapScraper.search_parking_spots],
    given what the request and the JSON decoding do. *)
Definition overpass_try_block (response : outcome (list OsmElement))
  : outcome (list ScrapedParkingSpot) :=
  (elements <- response ;; osm_collect elements [])%outcome.

(** An environment whose OpenStreetMap part runs that block on the
    answers [response] of the Overpass server. *)
Definition with_overpass (env : Env)
    (response : nat -> Q -> Q -> Q -> outcome (list OsmElement)) : Env :=
  {| time_time := time_time env;
     nominatim_search := nominatim_search env;
     overpass_query :=
       fun t lat lon radius_km =>
         overpass_try_block (response t lat lon radius_km);
     api_key := api_key env;
     _search_by_type := _search_by_type env;
     _scrape_palvelukartta_api := _scrape_palvelukartta_api env;
     _scrape_parking_info_page := _scrape_parking_info_page env;
     _scrape_city_parking_page := _scrape_city_parking_page env |}.

(** An element whose coordinates can only come from a [center] that
    lacks one of them. *)
Definition broken_center (element : OsmElement) : bool :=
  match el_lat element, el_lon element with
  | Some _, Some _ => false
  | _, _ =>
      match el_center element with
      | Some center =>
          match center_lat center, center_lon center with
          | Some _, Some _ => false
          | _, _ => true
          end
      | None => false
      end
  end.

(** Some character of the text is a digit. *)
Fixpoint has_digit (s : string) : bool :=
  match s with
  | EmptyString => false
  | String c s' => is_digit c || has_digit s'
  end.

(* ------------------------------------------------------------------ *)
(** ** Google places: [_parse_google_place] *)

(** A non-empty [location] object; [lat] and [lng] may be missing. *)
Record GoogleLocation : Type := {
  loc_lat : option Q;
  loc_lng : option Q
}.

(** A place of the answer; [place_location] is [None] when
    [place.get('geometry', {}).get('location', {})] is empty. *)
Record GooglePlace : Type := {
  place_location : option GoogleLocation;
  place_name : option string;
  place_vicinity : option string;
  place_rating : option string
}.

Definition in_list (x : string) (l : list string) : bool :=
  existsb (String.eqb x) l.

Definition _parse_google_place (place : GooglePlace) (place_type : string)
  : outcome (option ScrapedParkingSpot) :=
  match place_location place with
  | None => Returned None
  | Some location =>
      match loc_lat location with
      | None => Raised OtherException
      | Some lat =>
          match loc_lng location with
          | None => Raised OtherException
          | Some lng =>
              Returned (Some
                {| name := match place_name place with
                           | Some n => n
                           | None => "Unnamed location"
                           end;
                   latitude := lat;
                   longitude := lng;
                   address := match place_vicinity place with
                              | Some v => v
                              | None => "Unknown address"
                              end;
                   parking_type := place_type;
                   max_height := None;
                   max_weight := None;
                   has_facilities :=
                     in_list place_type ["campground"; "rv_park"]%string;
                   overnight_allowed :=
                     in_list place_type
                       ["campground"; "rv_park"; "rest_area"]%string;
                   restrictions :=
                     [("Rating: " ++ match place_rating place with
                                     | Some r => r
                                     | None => "N/A"
                                     end)%string];
                   source := "Google Places";
                   confidence := 7 # 10 |})
          end
      end
  end.

(** The loop of [_search_by_type] over [data.get('results', [])]. *)
Fixpoint google_collect (place_type : string) (places : list GooglePlace)
    (spots : list ScrapedParkingSpot) : outcome (list ScrapedParkingSpot) :=
  match places with
  | [] => Returned spots
  | place :: rest =>
      (spot <- _parse_google_place place place_type ;;
       match spot with
       | Some s => google_collect place_type rest (spots ++ [s])
       | None => google_collect place_type rest spots
       end)%outcome
  end.

(* ------------------------------------------------------------------ *)
(** ** Helsinki Palvelukartta: [_parse_restrictions_from_description] *)

(** The function gets the description already in lower case and only
    looks for substrings of it. *)
Definition _parse_restrictions_from_description (description : string)
  : list string :=
  (if contains "maksullinen" description || contains "maksu" description
   then ["Paid parking"%string]
   else if contains "maksuton" description || contains "ilmainen" description
   then ["Free parking"%string]
   else [])
  ++ (if contains "aikarajoitus" description
         || contains "time limit" description
      then ["Time restrictions apply"%string] else [])
  ++ (if contains "lupa" description || contains "permit" description
      then ["Permit may be required"%string] else []).

(* ------------------------------------------------------------------ *)
(** ** Sample answers of the sources *)

(** An element with its own coordinates, and one whose [center] lacks
    the longitude. *)
Definition element_plain : OsmElement :=
  {| el_lat := Some (601699 # 10000); el_lon := Some (249384 # 10000);
     el_center := None; el_tags := Some [("maxheight", "3.0 m")]%string |}.

Definition element_broken : OsmElement :=
  {| el_lat := None; el_lon := None;
     el_center := Some {| center_lat := Some (601699 # 10000);
                          center_lon := None |};
     el_tags := None |}.

(** An answer of three elements: two at one place, with different
    tags, and a third 0.0014 degrees of latitude (about 156 m) north of
    them. *)
Definition element_again : OsmElement :=
  {| el_lat := Some (601699 # 10000); el_lon := Some (249384 # 10000);
     el_center := None; el_tags := Some [("fee", "yes")]%string |}.

Definition element_north : OsmElement :=
  {| el_lat := Some (601713 # 10000); el_lon := Some (249384 # 10000);
     el_center := None; el_tags := None |}.

Definition sample_answer : list OsmElement :=
  [element_plain; element_again; element_north].

(** The spots [search_parking_spots] builds from that answer. *)
Definition sample_answer_spots : list ScrapedParkingSpot :=
  records (osm_collect sample_answer []).

Definition place_plain : GooglePlace :=
  {| place_location := Some {| loc_lat := Some (601699 # 10000);
                               loc_lng := Some (249384 # 10000) |};
     place_name := Some "Rastila"%string; place_vicinity := None;
     place_rating := None |}.

(** The coordinates the elements give, in their order. *)
Definition coordinates_of (elements : list OsmElement) : list (Q * Q) :=
  flat_map (fun e => match element_coordinates e with
                     | Returned (Some c) => [c]
                     | _ => []
                     end) elements.

(** What every spot built by [_parse_osm_element] carries. *)
Definition osm_stamp (s : ScrapedParkingSpot) : Prop :=
  confidence s = 8 # 10 /\ source s = "OpenStreetMap"%string.

(** What every spot built by [_parse_google_place] for a search type
    carries. *)
Definition google_stamp (place_type : string) (s : ScrapedParkingSpot) : Prop :=
  parking_type s = place_type
  /\ max_height s = None /\ max_weight s = None
  /\ has_facilities s = in_list place_type ["campground"; "rv_park"]%string
  /\ overnight_allowed s
     = in_list place_type ["campground"; "rv_park"; "rest_area"]%string
  /\ confidence s = 7 # 10.

(* ------------------------------------------------------------------ *)
(** ** Notions for texts *)

(** A text of ASCII characters only.  A [string] is the UTF-8 byte
    sequence of a Python [str], so a character outside ASCII shows as
    bytes of 128 and more. *)
Fixpoint ascii_only (s : string) : bool :=
  match s with
  | EmptyString => true
  | String c s' => Nat.ltb (nat_of_ascii c) 128 && ascii_only s'
  end.

(** A text of the digits [0] to [9] only. *)
Fixpoint digits_only (s : string) : Prop :=
  match s with
  | EmptyString => True
  | String c s' => is_digit c = true /\ digits_only s'
  end.

(* ================================================================== *)
(** * Properties *)

Lemma Qlt_bool_iff (a b : Q) : Qlt_bool a b = true <-> (a < b)%Q.
Proof.
  unfold Qlt_bool. rewrite negb_true_iff.
  split; intro H.
  - apply Qnot_le_lt. intro Hle. apply Qle_bool_iff in Hle. congruence.
  - destruct (Qle_bool b a) eqn:E; [|reflexivity].
    apply Qle_bool_iff in E. exfalso. exact (Qlt_not_le _ _ H E).
Qed.

Lemma Qlt_bool_false_iff (a b : Q) : Qlt_bool a b = false <-> (b <= a)%Q.
Proof.
  unfold Qlt_bool. rewrite negb_false_iff. apply Qle_bool_iff.
Qed.

(* ------------------------------------------------------------------ *)
(** ** Geo math *)

Section GeoFacts.
Local Open Scope R_scope.

Lemma asin_abs_sin (x : R) :
  - (PI / 2) <= x <= PI / 2 -> asin (Rabs (sin x)) = Rabs x.
Proof.
  intros [Hlo Hhi].
  pose proof PI_RGT_0 as Hpi.
  destruct (Rle_dec 0 x) as [Hx | Hx].
  - rewrite (Rabs_right x) by lra.
    rewrite Rabs_right.
    + apply asin_sin; lra.
    + apply Rle_ge, sin_ge_0; lra.
  - assert (Hneg : 0 <= sin (- x)) by (apply sin_ge_0; lra).
    rewrite sin_neg in Hneg.
    rewrite (Rabs_left x) by lra.
    rewrite Rabs_left1 by lra.
    rewrite <- sin_neg.
    apply asin_sin; lra.
Qed.

(** Along a meridian the haversine distance is the arc length. *)
Lemma meridian_distance (lat1 lat2 lon : R) :
  Rabs (lat2 - lat1) <= 180 ->
  Geo._calculate_distance lat1 lon lat2 lon
  = Rabs (lat2 - lat1) * PI / 180 * 6371.
Proof.
  intro Hd.
  pose proof PI_RGT_0 as Hpi.
  unfold Geo._calculate_distance, Geo.radians.
  set (x := (lat2 * PI / 180 - lat1 * PI / 180) / 2).
  replace ((lon * PI / 180 - lon * PI / 180) / 2) with 0 by field.
  rewrite sin_0.
  replace (sin x ^ 2 + cos (lat1 * PI / 180) * cos (lat2 * PI / 180) * 0 ^ 2)
    with (Rsqr (sin x)) by (unfold Rsqr; ring).
  rewrite sqrt_Rsqr_abs.
  assert (Hx : x = (lat2 - lat1) * (PI / 360)) by (unfold x; field).
  assert (Habs : Rabs x = Rabs (lat2 - lat1) * (PI / 360)).
  { rewrite Hx, Rabs_mult. f_equal. apply Rabs_right. lra. }
  rewrite asin_abs_sin.
  - rewrite Habs. field.
  - assert (Hb : Rabs x <= PI / 2).
    { rewrite Habs.
      apply Rle_trans with (180 * (PI / 360)); [|lra].
      apply Rmult_le_compat_r; lra. }
    pose proof (RRle_abs x) as Hup.
    pose proof (RRle_abs (- x)) as Hdn.
    rewrite Rabs_Ropp in Hdn. lra.
Qed.

Lemma PI_gt_3 : 3 < PI.
Proof. pose proof PI2_3_2. lra. Qed.

End GeoFacts.

Lemma within_threshold_true (spot existing : ScrapedParkingSpot) :
  (spot_distance spot existing < 1 / 10)%R ->
  within_threshold spot existing = true.
Proof.
  intro H. unfold within_threshold, Geo.duplicate_threshold.
  destruct (Rlt_dec _ _); [reflexivity | contradiction].
Qed.

Lemma within_threshold_false (spot existing : ScrapedParkingSpot) :
  (1 / 10 <= spot_distance spot existing)%R ->
  within_threshold spot existing = false.
Proof.
  intro H. unfold within_threshold, Geo.duplicate_threshold.
  destruct (Rlt_dec _ _); [lra | reflexivity].
Qed.

(** Spots on one meridian: the distance from the difference of the
    latitudes. *)
Lemma spot_distance_meridian (spot existing : ScrapedParkingSpot) (d : R) :
  longitude spot = longitude existing ->
  (Q2R (latitude existing) - Q2R (latitude spot) = d)%R ->
  (Rabs d <= 180)%R ->
  spot_distance spot existing = (Rabs d * PI / 180 * 6371)%R.
Proof.
  intros Hlon Hd Hb. unfold spot_distance.
  rewrite Hlon, <- Hd. apply meridian_distance. now rewrite Hd.
Qed.

(** The distances between the three sample spots, against the
    threshold. *)
Lemma sample_distance (a b : ScrapedParkingSpot) (d : R) :
  longitude a = longitude b ->
  (Q2R (latitude b) - Q2R (latitude a) = d)%R ->
  (Rabs d <= 1)%R ->
  spot_distance a b = (Rabs d * PI / 180 * 6371)%R.
Proof.
  intros Hlon Hd Hb. apply spot_distance_meridian; auto. lra.
Qed.

Ltac sample_distance_tac d :=
  rewrite (sample_distance _ _ d);
  [ | reflexivity
    | unfold Q2R; simpl; lra
    | unfold Rabs; destruct (Rcase_abs _); lra ].

Lemma middle_south_distance :
  (spot_distance spot_middle spot_south < 1 / 10)%R.
Proof.
  sample_distance_tac (- (7 / 10000))%R.
  rewrite Rabs_left by lra. pose proof PI_4. pose proof PI_RGT_0. lra.
Qed.

Lemma middle_north_distance :
  (spot_distance spot_middle spot_north < 1 / 10)%R.
Proof.
  sample_distance_tac (7 / 10000)%R.
  rewrite Rabs_right by lra. pose proof PI_4. pose proof PI_RGT_0. lra.
Qed.

Lemma north_middle_distance :
  (spot_distance spot_north spot_middle < 1 / 10)%R.
Proof.
  sample_distance_tac (- (7 / 10000))%R.
  rewrite Rabs_left by lra. pose proof PI_4. pose proof PI_RGT_0. lra.
Qed.

Lemma north_south_distance :
  (1 / 10 <= spot_distance spot_north spot_south)%R.
Proof.
  sample_distance_tac (- (14 / 10000))%R.
  rewrite Rabs_left by lra. pose proof PI_gt_3. lra.
Qed.

(* ------------------------------------------------------------------ *)
(** ** De-duplication *)

Lemma list_string_eqb_refl (l : list string) : list_string_eqb l l = true.
Proof.
  induction l as [|x l IH]; simpl; [reflexivity|].
  now rewrite String.eqb_refl, IH.
Qed.

Lemma opt_float_eqb_refl (x : option Q) : opt_float_eqb x x = true.
Proof. destruct x; simpl; [apply Qeq_bool_refl | reflexivity]. Qed.

Lemma spot_eqb_refl (x : ScrapedParkingSpot) : spot_eqb x x = true.
Proof.
  unfold spot_eqb.
  rewrite !String.eqb_refl, !Qeq_bool_refl, !opt_float_eqb_refl,
    !Bool.eqb_reflx, list_string_eqb_refl.
  reflexivity.
Qed.

(** Equal spots have equal coordinates, so the distance test cannot
    tell them apart. *)
Lemma spot_eqb_within (spot x y : ScrapedParkingSpot) :
  spot_eqb x y = true -> within_threshold spot x = within_threshold spot y.
Proof.
  unfold spot_eqb. rewrite !andb_true_iff.
  intros [[[[[[[[[[[_ Hlat] Hlon] _] _] _] _] _] _] _] _] _].
  apply Qeq_bool_eq, Qeq_eqR in Hlat.
  apply Qeq_bool_eq, Qeq_eqR in Hlon.
  unfold within_threshold, spot_distance. now rewrite Hlat, Hlon.
Qed.

Lemma list_remove_In (x : ScrapedParkingSpot) (l : list ScrapedParkingSpot) :
  In x l -> exists r, list_remove x l = Returned r.
Proof.
  induction l as [|y l IH]; simpl; [contradiction|].
  intros [-> | Hin].
  - rewrite spot_eqb_refl. eauto.
  - destruct (spot_eqb y x); [eauto|].
    destruct (IH Hin) as [r ->]. simpl. eauto.
Qed.

(** Removing an element that has no equal before it takes out that very
    occurrence. *)
Lemma list_remove_first (x : ScrapedParkingSpot)
    (pre post : list ScrapedParkingSpot) :
  Forall (fun y => spot_eqb y x = false) pre ->
  list_remove x (pre ++ x :: post) = Returned (pre ++ post).
Proof.
  induction 1 as [|y pre Hy _ IH]; simpl.
  - now rewrite spot_eqb_refl.
  - now rewrite Hy, IH.
Qed.

Lemma find_first (A : Type) (f : A -> bool) (pre post : list A) (x : A) :
  Forall (fun y => f y = false) pre -> f x = true ->
  find f (pre ++ x :: post) = Some x.
Proof.
  induction 1 as [|y pre Hy _ IH]; simpl; intro Hx.
  - now rewrite Hx.
  - rewrite Hy. auto.
Qed.

Lemma first_split (A : Type) (f : A -> bool) (l : list A) :
  (exists e, In e l /\ f e = true) ->
  exists pre x post,
    l = pre ++ x :: post /\ Forall (fun y => f y = false) pre /\ f x = true.
Proof.
  induction l as [|y l IH]; intros [e [Hin He]]; [destruct Hin|].
  destruct (f y) eqn:Hy.
  - exists [], y, l. repeat split; auto.
  - destruct IH as (pre & x & post & -> & Hpre & Hx).
    + destruct Hin as [-> | Hin]; [congruence | eauto].
    + exists (y :: pre), x, post. repeat split; auto.
Qed.

Lemma find_In (A : Type) (f : A -> bool) (l : list A) (x : A) :
  find f l = Some x -> In x l.
Proof. intro H. apply find_some in H. tauto. Qed.

(** The loop body on an accepted sequence whose first spot under the
    threshold is [existing]. *)
Lemma dedup_step_first_match (spot existing : ScrapedParkingSpot)
    (pre post : list ScrapedParkingSpot) :
  Forall (fun e => within_threshold spot e = false) pre ->
  within_threshold spot existing = true ->
  dedup_step (pre ++ existing :: post) spot
  = if Qlt_bool (confidence existing) (confidence spot)
    then Returned (pre ++ post ++ [spot])
    else Returned (pre ++ existing :: post).
Proof.
  intros Hpre Hex. unfold dedup_step.
  rewrite (find_first _ _ _ post _ Hpre Hex).
  destruct (Qlt_bool _ _); [|reflexivity].
  rewrite list_remove_first.
  - simpl. now rewrite <- app_assoc.
  - eapply Forall_impl; [|exact Hpre].
    intros y Hy. simpl in Hy.
    destruct (spot_eqb y existing) eqn:E; [|reflexivity].
    apply (spot_eqb_within spot) in E. congruence.
Qed.

Lemma dedup_step_no_match (spot : ScrapedParkingSpot)
    (unique_spots : list ScrapedParkingSpot) :
  Forall (fun e => within_threshold spot e = false) unique_spots ->
  dedup_step unique_spots spot = Returned (unique_spots ++ [spot]).
Proof.
  intro H. unfold dedup_step.
  destruct (find _ _) as [e|] eqn:E; [|reflexivity].
  apply find_some in E. destruct E as [Hin He].
  rewrite Forall_forall in H. rewrite (H _ Hin) in He. discriminate.
Qed.

(** [list.remove] never raises inside [_deduplicate_spots]: the loop
    body always returns. *)
Lemma dedup_step_returns (unique_spots : list ScrapedParkingSpot)
    (spot : ScrapedParkingSpot) :
  exists u, dedup_step unique_spots spot = Returned u.
Proof.
  unfold dedup_step.
  destruct (find _ _) as [e|] eqn:E; [|eauto].
  destruct (Qlt_bool _ _); [|eauto].
  destruct (list_remove_In _ _ (find_In _ _ _ _ E)) as [r ->]. simpl. eauto.
Qed.

Lemma dedup_loop_returns (spots unique_spots : list ScrapedParkingSpot) :
  exists u, dedup_loop spots unique_spots = Returned u.
Proof.
  revert unique_spots.
  induction spots as [|s spots IH]; intro u; simpl; [eauto|].
  destruct (dedup_step_returns u s) as [u' ->]. simpl. apply IH.
Qed.

Lemma _deduplicate_spots_returns (spots : list ScrapedParkingSpot) :
  exists u, _deduplicate_spots spots = Returned u.
Proof. apply dedup_loop_returns. Qed.

Lemma dedup_loop_app (l1 l2 u : list ScrapedParkingSpot) :
  dedup_loop (l1 ++ l2) u = obind (dedup_loop l1 u) (dedup_loop l2).
Proof.
  revert u. induction l1 as [|s l1 IH]; intro u; simpl; [reflexivity|].
  destruct (dedup_step u s); simpl; auto.
Qed.

Lemma _deduplicate_spots_snoc (spots accepted : list ScrapedParkingSpot)
    (spot : ScrapedParkingSpot) :
  _deduplicate_spots spots = Returned accepted ->
  _deduplicate_spots (spots ++ [spot]) = dedup_step accepted spot.
Proof.
  unfold _deduplicate_spots. intro H.
  rewrite dedup_loop_app, H. simpl.
  now destruct (dedup_step accepted spot).
Qed.

(** On a sequence without duplicates the function changes nothing: it
    is idempotent wherever its output has no two spots under the
    threshold. *)
Lemma dedup_loop_separated (l accepted : list ScrapedParkingSpot) :
  separated accepted l -> dedup_loop l accepted = Returned (accepted ++ l).
Proof.
  revert accepted.
  induction l as [|spot l IH]; intros accepted H; simpl.
  - now rewrite app_nil_r.
  - destruct H as [Hfar Hrest].
    rewrite (dedup_step_no_match _ _ Hfar). simpl.
    rewrite (IH _ Hrest). now rewrite <- app_assoc.
Qed.

Lemma _deduplicate_spots_separated (l : list ScrapedParkingSpot) :
  separated [] l -> _deduplicate_spots l = Returned l.
Proof. apply dedup_loop_separated. Qed.

(** C2: an incoming record under the threshold of some accepted spot is
    compared with the first such spot in scan order only; with strictly
    greater confidence it takes that spot's place at the end of the
    sequence, otherwise (ties included) it is dropped and the sequence
    stays as it was. *)
Theorem dedup_first_match_policy
    (spots accepted : list ScrapedParkingSpot) (spot : ScrapedParkingSpot) :
  _deduplicate_spots spots = Returned accepted ->
  (exists e, In e accepted /\ within_threshold spot e = true) ->
  exists pre existing post,
    accepted = pre ++ existing :: post
    /\ Forall (fun e => within_threshold spot e = false) pre
    /\ within_threshold spot existing = true
    /\ ((confidence existing < confidence spot)%Q ->
        _deduplicate_spots (spots ++ [spot])
        = Returned (pre ++ post ++ [spot]))
    /\ ((confidence spot <= confidence existing)%Q ->
        _deduplicate_spots (spots ++ [spot]) = Returned accepted).
Proof.
  intros Hacc Hnear.
  destruct (first_split _ _ _ Hnear) as (pre & existing & post & -> & Hpre & Hex).
  exists pre, existing, post.
  rewrite (_deduplicate_spots_snoc _ _ _ Hacc).
  rewrite (dedup_step_first_match _ _ _ _ Hpre Hex).
  repeat split; auto.
  - intro Hlt. apply Qlt_bool_iff in Hlt. now rewrite Hlt.
  - intro Hle. apply Qlt_bool_false_iff in Hle. now rewrite Hle.
Qed.

Lemma dedup_first_match_policy_witness :
  exists pre existing post,
    [spot_south] = pre ++ existing :: post
    /\ Forall (fun e => within_threshold spot_middle e = false) pre
    /\ within_threshold spot_middle existing = true
    /\ ((confidence existing < confidence spot_middle)%Q ->
        _deduplicate_spots ([spot_south] ++ [spot_middle])
        = Returned (pre ++ post ++ [spot_middle]))
    /\ ((confidence spot_middle <= confidence existing)%Q ->
        _deduplicate_spots ([spot_south] ++ [spot_middle])
        = Returned [spot_south]).
Proof.
  apply (dedup_first_match_policy [spot_south] [spot_south] spot_middle).
  - reflexivity.
  - exists spot_south. split; [now left|].
    apply within_threshold_true, middle_south_distance.
Defined.

(** C1, on the code: three spots on one meridian, 78 m apart from one to
    the next.  The middle one arrives last with the highest confidence
    and takes the place of the southern one, its first match; it is never
    compared with the northern one, 78 m away, which stays.  The output
    holds two spots under the threshold, and a second run on that output
    changes it. *)
Theorem dedup_output_keeps_near_pair :
  _deduplicate_spots [spot_south; spot_north; spot_middle]
  = Returned [spot_north; spot_middle]
  /\ (spot_distance spot_north spot_middle < Geo.duplicate_threshold)%R
  /\ _deduplicate_spots [spot_north; spot_middle] = Returned [spot_middle].
Proof.
  pose proof (within_threshold_false _ _ north_south_distance) as Hns.
  pose proof (within_threshold_true _ _ middle_south_distance) as Hms.
  pose proof (within_threshold_true _ _ middle_north_distance) as Hmn.
  split; [|split].
  - change (_deduplicate_spots [spot_south; spot_north; spot_middle])
      with (_deduplicate_spots (([spot_south] ++ [spot_north]) ++ [spot_middle])).
    assert (H2 : _deduplicate_spots ([spot_south] ++ [spot_north])
                 = Returned [spot_south; spot_north]).
    { rewrite (_deduplicate_spots_snoc [spot_south] [spot_south]) by reflexivity.
      apply (dedup_step_no_match spot_north [spot_south]).
      constructor; [exact Hns | constructor]. }
    rewrite (_deduplicate_spots_snoc _ _ _ H2).
    exact (dedup_step_first_match spot_middle spot_south [] [spot_north]
             (Forall_nil _) Hms).
  - exact north_middle_distance.
  - change (_deduplicate_spots [spot_north; spot_middle])
      with (_deduplicate_spots ([spot_north] ++ [spot_middle])).
    rewrite (_deduplicate_spots_snoc [spot_north] [spot_north]) by reflexivity.
    exact (dedup_step_first_match spot_middle spot_north [] []
             (Forall_nil _) Hmn).
Qed.

(* ------------------------------------------------------------------ *)
(** ** Requirement filter *)

Lemma restricted_below_limit_ok (limit : option Q) (need : Q) :
  restricted_below limit need = negb (limit_ok limit need).
Proof.
  destruct limit as [v|]; simpl; [|reflexivity].
  unfold Qlt_bool. now rewrite negb_orb.
Qed.

(** The loop body keeps a spot exactly under [retains]. *)
Lemma suitable_retains (reqs : CamperRequirements) (spot : ScrapedParkingSpot) :
  suitable reqs spot = retains reqs spot.
Proof.
  unfold suitable, retains.
  rewrite !restricted_below_limit_ok.
  destruct (limit_ok (max_height spot) (height reqs));
    destruct (limit_ok (max_weight spot) (weight reqs));
    destruct (needs_facilities reqs); destruct (has_facilities spot);
    destruct (needs_overnight reqs); destruct (overnight_allowed spot);
    reflexivity.
Qed.

(* ------------------------------------------------------------------ *)
(** ** Ranking *)

Lemma insert_by_confidence_perm (x : ScrapedParkingSpot)
    (l : list ScrapedParkingSpot) :
  Permutation (insert_by_confidence x l) (x :: l).
Proof.
  induction l as [|y l IH]; simpl; [reflexivity|].
  destruct (Qlt_bool _ _); [|reflexivity].
  rewrite IH. apply perm_swap.
Qed.

Lemma sorted_by_confidence_perm (l : list ScrapedParkingSpot) :
  Permutation (sorted_by_confidence l) l.
Proof.
  induction l as [|x l IH]; simpl; [reflexivity|].
  rewrite insert_by_confidence_perm. now constructor.
Qed.

Lemma insert_by_confidence_sorted (x : ScrapedParkingSpot)
    (l : list ScrapedParkingSpot) :
  StronglySorted conf_ge l -> StronglySorted conf_ge (insert_by_confidence x l).
Proof.
  induction 1 as [|y l Hl IH Hy]; simpl.
  - repeat constructor.
  - destruct (Qlt_bool (confidence x) (confidence y)) eqn:E.
    + constructor; [exact IH|].
      rewrite insert_by_confidence_perm.
      constructor; [|exact Hy].
      apply Qlt_bool_iff in E. now apply Qlt_le_weak.
    + apply Qlt_bool_false_iff in E.
      constructor; [now constructor|].
      constructor; [exact E|].
      eapply Forall_impl; [|exact Hy].
      intros z Hz. unfold conf_ge in *. now apply Qle_trans with (confidence y).
Qed.

Lemma sorted_by_confidence_sorted (l : list ScrapedParkingSpot) :
  StronglySorted conf_ge (sorted_by_confidence l).
Proof.
  induction l as [|x l IH]; simpl; [constructor|].
  now apply insert_by_confidence_sorted.
Qed.

(** Inserting steps over records of strictly greater confidence only, so
    within its own confidence value the new record comes first. *)
Lemma of_confidence_insert (c : Q) (x : ScrapedParkingSpot)
    (l : list ScrapedParkingSpot) :
  of_confidence c (insert_by_confidence x l) = of_confidence c (x :: l).
Proof.
  unfold of_confidence.
  induction l as [|y l IH]; simpl; [reflexivity|].
  destruct (Qlt_bool (confidence x) (confidence y)) eqn:E; [|reflexivity].
  simpl. rewrite IH. simpl.
  destruct (Qeq_bool (confidence x) c) eqn:Ex;
    destruct (Qeq_bool (confidence y) c) eqn:Ey; try reflexivity.
  apply Qeq_bool_eq in Ex, Ey. apply Qlt_bool_iff in E.
  rewrite Ex, Ey in E. exfalso. exact (Qlt_irrefl _ E).
Qed.

Lemma of_confidence_sorted (c : Q) (l : list ScrapedParkingSpot) :
  of_confidence c (sorted_by_confidence l) = of_confidence c l.
Proof.
  induction l as [|x l IH]; simpl; [reflexivity|].
  rewrite of_confidence_insert.
  unfold of_confidence in *. simpl. now rewrite IH.
Qed.

(** Two records of confidence 0.7 around one of 0.95. *)
Lemma ranking_example :
  _filter_spots [spot_south; spot_middle; spot_north]
    (reqs_of_height (32 # 10))
  = [spot_middle; spot_south; spot_north].
Proof. reflexivity. Qed.

(** C9: the returned list is in descending order of confidence, holds
    the retained records and no others, and keeps records of equal
    confidence in the order they had in the input of the filter. *)
Theorem ranking_descending_stable
    (spots : list ScrapedParkingSpot) (reqs : CamperRequirements) :
  StronglySorted conf_ge (_filter_spots spots reqs)
  /\ Permutation (_filter_spots spots reqs) (filter (suitable reqs) spots)
  /\ forall c : Q,
       of_confidence c (_filter_spots spots reqs)
       = of_confidence c (filter (suitable reqs) spots).
Proof.
  unfold _filter_spots. split; [|split].
  - apply sorted_by_confidence_sorted.
  - apply sorted_by_confidence_perm.
  - intro c. apply of_confidence_sorted.
Qed.

Lemma _filter_spots_In (spots : list ScrapedParkingSpot)
    (reqs : CamperRequirements) (spot : ScrapedParkingSpot) :
  In spot (_filter_spots spots reqs)
  <-> In spot spots /\ suitable reqs spot = true.
Proof.
  unfold _filter_spots. rewrite <- filter_In.
  split; apply Permutation_in;
    [|symmetry]; apply sorted_by_confidence_perm.
Qed.

(** C3 as the code has it: a spot is retained exactly when all four
    conditions hold, where a height or weight limit passes when it is
    absent, or recorded as zero, or at least the requirement; a limit of
    3.0 m is excluded at a requirement of 3.2 m and included at 2.8 m. *)
Theorem filter_retains_iff
    (spots : list ScrapedParkingSpot) (reqs : CamperRequirements)
    (spot : ScrapedParkingSpot) :
  (In spot (_filter_spots spots reqs)
   <-> In spot spots /\ retains reqs spot = true)
  /\ _filter_spots [spot_3m] (reqs_of_height (32 # 10)) = []
  /\ _filter_spots [spot_3m] (reqs_of_height (28 # 10)) = [spot_3m].
Proof.
  split; [|split].
  - rewrite <- suitable_retains. apply _filter_spots_In.
  - reflexivity.
  - reflexivity.
Qed.

(** C3 as stated fails: a recorded limit of zero is treated as absent.
    The spot with [max_height = 0.0] is retained at a requirement of
    3.2 m, although its limit is recorded and below the requirement. *)
Lemma filter_spec_condition_fails :
  ~ (In spot_zero_limit
       (_filter_spots [spot_zero_limit] (reqs_of_height (32 # 10)))
     <-> In spot_zero_limit [spot_zero_limit]
         /\ spec_retains (reqs_of_height (32 # 10)) spot_zero_limit = true).
Proof.
  intros [H _].
  assert (Hin : In spot_zero_limit
                  (_filter_spots [spot_zero_limit] (reqs_of_height (32 # 10))))
    by (left; reflexivity).
  destruct (H Hin) as [_ Hspec].
  vm_compute in Hspec. discriminate.
Qed.

(** The test [limit and limit < need] lets a spot pass exactly when no
    limit is recorded, or the recorded limit is zero, or it is at least
    the requirement. *)
Lemma restricted_below_false_iff (limit : option Q) (need : Q) :
  restricted_below limit need = false
  <-> forall v : Q, limit = Some v -> (v == 0)%Q \/ (need <= v)%Q.
Proof.
  destruct limit as [v|]; simpl.
  - rewrite andb_false_iff, negb_false_iff, Qeq_bool_iff, Qlt_bool_false_iff.
    split.
    + intros H v' [= <-]. exact H.
    + intro H. now apply H.
  - split; [intros _ v H; discriminate H | reflexivity].
Qed.

(** The loop body, condition by condition. *)
Lemma suitable_true_iff (reqs : CamperRequirements)
    (spot : ScrapedParkingSpot) :
  suitable reqs spot = true
  <-> restricted_below (max_height spot) (height reqs) = false
      /\ restricted_below (max_weight spot) (weight reqs) = false
      /\ (needs_facilities reqs = true -> has_facilities spot = true)
      /\ (needs_overnight reqs = true -> overnight_allowed spot = true).
Proof.
  unfold suitable.
  destruct (restricted_below (max_height spot) (height reqs));
    destruct (restricted_below (max_weight spot) (weight reqs));
    destruct (needs_facilities reqs); destruct (has_facilities spot);
    destruct (needs_overnight reqs); destruct (overnight_allowed spot);
    simpl; intuition congruence.
Qed.

(** C10: a recorded height limit of zero never blocks a spot, whatever
    the requirement: the height test of the filter is passed, the filter
    returns the spot exactly when the spot is in its input and passes the
    three other conditions (weight limit absent, zero or at least the
    requirement; facilities if needed; overnight stay if needed), and
    this is the decision it takes for the same spot without a height
    limit.  Likewise for a recorded weight limit of zero. *)
Theorem zero_limit_treated_as_absent
    (spots : list ScrapedParkingSpot) (spot : ScrapedParkingSpot)
    (reqs : CamperRequirements) :
  (forall h : Q, max_height spot = Some h -> (h == 0)%Q ->
     restricted_below (max_height spot) (height reqs) = false
     /\ suitable reqs spot = suitable reqs (without_max_height spot)
     /\ (In spot (_filter_spots spots reqs)
         <-> In spot spots
             /\ (forall w : Q, max_weight spot = Some w ->
                   (w == 0)%Q \/ (weight reqs <= w)%Q)
             /\ (needs_facilities reqs = true -> has_facilities spot = true)
             /\ (needs_overnight reqs = true ->
                 overnight_allowed spot = true)))
  /\ (forall w : Q, max_weight spot = Some w -> (w == 0)%Q ->
     restricted_below (max_weight spot) (weight reqs) = false
     /\ suitable reqs spot = suitable reqs (without_max_weight spot)
     /\ (In spot (_filter_spots spots reqs)
         <-> In spot spots
             /\ (forall h : Q, max_height spot = Some h ->
                   (h == 0)%Q \/ (height reqs <= h)%Q)
             /\ (needs_facilities reqs = true -> has_facilities spot = true)
             /\ (needs_overnight reqs = true ->
                 overnight_allowed spot = true))).
Proof.
  split; intros v Hv Hz; apply Qeq_bool_iff in Hz.
  - assert (Hr : restricted_below (max_height spot) (height reqs) = false)
      by (rewrite Hv; simpl; now rewrite Hz).
    split; [exact Hr|]. split.
    + unfold suitable. rewrite Hr. reflexivity.
    + rewrite _filter_spots_In, suitable_true_iff,
        (restricted_below_false_iff (max_weight spot)).
      tauto.
  - assert (Hr : restricted_below (max_weight spot) (weight reqs) = false)
      by (rewrite Hv; simpl; now rewrite Hz).
    split; [exact Hr|]. split.
    + unfold suitable. rewrite Hr. reflexivity.
    + rewrite _filter_spots_In, suitable_true_iff,
        (restricted_below_false_iff (max_height spot)).
      tauto.
Qed.

(** The spot with both limits recorded as 0.0, next to one with a limit
    of 3.0 m, for a vehicle of 3.2 m and 3.5 t: the first is returned,
    the second is not. *)
Lemma zero_limit_treated_as_absent_witness :
  (restricted_below (max_height spot_zero_limits)
     (height (reqs_of_height (32 # 10))) = false
   /\ suitable (reqs_of_height (32 # 10)) spot_zero_limits
      = suitable (reqs_of_height (32 # 10))
          (without_max_height spot_zero_limits))
  /\ (restricted_below (max_weight spot_zero_limits)
        (weight (reqs_of_height (32 # 10))) = false
      /\ suitable (reqs_of_height (32 # 10)) spot_zero_limits
         = suitable (reqs_of_height (32 # 10))
             (without_max_weight spot_zero_limits))
  /\ In spot_zero_limits
       (_filter_spots [spot_3m; spot_zero_limits] (reqs_of_height (32 # 10)))
  /\ _filter_spots [spot_3m; spot_zero_limits] (reqs_of_height (32 # 10))
     = [spot_zero_limits].
Proof.
  destruct (zero_limit_treated_as_absent [spot_3m; spot_zero_limits]
              spot_zero_limits (reqs_of_height (32 # 10))) as [Hh Hw].
  destruct (Hh 0 eq_refl (Qeq_refl 0)) as (Hh1 & Hh2 & Hh3).
  destruct (Hw 0 eq_refl (Qeq_refl 0)) as (Hw1 & Hw2 & _).
  split; [split; assumption|]. split; [split; assumption|]. split.
  - apply Hh3. split; [right; left; reflexivity|]. split; [|split].
    + intros w [= <-]. left. reflexivity.
    + intro H. discriminate H.
    + intros _. reflexivity.
  - reflexivity.
Defined.

(** The printed coordinates: four decimals, ties to the even digit, and
    a sign for every negative number. *)
Lemma format_4f_examples :
  format_4f (6016991 # 100000) = "60.1699"%string
  /\ format_4f (6016994 # 100000) = "60.1699"%string
  /\ format_4f (6016996 # 100000) = "60.1700"%string
  /\ format_4f (1 # 32) = "0.0312"%string
  /\ format_4f (3 # 32) = "0.0938"%string
  /\ format_4f (- (1 # 100000)) = "-0.0000"%string.
Proof. repeat split; reflexivity. Qed.

(* ------------------------------------------------------------------ *)
(** ** The printed coordinates *)

(** Every character of a printed natural number is a digit, and there
    is at least one. *)
Lemma string_of_uint_digits (d : Decimal.uint) :
  digits_only (NilEmpty.string_of_uint d).
Proof. induction d; simpl; auto. Qed.

Lemma decimal_digits (n : Z) : digits_only (decimal n).
Proof.
  unfold decimal, NilZero.string_of_uint.
  destruct (N.to_uint (Z.to_N n)) eqn:E;
    try (rewrite <- E; apply string_of_uint_digits).
  simpl. auto.
Qed.

Lemma decimal_nonempty (n : Z) : decimal n <> EmptyString.
Proof.
  unfold decimal, NilZero.string_of_uint.
  destruct (N.to_uint (Z.to_N n)); simpl; discriminate.
Qed.

Lemma to_uint_nonnil (n : N) : N.to_uint n <> Decimal.Nil.
Proof.
  destruct n; simpl; [discriminate|].
  apply DecimalPos.Unsigned.to_uint_nonnil.
Qed.

Lemma decimal_inj (a b : Z) :
  (0 <= a)%Z -> (0 <= b)%Z -> decimal a = decimal b -> a = b.
Proof.
  intros Ha Hb H. unfold decimal in H.
  assert (E : Some (N.to_uint (Z.to_N a)) = Some (N.to_uint (Z.to_N b))).
  { rewrite <- (NilZero.usu _ (to_uint_nonnil (Z.to_N a))),
            <- (NilZero.usu _ (to_uint_nonnil (Z.to_N b))).
    now rewrite H. }
  injection E as E. apply DecimalN.Unsigned.to_uint_inj in E.
  lia.
Qed.

(** Two texts of digits, each followed by a point: the point is at the
    same place in both. *)
Lemma digits_point_split (s1 s2 r1 r2 : string) :
  digits_only s1 -> digits_only s2 ->
  (s1 ++ "." ++ r1 = s2 ++ "." ++ r2)%string -> s1 = s2 /\ r1 = r2.
Proof.
  revert s2. induction s1 as [|c s1 IH]; intros [|c2 s2] H1 H2 H; simpl in *.
  - injection H as H. auto.
  - injection H as Hc H. subst c2. destruct H2 as [H2 _]. discriminate H2.
  - injection H as Hc H. subst c. destruct H1 as [H1 _]. discriminate H1.
  - injection H as Hc H. subst c2.
    destruct (IH s2 (proj2 H1) (proj2 H2) H) as [-> ->]. auto.
Qed.

Lemma digit_one_char (n : Z) : exists c, digit n = String c EmptyString.
Proof.
  unfold digit.
  assert (H : (0 <= n mod 10 < 10)%Z) by (apply Z.mod_pos_bound; lia).
  assert (E : (n mod 10 = 0 \/ n mod 10 = 1 \/ n mod 10 = 2 \/ n mod 10 = 3
              \/ n mod 10 = 4 \/ n mod 10 = 5 \/ n mod 10 = 6
              \/ n mod 10 = 7 \/ n mod 10 = 8 \/ n mod 10 = 9)%Z) by lia.
  repeat (destruct E as [E|E]; [rewrite E; eexists; reflexivity|]).
  rewrite E; eexists; reflexivity.
Qed.

Lemma digit_inj (a b : Z) : digit a = digit b -> (a mod 10 = b mod 10)%Z.
Proof.
  unfold digit. apply decimal_inj; apply Z.mod_pos_bound; lia.
Qed.

Lemma four_digits_inj (a1 a2 a3 a4 b1 b2 b3 b4 : Z) :
  (digit a1 ++ digit a2 ++ digit a3 ++ digit a4
   = digit b1 ++ digit b2 ++ digit b3 ++ digit b4)%string ->
  (a1 mod 10 = b1 mod 10 /\ a2 mod 10 = b2 mod 10
   /\ a3 mod 10 = b3 mod 10 /\ a4 mod 10 = b4 mod 10)%Z.
Proof.
  intro H.
  destruct (digit_one_char a1) as [c1 E1], (digit_one_char a2) as [c2 E2],
    (digit_one_char a3) as [c3 E3], (digit_one_char a4) as [c4 E4],
    (digit_one_char b1) as [d1 F1], (digit_one_char b2) as [d2 F2],
    (digit_one_char b3) as [d3 F3], (digit_one_char b4) as [d4 F4].
  assert (G : c1 = d1 /\ c2 = d2 /\ c3 = d3 /\ c4 = d4).
  { rewrite E1, E2, E3, E4, F1, F2, F3, F4 in H. simpl in H.
    injection H as -> -> -> ->. auto. }
  destruct G as (-> & -> & -> & ->).
  repeat split; apply digit_inj; congruence.
Qed.

Lemma decimal_places_sum (n : Z) :
  (n = 10000 * (n / 10000) + 1000 * ((n / 1000) mod 10)
       + 100 * ((n / 100) mod 10) + 10 * ((n / 10) mod 10) + n mod 10)%Z.
Proof.
  assert (E1 : (n / 10 / 10 = n / 100)%Z) by (now rewrite Z.div_div by lia).
  assert (E2 : (n / 100 / 10 = n / 1000)%Z) by (now rewrite Z.div_div by lia).
  assert (E3 : (n / 1000 / 10 = n / 10000)%Z) by (now rewrite Z.div_div by lia).
  pose proof (Z.div_mod n 10 ltac:(lia)) as N0.
  pose proof (Z.div_mod (n / 10) 10 ltac:(lia)) as N1.
  pose proof (Z.div_mod (n / 100) 10 ltac:(lia)) as N2.
  pose proof (Z.div_mod (n / 1000) 10 ltac:(lia)) as N3.
  rewrite E1 in N1. rewrite E2 in N2. rewrite E3 in N3.
  lia.
Qed.

Lemma decimal_places (n m : Z) :
  (n / 10000 = m / 10000)%Z ->
  ((n / 1000) mod 10 = (m / 1000) mod 10)%Z ->
  ((n / 100) mod 10 = (m / 100) mod 10)%Z ->
  ((n / 10) mod 10 = (m / 10) mod 10)%Z ->
  (n mod 10 = m mod 10)%Z -> n = m.
Proof.
  intros H4 H3 H2 H1 H0.
  rewrite (decimal_places_sum n), (decimal_places_sum m). congruence.
Qed.

Lemma round_half_even_floor (q : Q) :
  round_half_even q = Qfloor q \/ round_half_even q = (Qfloor q + 1)%Z.
Proof.
  unfold round_half_even.
  destruct (Qcompare _ _); [destruct (Z.even _)| |]; auto.
Qed.

Lemma round_half_even_nonneg (q : Q) : 0 <= q -> (0 <= round_half_even q)%Z.
Proof.
  intro H.
  assert (F : (0 <= Qfloor q)%Z).
  { change 0%Z with (Qfloor 0). now apply Qfloor_resp_le. }
  destruct (round_half_even_floor q) as [-> | ->]; lia.
Qed.

Lemma format_4f_inj (x y : Q) :
  format_4f x = format_4f y <->
  Qlt_bool x 0 = Qlt_bool y 0
  /\ round_half_even (Qabs x * inject_Z 10000)
     = round_half_even (Qabs y * inject_Z 10000).
Proof.
  unfold format_4f. cbv zeta.
  set (n := round_half_even (Qabs x * inject_Z 10000)).
  set (m := round_half_even (Qabs y * inject_Z 10000)).
  assert (Hn : (0 <= n)%Z).
  { apply round_half_even_nonneg. apply Qmult_le_0_compat;
      [apply Qabs_nonneg | discriminate]. }
  assert (Hm : (0 <= m)%Z).
  { apply round_half_even_nonneg. apply Qmult_le_0_compat;
      [apply Qabs_nonneg | discriminate]. }
  split.
  - intro H.
    assert (S : Qlt_bool x 0 = Qlt_bool y 0).
    { destruct (Qlt_bool x 0), (Qlt_bool y 0); try reflexivity; exfalso.
      - simpl in H. pose proof (decimal_digits (m / 10000)) as D.
        pose proof (decimal_nonempty (m / 10000)) as E.
        destruct (decimal (m / 10000)); [congruence|].
        simpl in H. injection H as <- _. destruct D as [D _]. discriminate D.
      - simpl in H. pose proof (decimal_digits (n / 10000)) as D.
        pose proof (decimal_nonempty (n / 10000)) as E.
        destruct (decimal (n / 10000)); [congruence|].
        simpl in H. injection H as -> _. destruct D as [D _]. discriminate D. }
    split; [exact S|].
    rewrite S in H.
    assert (H' : (decimal (n / 10000) ++ "."
                  ++ digit (n / 1000) ++ digit (n / 100) ++ digit (n / 10)
                  ++ digit n
                  = decimal (m / 10000) ++ "."
                  ++ digit (m / 1000) ++ digit (m / 100) ++ digit (m / 10)
                  ++ digit m)%string).
    { destruct (Qlt_bool y 0); simpl in H; [now injection H | exact H]. }
    apply digits_point_split in H'; try apply decimal_digits.
    destruct H' as [Hi Hf].
    apply decimal_inj in Hi; try (apply Z.div_pos; lia).
    apply four_digits_inj in Hf. destruct Hf as (F3 & F2 & F1 & F0).
    now apply decimal_places.
  - intros [-> ->]. reflexivity.
Qed.

Lemma round_half_even_nearest (q : Q) :
  Qabs (inject_Z (round_half_even q) - q) <= 1 # 2
  /\ (Qabs (inject_Z (round_half_even q) - q) == 1 # 2 ->
      Z.even (round_half_even q) = true).
Proof.
  pose proof (Qfloor_le q) as L. pose proof (Qlt_floor q) as U.
  rewrite inject_Z_plus in U. change (inject_Z 1) with 1 in U.
  unfold round_half_even. cbv zeta.
  set (f := Qfloor q) in *.
  destruct (Qcompare (q - inject_Z f) (1 # 2)) eqn:C.
  - apply Qeq_alt in C.
    destruct (Z.even f) eqn:Ev.
    + split; [|auto]. apply Qabs_Qle_condition. split; Lqa.lra.
    + split.
      * rewrite inject_Z_plus. change (inject_Z 1) with 1.
        apply Qabs_Qle_condition. split; Lqa.lra.
      * intros _. rewrite Z.even_add, Ev. reflexivity.
  - apply Qlt_alt in C. split.
    + apply Qabs_Qle_condition. split; Lqa.lra.
    + intro A. exfalso.
      assert (B : inject_Z f - q <= 0) by Lqa.lra.
      rewrite (Qabs_neg _ B) in A. Lqa.lra.
  - apply Qgt_alt in C. rewrite inject_Z_plus. change (inject_Z 1) with 1.
    split.
    + apply Qabs_Qle_condition. split; Lqa.lra.
    + intro A. exfalso.
      assert (B : 0 <= inject_Z f + 1 - q) by Lqa.lra.
      rewrite (Qabs_pos _ B) in A. Lqa.lra.
Qed.

(* ------------------------------------------------------------------ *)
(** ** Running the finder *)

Lemma bind_returned (A B : Type) (m : M A) (k : A -> M B)
    (st st' : FinderState) (a : A) :
  m st = (Returned a, st') -> bind m k st = k a st'.
Proof. unfold bind. now intros ->. Qed.

Lemma bind_raised (A B : Type) (m : M A) (k : A -> M B)
    (st st' : FinderState) (e : exn) :
  m st = (Raised e, st') -> bind m k st = (Raised e, st').
Proof. unfold bind. now intros ->. Qed.

(** [_geocode_location] never raises. *)
Lemma _geocode_location_run (env : Env) (location : string) (st : FinderState) :
  _geocode_location env location st
  = (Returned match nominatim_search env (ticks st) location with
              | Returned c => c
              | Raised _ => None
              end, advance 1 st).
Proof.
  unfold _geocode_location, try_except, interact, ret, advance. simpl.
  destruct (nominatim_search env (ticks st) location); reflexivity.
Qed.

Lemma osm_search_parking_spots_run (env : Env) (lat lon radius_km : Q)
    (st : FinderState) :
  osm_search_parking_spots env lat lon radius_km st
  = (match overpass_query env (ticks st) lat lon radius_km with
     | Returned l => Returned l
     | Raised e => if osm_handles e then Returned [] else Raised e
     end, advance 1 (logged (OsmCall lat lon radius_km) st)).
Proof.
  unfold osm_search_parking_spots, bind, log_call, try_except, interact,
    ret, raise, advance, logged. simpl.
  destruct (overpass_query env (ticks st) lat lon radius_km) as [l|[]];
    reflexivity.
Qed.

Lemma google_loop_run (env : Env) (lat lon radius_km : Q)
    (types : list string) (spots : list ScrapedParkingSpot)
    (st : FinderState) :
  google_loop env lat lon radius_km types spots st
  = (Returned (spots
               ++ google_loop_records env lat lon radius_km types (ticks st)),
     advance (List.length types) st).
Proof.
  revert spots st.
  induction types as [|ty types IH]; intros spots st; simpl.
  - unfold ret, advance. rewrite app_nil_r. now destruct st.
  - unfold bind at 1, try_except, bind, interact, ret. simpl.
    destruct (_search_by_type env (ticks st) lat lon radius_km ty) as [l|e];
      rewrite IH; simpl; unfold advance; simpl.
    + rewrite <- app_assoc. do 2 f_equal. lia.
    + do 2 f_equal. lia.
Qed.

(** [GooglePlacesScraper.search_parking_spots] never raises: a search
    type that fails contributes nothing and the next one is tried. *)
Lemma google_search_parking_spots_run (env : Env) (lat lon radius_km : Q)
    (st : FinderState) :
  google_search_parking_spots env lat lon radius_km st
  = (Returned (google_records env lat lon radius_km (ticks st)),
     advance (google_ticks env) (logged (GoogleCall lat lon radius_km) st)).
Proof.
  unfold google_search_parking_spots, google_records, google_ticks.
  unfold bind, log_call.
  destruct (has_api_key env).
  - rewrite google_loop_run. reflexivity.
  - reflexivity.
Qed.

(** [CityWebsiteScraper.search_parking_spots] never raises. *)
Lemma city_search_parking_spots_run (env : Env) (city : string)
    (lat lon radius_km : Q) (st : FinderState) :
  city_search_parking_spots env city lat lon radius_km st
  = (Returned (city_records env city lat lon radius_km (ticks st)),
     advance (city_ticks city) (logged (CityCall city lat lon radius_km) st)).
Proof.
  unfold city_search_parking_spots, city_records, city_ticks.
  unfold bind at 1, log_call.
  destruct (contains "helsinki" (lower city)).
  - unfold try_except, search_helsinki_parking_spots, bind, try_except,
      interact, ret, advance, logged. simpl.
    destruct (_scrape_palvelukartta_api env (ticks st) lat lon radius_km);
      simpl;
      destruct (_scrape_parking_info_page env (S (ticks st)) lat lon);
      simpl; rewrite ?app_nil_r; reflexivity.
  - destruct (negb (existsb (String.eqb (lower city)) city_parking_urls)).
    + reflexivity.
    + unfold try_except, interact, ret, advance, logged. simpl.
      destruct (_scrape_city_parking_page env (ticks st) (lower city) lat lon);
        reflexivity.
Qed.

Lemma check_cache_run (env : Env) (key : CacheKey) (st : FinderState) :
  check_cache env key st
  = match cache_lookup key (cache st) with
    | Some (cached_data, timestamp) =>
        (Returned (if cache_fresh (time_time env (ticks st)) timestamp
                   then Some cached_data else None), advance 1 st)
    | None => (Returned None, st)
    end.
Proof.
  unfold check_cache, bind, get_cache, interact, ret, advance.
  destruct (cache_lookup key (cache st)) as [[d ts]|]; [|reflexivity].
  simpl. destruct (cache_fresh _ _); reflexivity.
Qed.

(** The cache check changes neither the cache nor the call log. *)
Lemma check_cache_keeps (env : Env) (key : CacheKey) (st st' : FinderState)
    (r : outcome (option (list ScrapedParkingSpot))) :
  check_cache env key st = (r, st') ->
  cache st' = cache st /\ calls st' = calls st.
Proof.
  rewrite check_cache_run.
  destruct (cache_lookup key (cache st)) as [[d ts]|]; intro H;
    inversion H; subst; auto.
Qed.

Lemma find_parking_spots_unresolved (env : Env) (location : string)
    (reqs : CamperRequirements) (st : FinderState) :
  fst (_geocode_location env location st) = Returned None ->
  find_parking_spots env location reqs st = (Returned [], advance 1 st).
Proof.
  rewrite _geocode_location_run. simpl. intro H.
  unfold find_parking_spots.
  erewrite bind_returned by apply _geocode_location_run.
  destruct (nominatim_search env (ticks st) location) as [[c|]|e];
    [discriminate H | reflexivity | reflexivity].
Qed.

(** A search answered from the cache. *)
Lemma find_parking_spots_hit (env : Env) (location : string)
    (reqs : CamperRequirements) (st : FinderState) (lat lon : Q)
    (cached_data : list ScrapedParkingSpot) (timestamp : Q) :
  nominatim_search env (ticks st) location = Returned (Some (lat, lon)) ->
  cache_lookup (cache_key lat lon (radius_km reqs)) (cache st)
  = Some (cached_data, timestamp) ->
  cache_fresh (time_time env (S (ticks st))) timestamp = true ->
  find_parking_spots env location reqs st
  = (Returned (_filter_spots cached_data reqs), advance 2 st).
Proof.
  intros Hgeo Hlook Hfresh.
  unfold find_parking_spots.
  erewrite bind_returned by apply _geocode_location_run.
  rewrite Hgeo.
  assert (Hc : check_cache env (cache_key lat lon (radius_km reqs))
                 (advance 1 st)
               = (Returned (Some cached_data), advance 2 st)).
  { rewrite check_cache_run. simpl. rewrite Hlook. simpl.
    now rewrite Hfresh. }
  erewrite bind_returned by exact Hc.
  reflexivity.
Qed.

(** A search that scrapes: the location resolves, the cache check says
    no, and the OpenStreetMap part returns or raises what its connector
    handles. *)
Lemma find_parking_spots_miss (env : Env) (location : string)
    (reqs : CamperRequirements) (st st_c : FinderState) (lat lon : Q)
    (o : outcome (list ScrapedParkingSpot))
    (unique_spots : list ScrapedParkingSpot) :
  nominatim_search env (ticks st) location = Returned (Some (lat, lon)) ->
  check_cache env (cache_key lat lon (radius_km reqs)) (advance 1 st)
  = (Returned None, st_c) ->
  overpass_query env (ticks st_c) lat lon (radius_km reqs) = o ->
  (forall e, o = Raised e -> osm_handles e = true) ->
  _deduplicate_spots (all_spots_of env location lat lon (radius_km reqs) st_c o)
  = Returned unique_spots ->
  find_parking_spots env location reqs st
  = (Returned (_filter_spots unique_spots reqs),
     stored_state env location lat lon (radius_km reqs) st_c unique_spots).
Proof.
  intros Hgeo Hcheck Ho Hhandled Hdedup.
  unfold find_parking_spots.
  erewrite bind_returned by apply _geocode_location_run.
  rewrite Hgeo.
  erewrite bind_returned by exact Hcheck.
  cbv beta iota.
  assert (Hosm : osm_search_parking_spots env lat lon (radius_km reqs) st_c
                 = (Returned (records o),
                    advance 1 (logged (OsmCall lat lon (radius_km reqs)) st_c))).
  { rewrite osm_search_parking_spots_run, Ho.
    destruct o as [l|e]; [reflexivity|].
    now rewrite (Hhandled e eq_refl). }
  erewrite bind_returned by exact Hosm.
  erewrite bind_returned by apply google_search_parking_spots_run.
  erewrite bind_returned by apply city_search_parking_spots_run.
  unfold all_spots_of, t_google, t_city in Hdedup. simpl in Hdedup.
  unfold bind at 1, lift. simpl. rewrite Hdedup.
  reflexivity.
Qed.

(** What a scraping search does when the OpenStreetMap connector lets
    an exception through: the exception leaves [find_parking_spots]
    before the other connectors are called. *)
Lemma find_parking_spots_osm_raises (env : Env) (location : string)
    (reqs : CamperRequirements) (st st_c : FinderState) (lat lon : Q)
    (e : exn) :
  nominatim_search env (ticks st) location = Returned (Some (lat, lon)) ->
  check_cache env (cache_key lat lon (radius_km reqs)) (advance 1 st)
  = (Returned None, st_c) ->
  overpass_query env (ticks st_c) lat lon (radius_km reqs) = Raised e ->
  osm_handles e = false ->
  find_parking_spots env location reqs st
  = (Raised e, advance 1 (logged (OsmCall lat lon (radius_km reqs)) st_c)).
Proof.
  intros Hgeo Hcheck Ho Hhandled.
  unfold find_parking_spots.
  erewrite bind_returned by apply _geocode_location_run.
  rewrite Hgeo.
  erewrite bind_returned by exact Hcheck.
  cbv beta iota.
  erewrite bind_raised; [reflexivity|].
  rewrite osm_search_parking_spots_run, Ho, Hhandled. reflexivity.
Qed.

(** A search that scrapes asks the OpenStreetMap connector at the
    resolved coordinates, and then either stops there with an exception
    or has asked the two other connectors too. *)
Lemma find_parking_spots_scrape_calls (env : Env) (location : string)
    (reqs : CamperRequirements) (st st_c : FinderState) (lat lon : Q) :
  nominatim_search env (ticks st) location = Returned (Some (lat, lon)) ->
  check_cache env (cache_key lat lon (radius_km reqs)) (advance 1 st)
  = (Returned None, st_c) ->
  calls (snd (find_parking_spots env location reqs st))
  = OsmCall lat lon (radius_km reqs) :: calls st
  \/ calls (snd (find_parking_spots env location reqs st))
     = CityCall location lat lon (radius_km reqs)
       :: GoogleCall lat lon (radius_km reqs)
       :: OsmCall lat lon (radius_km reqs) :: calls st.
Proof.
  intros Hgeo Hc.
  destruct (check_cache_keeps _ _ _ _ _ Hc) as [_ Hcalls]. simpl in Hcalls.
  destruct (_deduplicate_spots_returns
              (all_spots_of env location lat lon (radius_km reqs) st_c
                 (overpass_query env (ticks st_c) lat lon (radius_km reqs))))
    as [u Hu].
  destruct (overpass_query env (ticks st_c) lat lon (radius_km reqs))
    as [l|e] eqn:Eo.
  - right.
    rewrite (find_parking_spots_miss env location reqs st st_c lat lon
               (Returned l) u Hgeo Hc Eo); [|discriminate | exact Hu].
    simpl. now rewrite Hcalls.
  - destruct (osm_handles e) eqn:Eh.
    + right.
      rewrite (find_parking_spots_miss env location reqs st st_c lat lon
                 (Raised e) u Hgeo Hc Eo); [| |exact Hu].
      * simpl. now rewrite Hcalls.
      * intros e' He'. inversion He'; subst. exact Eh.
    + left.
      rewrite (find_parking_spots_osm_raises env location reqs st st_c
                 lat lon e Hgeo Hc Eo Eh).
      simpl. now rewrite Hcalls.
Qed.

(* ------------------------------------------------------------------ *)
(** ** Result cache *)

Lemma cache_lookup_store (key key' : CacheKey) (entry : CacheEntry)
    (c : Cache) :
  cache_key_eqb key key' = true ->
  cache_lookup key' (cache_store key entry c) = Some entry.
Proof.
  intro H. unfold cache_lookup, cache_store. simpl. now rewrite H.
Qed.

Lemma cache_key_eqb_refl (key : CacheKey) : cache_key_eqb key key = true.
Proof.
  unfold cache_key_eqb. now rewrite !String.eqb_refl, Qeq_bool_refl.
Qed.

(** Keys of coordinates that print alike, with equal radius, are equal. *)
Lemma cache_key_eqb_format (lat lon r lat' lon' r' : Q) :
  format_4f lat = format_4f lat' -> format_4f lon = format_4f lon' ->
  (r == r')%Q ->
  cache_key_eqb (cache_key lat lon r) (cache_key lat' lon' r') = true.
Proof.
  intros Hlat Hlon Hr. unfold cache_key_eqb, cache_key. simpl.
  rewrite Hlat, Hlon, !String.eqb_refl. simpl.
  now apply Qeq_bool_iff.
Qed.

Lemma Qeq_bool_sym (x y : Q) : Qeq_bool x y = Qeq_bool y x.
Proof.
  destruct (Qeq_bool x y) eqn:E1, (Qeq_bool y x) eqn:E2; try reflexivity.
  - apply Qeq_bool_eq, Qeq_sym, Qeq_eq_bool in E1. congruence.
  - apply Qeq_bool_eq, Qeq_sym, Qeq_eq_bool in E2. congruence.
Qed.

Lemma cache_key_eqb_sym (a b : CacheKey) :
  cache_key_eqb a b = cache_key_eqb b a.
Proof.
  unfold cache_key_eqb.
  now rewrite (String.eqb_sym (key_lat a)), (String.eqb_sym (key_lon a)),
    (Qeq_bool_sym (key_radius a)).
Qed.

Lemma cache_key_eqb_trans (a b c : CacheKey) :
  cache_key_eqb a b = true -> cache_key_eqb b c = true ->
  cache_key_eqb a c = true.
Proof.
  unfold cache_key_eqb. rewrite !andb_true_iff.
  intros [[H1 H2] H3] [[H4 H5] H6].
  apply String.eqb_eq in H1, H2, H4, H5.
  apply Qeq_bool_iff in H3, H6.
  rewrite H1, H2, <- H4, <- H5, !String.eqb_refl.
  repeat split. apply Qeq_bool_iff. now rewrite H3.
Qed.

(** Two keys are equal exactly when the printed coordinates are the
    same texts and the radii the same numbers. *)
Lemma cache_key_eqb_format_iff (lat lon r lat' lon' r' : Q) :
  cache_key_eqb (cache_key lat lon r) (cache_key lat' lon' r') = true
  <-> format_4f lat = format_4f lat' /\ format_4f lon = format_4f lon'
      /\ (r == r')%Q.
Proof.
  unfold cache_key_eqb, cache_key. simpl.
  rewrite !andb_true_iff, !String.eqb_eq, Qeq_bool_iff. tauto.
Qed.

(** Storing under one key leaves the lookups with the other keys as
    they were. *)
Lemma cache_lookup_store_other (key key' : CacheKey) (entry : CacheEntry)
    (c : Cache) :
  cache_key_eqb key key' = false ->
  cache_lookup key' (cache_store key entry c) = cache_lookup key' c.
Proof.
  intro E. unfold cache_lookup, cache_store. simpl. rewrite E.
  induction c as [|[k v] c IH]; simpl; [reflexivity|].
  destruct (cache_key_eqb k key) eqn:Ek; simpl.
  - destruct (cache_key_eqb k key') eqn:Ek'; [|exact IH].
    exfalso. rewrite cache_key_eqb_sym in Ek.
    rewrite (cache_key_eqb_trans _ _ _ Ek Ek') in E. discriminate.
  - destruct (cache_key_eqb k key'); [reflexivity | exact IH].
Qed.

(** C5: an entry stored with time stamp [created] under a key is a hit
    for a check with that key at a moment [now] exactly when
    [now - created < cache_duration], with [cache_duration] 3600 s: a hit
    one second before the duration has passed, a miss one second
    after. *)
Theorem cache_ttl_boundary
    (env : Env) (st : FinderState) (c : Cache) (key key' : CacheKey)
    (data : list ScrapedParkingSpot) (created now : Q) :
  cache st = cache_store key (data, created) c ->
  cache_key_eqb key key' = true ->
  time_time env (ticks st) = now ->
  fst (check_cache env key' st)
  = Returned (if cache_fresh now created then Some data else None)
  /\ (cache_fresh now created = true <-> (now - created < cache_duration)%Q)
  /\ cache_fresh (created + cache_duration - 1) created = true
  /\ cache_fresh (created + cache_duration + 1) created = false
  /\ cache_duration = 3600.
Proof.
  intros Hc Hk Hnow.
  split; [|split; [|split; [|split]]].
  - rewrite check_cache_run, Hc, (cache_lookup_store _ _ _ _ Hk), Hnow.
    reflexivity.
  - apply Qlt_bool_iff.
  - apply Qlt_bool_iff. unfold cache_duration. Lqa.lra.
  - apply Qlt_bool_false_iff. unfold cache_duration. Lqa.lra.
  - reflexivity.
Qed.

Lemma cache_ttl_boundary_witness :
  fst (check_cache (sample_env espoo (Returned []))
         (cache_key (602055 # 10000) (246559 # 10000) 10)
         {| cache := cache_store
                       (cache_key (602055 # 10000) (246559 # 10000) 10)
                       ([spot_3m], 0) [];
            ticks := 3599; calls := [] |})
  = Returned (if cache_fresh 3599 0 then Some [spot_3m] else None)
  /\ (cache_fresh 3599 0 = true <-> (3599 - 0 < cache_duration)%Q)
  /\ cache_fresh (0 + cache_duration - 1) 0 = true
  /\ cache_fresh (0 + cache_duration + 1) 0 = false
  /\ cache_duration = 3600.
Proof.
  apply (cache_ttl_boundary (sample_env espoo (Returned []))
           {| cache := cache_store
                         (cache_key (602055 # 10000) (246559 # 10000) 10)
                         ([spot_3m], 0) [];
              ticks := 3599; calls := [] |}
           [] (cache_key (602055 # 10000) (246559 # 10000) 10)
           (cache_key (602055 # 10000) (246559 # 10000) 10)
           [spot_3m] 0 3599).
  - reflexivity.
  - vm_compute. reflexivity.
  - vm_compute. reflexivity.
Defined.

(* ------------------------------------------------------------------ *)
(** ** The orchestrator *)

(** C4: a search that scrapes stores the de-duplicated set, before any
    filtering, under the key of the printed coordinates and the radius.
    A later search whose coordinates print alike, with the same radius,
    while the entry is fresh, calls no connector, leaves the cache as it
    is and returns the stored set filtered by its own requirements.  A
    later search whose coordinates print differently, or whose radius is
    another number, is not answered from that entry: with no entry of its
    own, the check says no without reading the clock and the connectors
    are asked at the new coordinates.  Two keys are the same exactly when
    the two printed latitudes, the two printed longitudes and the two
    radii are; two numbers print alike exactly when they have the same
    sign and the same count of ten-thousandths after rounding; and the
    rounding is to the nearest integer, the even one at a tie. *)
Theorem cache_reuse_across_requests
    (env : Env) (location location' : string)
    (reqs reqs' : CamperRequirements) (st st_c st' : FinderState)
    (lat lon lat' lon' : Q) (unique_spots : list ScrapedParkingSpot) :
  nominatim_search env (ticks st) location = Returned (Some (lat, lon)) ->
  check_cache env (cache_key lat lon (radius_km reqs)) (advance 1 st)
  = (Returned None, st_c) ->
  (forall e, overpass_query env (ticks st_c) lat lon (radius_km reqs)
             = Raised e -> osm_handles e = true) ->
  _deduplicate_spots
    (all_spots_of env location lat lon (radius_km reqs) st_c
       (overpass_query env (ticks st_c) lat lon (radius_km reqs)))
  = Returned unique_spots ->
  cache st'
  = cache (stored_state env location lat lon (radius_km reqs) st_c
             unique_spots) ->
  nominatim_search env (ticks st') location' = Returned (Some (lat', lon')) ->
  format_4f lat = format_4f lat' ->
  format_4f lon = format_4f lon' ->
  (radius_km reqs == radius_km reqs')%Q ->
  (time_time env (S (ticks st')) - time_time env (t_store env location st_c)
   < cache_duration)%Q ->
  find_parking_spots env location reqs st
  = (Returned (_filter_spots unique_spots reqs),
     stored_state env location lat lon (radius_km reqs) st_c unique_spots)
  /\ cache_lookup (cache_key lat lon (radius_km reqs))
       (cache (stored_state env location lat lon (radius_km reqs) st_c
                 unique_spots))
     = Some (unique_spots, time_time env (t_store env location st_c))
  /\ find_parking_spots env location' reqs' st'
     = (Returned (_filter_spots unique_spots reqs'), advance 2 st')
  /\ calls (advance 2 st') = calls st'
  /\ cache (advance 2 st') = cache st'
  /\ (forall (location2 : string) (reqs2 : CamperRequirements)
             (st2 : FinderState) (lat2 lon2 : Q),
        cache st2
        = cache (stored_state env location lat lon (radius_km reqs) st_c
                   unique_spots) ->
        nominatim_search env (ticks st2) location2
        = Returned (Some (lat2, lon2)) ->
        ~ (format_4f lat = format_4f lat2 /\ format_4f lon = format_4f lon2
           /\ (radius_km reqs == radius_km reqs2)%Q) ->
        cache_lookup (cache_key lat2 lon2 (radius_km reqs2)) (cache st_c)
        = None ->
        check_cache env (cache_key lat2 lon2 (radius_km reqs2))
          (advance 1 st2)
        = (Returned None, advance 1 st2)
        /\ (calls (snd (find_parking_spots env location2 reqs2 st2))
            = OsmCall lat2 lon2 (radius_km reqs2) :: calls st2
            \/ calls (snd (find_parking_spots env location2 reqs2 st2))
               = CityCall location2 lat2 lon2 (radius_km reqs2)
                 :: GoogleCall lat2 lon2 (radius_km reqs2)
                 :: OsmCall lat2 lon2 (radius_km reqs2) :: calls st2))
  /\ (forall la lo r la2 lo2 r2 : Q,
        cache_key_eqb (cache_key la lo r) (cache_key la2 lo2 r2) = true
        <-> format_4f la = format_4f la2 /\ format_4f lo = format_4f lo2
            /\ (r == r2)%Q)
  /\ (forall x y : Q,
        format_4f x = format_4f y
        <-> Qlt_bool x 0 = Qlt_bool y 0
            /\ round_half_even (Qabs x * inject_Z 10000)
               = round_half_even (Qabs y * inject_Z 10000))
  /\ (forall q : Q,
        (Qabs (inject_Z (round_half_even q) - q) <= 1 # 2)%Q
        /\ ((Qabs (inject_Z (round_half_even q) - q) == 1 # 2)%Q ->
            Z.even (round_half_even q) = true)).
Proof.
  intros Hgeo Hcheck Hosm Hdedup Hcache Hgeo' Hlat Hlon Hr Hfresh.
  split; [|split; [|split; [|split; [|split; [|split; [|split; [|split]]]]]]].
  - now apply (find_parking_spots_miss env location reqs st st_c lat lon
                 (overpass_query env (ticks st_c) lat lon (radius_km reqs))).
  - simpl. apply cache_lookup_store, cache_key_eqb_refl.
  - apply (find_parking_spots_hit env location' reqs' st' lat' lon'
             unique_spots (time_time env (t_store env location st_c))).
    + exact Hgeo'.
    + rewrite Hcache. simpl.
      apply cache_lookup_store. now apply cache_key_eqb_format.
    + now apply Qlt_bool_iff.
  - reflexivity.
  - reflexivity.
  - intros location2 reqs2 st2 lat2 lon2 Hcache2 Hgeo2 Hdiff Hnone.
    assert (Hkey : cache_key_eqb (cache_key lat lon (radius_km reqs))
                     (cache_key lat2 lon2 (radius_km reqs2)) = false).
    { destruct (cache_key_eqb (cache_key lat lon (radius_km reqs))
                  (cache_key lat2 lon2 (radius_km reqs2))) eqn:E;
        [|reflexivity].
      exfalso. apply Hdiff. now apply cache_key_eqb_format_iff. }
    assert (Hc : check_cache env (cache_key lat2 lon2 (radius_km reqs2))
                   (advance 1 st2)
                 = (Returned None, advance 1 st2)).
    { rewrite check_cache_run. simpl. rewrite Hcache2. simpl.
      rewrite (cache_lookup_store_other _ _ _ _ Hkey), Hnone.
      reflexivity. }
    split; [exact Hc|].
    exact (find_parking_spots_scrape_calls env location2 reqs2 st2
             (advance 1 st2) lat2 lon2 Hgeo2 Hc).
  - intros. apply cache_key_eqb_format_iff.
  - intros. apply format_4f_inj.
  - intro q. apply round_half_even_nearest.
Qed.

(** Three searches in a row: "Espoo" at 60.2055 scrapes and stores;
    "Espoo, Finland" at 60.20554 prints alike and is answered from the
    cache; "Espoo centre" at 60.20556 prints 60.2056 and scrapes again,
    and so does "Espoo" with a radius of 20 km. *)
Lemma cache_reuse_across_requests_witness :
  find_parking_spots (spellings_env (Returned [spot_3m])) "Espoo"
    (reqs_of_height (32 # 10)) initial_state
  = (Returned [],
     stored_state (spellings_env (Returned [spot_3m])) "Espoo"
       (602055 # 10000) (246559 # 10000) 10 (advance 1 initial_state)
       [spot_3m])
  /\ find_parking_spots (spellings_env (Returned [spot_3m])) "Espoo, Finland"
       (reqs_of_height (28 # 10))
       (stored_state (spellings_env (Returned [spot_3m])) "Espoo"
          (602055 # 10000) (246559 # 10000) 10 (advance 1 initial_state)
          [spot_3m])
     = (Returned [spot_3m],
        advance 2
          (stored_state (spellings_env (Returned [spot_3m])) "Espoo"
             (602055 # 10000) (246559 # 10000) 10 (advance 1 initial_state)
             [spot_3m]))
  /\ calls (snd (find_parking_spots (spellings_env (Returned [spot_3m]))
                   "Espoo centre" (reqs_of_height (28 # 10))
                   (advance 2
                      (stored_state (spellings_env (Returned [spot_3m]))
                         "Espoo" (602055 # 10000) (246559 # 10000) 10
                         (advance 1 initial_state) [spot_3m]))))
     = [CityCall "Espoo centre" (6020556 # 100000) (246559 # 10000) 10;
        GoogleCall (6020556 # 100000) (246559 # 10000) 10;
        OsmCall (6020556 # 100000) (246559 # 10000) 10;
        CityCall "Espoo" (602055 # 10000) (246559 # 10000) 10;
        GoogleCall (602055 # 10000) (246559 # 10000) 10;
        OsmCall (602055 # 10000) (246559 # 10000) 10]
  /\ calls (snd (find_parking_spots (spellings_env (Returned [spot_3m]))
                   "Espoo" (reqs_of_height_radius (28 # 10) 20)
                   (advance 2
                      (stored_state (spellings_env (Returned [spot_3m]))
                         "Espoo" (602055 # 10000) (246559 # 10000) 10
                         (advance 1 initial_state) [spot_3m]))))
     = [CityCall "Espoo" (602055 # 10000) (246559 # 10000) 20;
        GoogleCall (602055 # 10000) (246559 # 10000) 20;
        OsmCall (602055 # 10000) (246559 # 10000) 20;
        CityCall "Espoo" (602055 # 10000) (246559 # 10000) 10;
        GoogleCall (602055 # 10000) (246559 # 10000) 10;
        OsmCall (602055 # 10000) (246559 # 10000) 10].
Proof.
  destruct (cache_reuse_across_requests
              (spellings_env (Returned [spot_3m])) "Espoo" "Espoo, Finland"
              (reqs_of_height (32 # 10)) (reqs_of_height (28 # 10))
              initial_state (advance 1 initial_state)
              (stored_state (spellings_env (Returned [spot_3m])) "Espoo"
                 (602055 # 10000) (246559 # 10000) 10
                 (advance 1 initial_state) [spot_3m])
              (602055 # 10000) (246559 # 10000)
              (6020554 # 100000) (246559 # 10000) [spot_3m])
    as (Hfirst & _ & Hsecond & _ & _ & Hother & _).
  - reflexivity.
  - reflexivity.
  - intros e H. discriminate H.
  - reflexivity.
  - reflexivity.
  - reflexivity.
  - reflexivity.
  - reflexivity.
  - reflexivity.
  - vm_compute. reflexivity.
  - split; [exact Hfirst|]. split; [exact Hsecond|]. split.
    + destruct (Hother "Espoo centre"%string (reqs_of_height (28 # 10))
                  (advance 2
                     (stored_state (spellings_env (Returned [spot_3m]))
                        "Espoo" (602055 # 10000) (246559 # 10000) 10
                        (advance 1 initial_state) [spot_3m]))
                  (6020556 # 100000) (246559 # 10000))
        as [_ [H|H]].
      * reflexivity.
      * reflexivity.
      * intros [H _]. vm_compute in H. discriminate H.
      * reflexivity.
      * vm_compute in H. discriminate H.
      * exact H.
    + destruct (Hother "Espoo"%string (reqs_of_height_radius (28 # 10) 20)
                  (advance 2
                     (stored_state (spellings_env (Returned [spot_3m]))
                        "Espoo" (602055 # 10000) (246559 # 10000) 10
                        (advance 1 initial_state) [spot_3m]))
                  (602055 # 10000) (246559 # 10000))
        as [_ [H|H]].
      * reflexivity.
      * reflexivity.
      * intros [_ [_ H]]. vm_compute in H. discriminate H.
      * reflexivity.
      * vm_compute in H. discriminate H.
      * exact H.
Defined.

(** C6 as the code has it: the Google and the city connector never
    raise, a failing part of theirs contributing no records; a failure of
    the OpenStreetMap request that its connector handles (a request
    error or a JSON decoding error) contributes no records either, the
    two other connectors are then still called, and the search returns
    the filtered, de-duplicated records of all three. *)
Theorem connector_failures_absorbed
    (env : Env) (location : string) (reqs : CamperRequirements)
    (st st_c : FinderState) (lat lon : Q) :
  nominatim_search env (ticks st) location = Returned (Some (lat, lon)) ->
  check_cache env (cache_key lat lon (radius_km reqs)) (advance 1 st)
  = (Returned None, st_c) ->
  (forall e, overpass_query env (ticks st_c) lat lon (radius_km reqs)
             = Raised e -> osm_handles e = true) ->
  (forall s,
     fst (google_search_parking_spots env lat lon (radius_km reqs) s)
     = Returned (google_records env lat lon (radius_km reqs) (ticks s)))
  /\ (forall s,
     fst (city_search_parking_spots env location lat lon (radius_km reqs) s)
     = Returned (city_records env location lat lon (radius_km reqs) (ticks s)))
  /\ fst (osm_search_parking_spots env lat lon (radius_km reqs) st_c)
     = Returned
         (records (overpass_query env (ticks st_c) lat lon (radius_km reqs)))
  /\ exists unique_spots st',
       _deduplicate_spots
         (all_spots_of env location lat lon (radius_km reqs) st_c
            (overpass_query env (ticks st_c) lat lon (radius_km reqs)))
       = Returned unique_spots
       /\ find_parking_spots env location reqs st
          = (Returned (_filter_spots unique_spots reqs), st')
       /\ calls st'
          = CityCall location lat lon (radius_km reqs)
            :: GoogleCall lat lon (radius_km reqs)
            :: OsmCall lat lon (radius_km reqs) :: calls st.
Proof.
  intros Hgeo Hcheck Hosm.
  split; [|split; [|split]].
  - intro s. now rewrite google_search_parking_spots_run.
  - intro s. now rewrite city_search_parking_spots_run.
  - rewrite osm_search_parking_spots_run. simpl.
    destruct (overpass_query env (ticks st_c) lat lon (radius_km reqs))
      as [l|e] eqn:E; [reflexivity|].
    now rewrite (Hosm e eq_refl).
  - destruct (_deduplicate_spots_returns
                (all_spots_of env location lat lon (radius_km reqs) st_c
                   (overpass_query env (ticks st_c) lat lon (radius_km reqs))))
      as [unique_spots Hu].
    exists unique_spots.
    exists (stored_state env location lat lon (radius_km reqs) st_c
              unique_spots).
    split; [exact Hu|]. split.
    + now apply (find_parking_spots_miss env location reqs st st_c lat lon
                   (overpass_query env (ticks st_c) lat lon (radius_km reqs))).
    + simpl. destruct (check_cache_keeps _ _ _ _ _ Hcheck) as [_ ->].
      reflexivity.
Qed.

Lemma connector_failures_absorbed_witness :
  exists unique_spots st',
    _deduplicate_spots
      (all_spots_of (sample_env espoo (Raised RequestException)) "Espoo"
         (602055 # 10000) (246559 # 10000) 10 (advance 1 initial_state)
         (Raised RequestException))
    = Returned unique_spots
    /\ find_parking_spots (sample_env espoo (Raised RequestException)) "Espoo"
         (reqs_of_height (32 # 10)) initial_state
       = (Returned (_filter_spots unique_spots (reqs_of_height (32 # 10))), st')
    /\ calls st'
       = [CityCall "Espoo" (602055 # 10000) (246559 # 10000) 10;
          GoogleCall (602055 # 10000) (246559 # 10000) 10;
          OsmCall (602055 # 10000) (246559 # 10000) 10].
Proof.
  apply (connector_failures_absorbed
           (sample_env espoo (Raised RequestException)) "Espoo"
           (reqs_of_height (32 # 10)) initial_state (advance 1 initial_state)
           (602055 # 10000) (246559 # 10000)).
  - reflexivity.
  - reflexivity.
  - intros e H. inversion H. reflexivity.
Defined.

(** C6 as stated fails: an exception the OpenStreetMap connector has no
    handler for leaves the connector and the orchestrator, which guards
    no connector call; Google and the city connector are not called and
    [search_parking] reports the status "error". *)
Lemma connector_error_aborts_search :
  find_parking_spots (sample_env espoo (Raised OtherException)) "Espoo"
    (reqs_of_height (32 # 10)) initial_state
  = (Raised OtherException,
     {| cache := []; ticks := 2;
        calls := [OsmCall (602055 # 10000) (246559 # 10000) 10] |})
  /\ status (fst (search_parking (sample_env espoo (Raised OtherException))
                    initial_ai "Espoo" (32 # 10) (35 # 10) 7 false true 10))
     = "error"%string.
Proof. split; reflexivity. Qed.

(** C7: when the geocoder gives no coordinates, or when the three
    connectors are called and each returns the empty list, the search
    ends with the "no_results" answer, which carries the parameters of
    the search. *)
Theorem empty_search_gives_no_results
    (env : Env) (ai : AIState) (location : string)
    (height weight length : Q) (needs_facilities needs_overnight : bool)
    (radius_km : Q) :
  (fst (_geocode_location env location (finder ai)) = Returned None
   \/ exists lat lon st_c,
        nominatim_search env (ticks (finder ai)) location
        = Returned (Some (lat, lon))
        /\ check_cache env (cache_key lat lon radius_km)
             (advance 1 (finder ai)) = (Returned None, st_c)
        /\ fst (osm_search_parking_spots env lat lon radius_km st_c)
           = Returned []
        /\ fst (google_search_parking_spots env lat lon radius_km
                  (snd (osm_search_parking_spots env lat lon radius_km st_c)))
           = Returned []
        /\ fst (city_search_parking_spots env location lat lon radius_km
                  (snd (google_search_parking_spots env lat lon radius_km
                          (snd (osm_search_parking_spots env lat lon radius_km
                                  st_c)))))
           = Returned []) ->
  fst (search_parking env ai location height weight length
         needs_facilities needs_overnight radius_km)
  = no_results ("No suitable parking spots found near " ++ location)
      "Try expanding search radius or adjusting requirements"
      {| sp_location := location; sp_height := height; sp_weight := weight;
         sp_length := length; sp_needs_facilities := needs_facilities;
         sp_needs_overnight := needs_overnight; sp_radius_km := radius_km |}.
Proof.
  intros [Hnone | (lat & lon & st_c & Hgeo & Hcheck & Hosm & Hgoogle & Hcity)];
    unfold search_parking.
  - rewrite (find_parking_spots_unresolved _ _ _ _ Hnone). reflexivity.
  - rewrite osm_search_parking_spots_run in Hgoogle, Hcity. simpl in Hgoogle, Hcity.
    rewrite google_search_parking_spots_run in Hgoogle, Hcity.
    rewrite city_search_parking_spots_run in Hcity.
    simpl in Hgoogle, Hcity.
    injection Hgoogle as Hgoogle. injection Hcity as Hcity.
    rewrite osm_search_parking_spots_run in Hosm. simpl in Hosm.
    set (reqs := Build_CamperRequirements height weight length
                   needs_facilities needs_overnight radius_km).
    rewrite (find_parking_spots_miss env location reqs (finder ai) st_c lat lon
               (overpass_query env (ticks st_c) lat lon radius_km) []);
      auto.
    + intros e He. simpl in He. rewrite He in Hosm.
      destruct (osm_handles e); [reflexivity | discriminate].
    + unfold all_spots_of, t_google, t_city. simpl.
      rewrite Hgoogle, Hcity.
      destruct (overpass_query env (ticks st_c) lat lon radius_km) as [l|e].
      * injection Hosm as ->. reflexivity.
      * reflexivity.
Qed.

Lemma empty_search_gives_no_results_witness :
  fst (search_parking (sample_env (Returned None) (Returned [])) initial_ai
         "Atlantis" (32 # 10) (35 # 10) 7 false true 10)
  = no_results ("No suitable parking spots found near " ++ "Atlantis")
      "Try expanding search radius or adjusting requirements"
      {| sp_location := "Atlantis"; sp_height := 32 # 10;
         sp_weight := 35 # 10; sp_length := 7; sp_needs_facilities := false;
         sp_needs_overnight := true; sp_radius_km := 10 |}
  /\ fst (search_parking (sample_env espoo (Returned [])) initial_ai
            "Espoo" (32 # 10) (35 # 10) 7 false true 10)
     = no_results ("No suitable parking spots found near " ++ "Espoo")
         "Try expanding search radius or adjusting requirements"
         {| sp_location := "Espoo"; sp_height := 32 # 10;
            sp_weight := 35 # 10; sp_length := 7; sp_needs_facilities := false;
            sp_needs_overnight := true; sp_radius_km := 10 |}.
Proof.
  split.
  - apply (empty_search_gives_no_results
             (sample_env (Returned None) (Returned [])) initial_ai "Atlantis").
    left. reflexivity.
  - apply (empty_search_gives_no_results
             (sample_env espoo (Returned [])) initial_ai "Espoo").
    right. exists (602055 # 10000), (246559 # 10000), (advance 1 initial_state).
    repeat split; reflexivity.
Defined.

Lemma _filter_spots_nil_iff (spots : list ScrapedParkingSpot)
    (reqs : CamperRequirements) :
  _filter_spots spots reqs = []
  <-> Forall (fun s => suitable reqs s = false) spots.
Proof.
  split.
  - intro H. apply Forall_forall. intros s Hs.
    destruct (suitable reqs s) eqn:E; [|reflexivity].
    assert (Hin : In s (_filter_spots spots reqs))
      by (apply _filter_spots_In; auto).
    rewrite H in Hin. destruct Hin.
  - intro H. unfold _filter_spots.
    replace (filter (suitable reqs) spots) with (@nil ScrapedParkingSpot);
      [reflexivity|].
    induction H as [|s l Hs _ IH]; simpl; [reflexivity|].
    now rewrite Hs.
Qed.

(** C8 as the code has it: the filter returns the empty list both for
    no candidates and for candidates that all fail, and every search
    whose list is empty gets one and the same "no_results" answer, which
    carries the parameters of the search. *)
Theorem empty_result_one_outcome
    (env : Env) (ai : AIState) (location : string)
    (height weight length : Q) (needs_facilities needs_overnight : bool)
    (radius_km : Q) (st' : FinderState) :
  find_parking_spots env location
    (Build_CamperRequirements height weight length needs_facilities
       needs_overnight radius_km) (finder ai)
  = (Returned [], st') ->
  (forall spots reqs,
     _filter_spots spots reqs = []
     <-> Forall (fun s => suitable reqs s = false) spots)
  /\ fst (search_parking env ai location height weight length
            needs_facilities needs_overnight radius_km)
     = no_results ("No suitable parking spots found near " ++ location)
         "Try expanding search radius or adjusting requirements"
         {| sp_location := location; sp_height := height;
            sp_weight := weight; sp_length := length;
            sp_needs_facilities := needs_facilities;
            sp_needs_overnight := needs_overnight;
            sp_radius_km := radius_km |}.
Proof.
  intro H. split.
  - apply _filter_spots_nil_iff.
  - unfold search_parking. rewrite H. reflexivity.
Qed.

Lemma empty_result_one_outcome_witness :
  (forall spots reqs,
     _filter_spots spots reqs = []
     <-> Forall (fun s => suitable reqs s = false) spots)
  /\ fst (search_parking (sample_env espoo (Returned [spot_3m])) initial_ai
            "Espoo" (32 # 10) (35 # 10) 7 false true 10)
     = no_results ("No suitable parking spots found near " ++ "Espoo")
         "Try expanding search radius or adjusting requirements"
         {| sp_location := "Espoo"; sp_height := 32 # 10;
            sp_weight := 35 # 10; sp_length := 7;
            sp_needs_facilities := false; sp_needs_overnight := true;
            sp_radius_km := 10 |}.
Proof.
  apply (empty_result_one_outcome (sample_env espoo (Returned [spot_3m]))
           initial_ai "Espoo" (32 # 10) (35 # 10) 7 false true 10
           (stored_state (sample_env espoo (Returned [spot_3m])) "Espoo"
              (602055 # 10000) (246559 # 10000) 10 (advance 1 initial_state)
              [spot_3m])).
  reflexivity.
Defined.

(** C8 as stated fails: a search that finds a candidate and filters it
    out (a 3.0 m limit against a 3.2 m vehicle) and a search that finds
    no candidate return the same answer. *)
Lemma filtered_out_same_as_nothing_found :
  _deduplicate_spots [spot_3m] = Returned [spot_3m]
  /\ _deduplicate_spots [] = Returned []
  /\ fst (search_parking (sample_env espoo (Returned [spot_3m])) initial_ai
            "Espoo" (32 # 10) (35 # 10) 7 false true 10)
     = fst (search_parking (sample_env espoo (Returned [])) initial_ai
              "Espoo" (32 # 10) (35 # 10) 7 false true 10).
Proof. repeat split. Qed.

(* ================================================================== *)
(** * Further properties of the code *)

(* ------------------------------------------------------------------ *)
(** ** Geo math, continued *)

Lemma distance_symmetric (lat1 lon1 lat2 lon2 : R) :
  Geo._calculate_distance lat1 lon1 lat2 lon2
  = Geo._calculate_distance lat2 lon2 lat1 lon1.
Proof.
  unfold Geo._calculate_distance. cbv zeta.
  set (p1 := Geo.radians lat1). set (p2 := Geo.radians lat2).
  set (l1 := Geo.radians lon1). set (l2 := Geo.radians lon2).
  replace ((p1 - p2) / 2)%R with (- ((p2 - p1) / 2))%R by field.
  replace ((l1 - l2) / 2)%R with (- ((l2 - l1) / 2))%R by field.
  rewrite !sin_neg.
  replace ((- sin ((p2 - p1) / 2)) ^ 2
           + cos p2 * cos p1 * (- sin ((l2 - l1) / 2)) ^ 2)%R
    with (sin ((p2 - p1) / 2) ^ 2
          + cos p1 * cos p2 * sin ((l2 - l1) / 2) ^ 2)%R by ring.
  reflexivity.
Qed.

Lemma distance_self (lat lon : R) :
  Geo._calculate_distance lat lon lat lon = 0%R.
Proof.
  unfold Geo._calculate_distance. cbv zeta.
  replace ((Geo.radians lat - Geo.radians lat) / 2)%R with 0%R by field.
  replace ((Geo.radians lon - Geo.radians lon) / 2)%R with 0%R by field.
  rewrite sin_0.
  replace (0 ^ 2 + cos (Geo.radians lat) * cos (Geo.radians lat) * 0 ^ 2)%R
    with 0%R by ring.
  rewrite sqrt_0, asin_0. ring.
Qed.

(** X2: the distance does not depend on the order of the two points, and
    a point is at distance 0 from itself. *)
Theorem distance_symmetric_zero (lat1 lon1 lat2 lon2 : R) :
  Geo._calculate_distance lat1 lon1 lat2 lon2
  = Geo._calculate_distance lat2 lon2 lat1 lon1
  /\ Geo._calculate_distance lat1 lon1 lat1 lon1 = 0%R.
Proof.
  split; [apply distance_symmetric | apply distance_self].
Qed.

(* ------------------------------------------------------------------ *)
(** ** De-duplication, continued *)

Lemma within_threshold_sym (a b : ScrapedParkingSpot) :
  within_threshold a b = within_threshold b a.
Proof.
  unfold within_threshold, spot_distance.
  now rewrite distance_symmetric.
Qed.

Lemma within_threshold_refl (a : ScrapedParkingSpot) :
  within_threshold a a = true.
Proof.
  apply within_threshold_true. unfold spot_distance.
  rewrite distance_self. lra.
Qed.

(** What [list.remove] leaves: all elements but one, which equals the
    argument. *)
Lemma list_remove_spec (x : ScrapedParkingSpot)
    (l r : list ScrapedParkingSpot) :
  list_remove x l = Returned r ->
  List.length l = S (List.length r)
  /\ incl r l
  /\ forall e, In e l -> In e r \/ spot_eqb e x = true.
Proof.
  revert r. induction l as [|y l IH]; simpl; intros r H; [discriminate|].
  destruct (spot_eqb y x) eqn:E.
  - inversion H; subst. repeat split.
    + apply incl_tl, incl_refl.
    + intros e [<- | He]; auto.
  - destruct (list_remove x l) as [r'|] eqn:Er; simpl in H; [|discriminate].
    inversion H; subst.
    destruct (IH r' eq_refl) as (Hlen & Hincl & Hcov).
    repeat split.
    + simpl. now rewrite Hlen.
    + intros e [<- | He]; [now left | right; now apply Hincl].
    + intros e [<- | He]; [left; now left|].
      destruct (Hcov e He); [left; now right | now right].
Qed.

Lemma spot_eqb_confidence (a b : ScrapedParkingSpot) :
  spot_eqb a b = true -> (confidence a == confidence b)%Q.
Proof.
  unfold spot_eqb. rewrite !andb_true_iff.
  intros [_ H]. now apply Qeq_bool_eq.
Qed.

(** One turn of the loop: the accepted spots afterwards come from the
    accepted spots before and the incoming one, their number grows by at
    most one and is never zero, and every spot considered so far is
    matched in confidence by one that is accepted. *)
Lemma dedup_step_spec (u u' : list ScrapedParkingSpot)
    (spot : ScrapedParkingSpot) :
  dedup_step u spot = Returned u' ->
  incl u' (u ++ [spot])
  /\ (List.length u' <= S (List.length u))%nat
  /\ u' <> []
  /\ forall s, In s (u ++ [spot]) ->
       exists e, In e u' /\ (confidence s <= confidence e)%Q.
Proof.
  unfold dedup_step.
  destruct (find (within_threshold spot) u) as [existing|] eqn:Ef.
  - pose proof (find_In _ _ _ _ Ef) as Hin.
    destruct (Qlt_bool (confidence existing) (confidence spot)) eqn:Ec.
    + destruct (list_remove existing u) as [r|] eqn:Er; simpl; [|discriminate].
      intro H. inversion H; subst. clear H.
      destruct (list_remove_spec _ _ _ Er) as (Hlen & Hincl & Hcov).
      apply Qlt_bool_iff in Ec.
      repeat split.
      * apply incl_app; [apply incl_appl, Hincl | apply incl_appr, incl_refl].
      * rewrite length_app. simpl. lia.
      * intro Hnil. apply app_eq_nil in Hnil. destruct Hnil; discriminate.
      * intros s Hs. apply in_app_or in Hs.
        destruct Hs as [Hs | [<- | []]].
        -- destruct (Hcov s Hs) as [Hr | Heq].
           ++ exists s. split; [apply in_or_app; now left | apply Qle_refl].
           ++ exists spot. split; [apply in_or_app; right; now left|].
              apply spot_eqb_confidence in Heq. rewrite Heq.
              now apply Qlt_le_weak.
        -- exists spot.
           split; [apply in_or_app; right; now left | apply Qle_refl].
    + intro H. inversion H; subst. clear H.
      apply Qlt_bool_false_iff in Ec.
      repeat split.
      * apply incl_appl, incl_refl.
      * lia.
      * intro Hnil. subst. destruct Hin.
      * intros s Hs. apply in_app_or in Hs.
        destruct Hs as [Hs | [<- | []]].
        -- exists s. split; [exact Hs | apply Qle_refl].
        -- exists existing. split; assumption.
  - intro H. inversion H; subst. clear H.
    repeat split.
    + apply incl_refl.
    + rewrite length_app. simpl. lia.
    + intro Hnil. apply app_eq_nil in Hnil. destruct Hnil; discriminate.
    + intros s Hs. exists s. split; [exact Hs | apply Qle_refl].
Qed.

Lemma dedup_loop_spec (spots u u' : list ScrapedParkingSpot) :
  dedup_loop spots u = Returned u' ->
  incl u' (u ++ spots)
  /\ (List.length u' <= List.length u + List.length spots)%nat
  /\ (u ++ spots <> [] -> u' <> [])
  /\ forall s, In s (u ++ spots) ->
       exists e, In e u' /\ (confidence s <= confidence e)%Q.
Proof.
  revert u. induction spots as [|spot spots IH]; intros u H; simpl in H.
  - inversion H; subst. rewrite app_nil_r.
    repeat split; auto using incl_refl.
    + lia.
    + intros s Hs. exists s. split; [exact Hs | apply Qle_refl].
  - destruct (dedup_step u spot) as [u1|] eqn:Es; simpl in H; [|discriminate].
    destruct (dedup_step_spec _ _ _ Es) as (Hi1 & Hl1 & Hn1 & Hd1).
    destruct (IH _ H) as (Hi & Hl & Hn & Hd).
    assert (Hsub : incl (u1 ++ spots) (u ++ spot :: spots)).
    { apply incl_app.
      - intros e He. apply Hi1 in He. apply in_app_or in He.
        apply in_or_app. destruct He as [He | [<- | []]];
          [now left | right; now left].
      - intros e He. apply in_or_app. right. now right. }
    repeat split.
    + intros e He. apply Hsub, Hi, He.
    + simpl. lia.
    + intros _. apply Hn. intro Hnil. apply app_eq_nil in Hnil. tauto.
    + intros s Hs.
      assert (Hcase : In s (u ++ [spot]) \/ In s spots).
      { apply in_app_or in Hs. destruct Hs as [Hs | [<- | Hs]].
        - left. apply in_or_app. now left.
        - left. apply in_or_app. right. now left.
        - now right. }
      destruct Hcase as [Hs1 | Hs2].
      * destruct (Hd1 s Hs1) as (e & He & Hle).
        destruct (Hd e (in_or_app _ _ _ (or_introl He))) as (e' & He' & Hle').
        exists e'. split; [exact He' | now apply Qle_trans with (confidence e)].
      * apply Hd. apply in_or_app. now right.
Qed.

(** X4: [_deduplicate_spots] returns for every input (its
    [list.remove] always finds its argument), the spots it returns are
    spots of the input, not more than the input has, and it returns the
    empty list for the empty input only. *)
Theorem dedup_returns_part_of_input (spots : list ScrapedParkingSpot) :
  exists unique_spots,
    _deduplicate_spots spots = Returned unique_spots
    /\ incl unique_spots spots
    /\ (List.length unique_spots <= List.length spots)%nat
    /\ (unique_spots = [] <-> spots = []).
Proof.
  destruct (_deduplicate_spots_returns spots) as [u Hu].
  exists u. split; [exact Hu|].
  destruct (dedup_loop_spec _ _ _ Hu) as (Hi & Hl & Hn & _).
  simpl in *. repeat split; auto.
  - intros ->. destruct spots as [|s l]; [reflexivity|].
    exfalso. now apply Hn.
  - intros ->. destruct u as [|e u]; [reflexivity|].
    destruct (Hi e (or_introl eq_refl)).
Qed.

(** X5: no confidence is lost: for every spot of the input, the output
    holds a spot of at least that confidence. *)
Theorem dedup_keeps_best_confidence
    (spots unique_spots : list ScrapedParkingSpot) (s : ScrapedParkingSpot) :
  _deduplicate_spots spots = Returned unique_spots ->
  In s spots ->
  exists e, In e unique_spots /\ (confidence s <= confidence e)%Q.
Proof.
  intros Hu Hs.
  destruct (dedup_loop_spec _ _ _ Hu) as (_ & _ & _ & Hd).
  now apply Hd.
Qed.

Lemma dedup_keeps_best_confidence_witness :
  exists e,
    In e [spot_north; spot_middle]
    /\ (confidence spot_south <= confidence e)%Q.
Proof.
  apply (dedup_keeps_best_confidence [spot_south; spot_north; spot_middle]
           [spot_north; spot_middle] spot_south).
  - change (_deduplicate_spots [spot_south; spot_north; spot_middle])
      with (_deduplicate_spots (([spot_south] ++ [spot_north]) ++ [spot_middle])).
    assert (H2 : _deduplicate_spots ([spot_south] ++ [spot_north])
                 = Returned [spot_south; spot_north]).
    { rewrite (_deduplicate_spots_snoc [spot_south] [spot_south]) by reflexivity.
      apply (dedup_step_no_match spot_north [spot_south]).
      constructor; [|constructor].
      apply within_threshold_false, north_south_distance. }
    rewrite (_deduplicate_spots_snoc _ _ _ H2).
    exact (dedup_step_first_match spot_middle spot_south [] [spot_north]
             (Forall_nil _)
             (within_threshold_true _ _ middle_south_distance)).
  - left. reflexivity.
Defined.

Lemma ForallOrdPairs_snoc (A : Type) (R : A -> A -> Prop) (l : list A) (x : A) :
  ForallOrdPairs R l -> Forall (fun e => R e x) l ->
  ForallOrdPairs R (l ++ [x]).
Proof.
  induction 1 as [|a l Ha Hl IH]; intro Hx; simpl.
  - repeat constructor.
  - inversion Hx; subst. constructor.
    + apply Forall_app. split; [exact Ha | now repeat constructor].
    + now apply IH.
Qed.

Lemma ForallOrdPairs_app_inv (A : Type) (R : A -> A -> Prop) (l1 l2 : list A) :
  ForallOrdPairs R (l1 ++ l2) ->
  ForallOrdPairs R l2 /\ Forall (fun a => Forall (R a) l2) l1.
Proof.
  induction l1 as [|a l1 IH]; simpl; intro H.
  - split; [exact H | constructor].
  - inversion H as [|? ? Ha Hrest]; subst.
    destruct (IH Hrest) as [H2 H1].
    split; [exact H2|].
    constructor; [|exact H1].
    apply Forall_app in Ha. tauto.
Qed.

(** A sequence whose spots are pairwise apart passes the loop
    unchanged. *)
Lemma apart_separated (accepted l : list ScrapedParkingSpot) :
  ForallOrdPairs apart (accepted ++ l) -> separated accepted l.
Proof.
  revert accepted. induction l as [|s l IH]; intros accepted H; simpl.
  - exact I.
  - split.
    + destruct (ForallOrdPairs_app_inv _ _ _ _ H) as [_ Hacc].
      eapply Forall_impl; [|exact Hacc].
      intros e He. simpl in He. inversion He as [|? ? [_ Hfar] _]; subst.
      exact Hfar.
    + apply IH. now rewrite <- app_assoc.
Qed.

(** X6: on an input whose spots are pairwise at or over the threshold
    the function returns its input: it is idempotent wherever its output
    holds no two spots under the threshold. *)
Theorem dedup_fixed_on_duplicate_free (spots : list ScrapedParkingSpot) :
  ForallOrdPairs apart spots ->
  _deduplicate_spots spots = Returned spots.
Proof.
  intro H. apply _deduplicate_spots_separated.
  now apply (apart_separated [] spots).
Qed.

Lemma dedup_fixed_on_duplicate_free_witness :
  _deduplicate_spots [spot_south; spot_north]
  = Returned [spot_south; spot_north].
Proof.
  apply (dedup_fixed_on_duplicate_free [spot_south; spot_north]).
  constructor; [|repeat constructor].
  constructor; [|constructor].
  pose proof (within_threshold_false _ _ north_south_distance) as H.
  split; unfold far; [now rewrite within_threshold_sym | exact H].
Defined.

(** The loop on an input of descending confidence: nothing is ever
    replaced. *)
Lemma dedup_loop_descending (spots u : list ScrapedParkingSpot) :
  confidence_descending spots ->
  (forall e s, In e u -> In s spots -> (confidence s <= confidence e)%Q) ->
  ForallOrdPairs apart u ->
  exists u',
    dedup_loop spots u = Returned u'
    /\ ForallOrdPairs apart u'
    /\ incl u u'
    /\ forall s, In s spots -> exists e, In e u' /\ within_threshold s e = true.
Proof.
  revert u. induction spots as [|s spots IH]; intros u Hsorted Hconf Hu.
  - exists u. simpl. repeat split; auto using incl_refl.
    intros s [].
  - inversion Hsorted as [|? ? Hrest Hs]; subst.
    simpl. unfold dedup_step.
    destruct (find (within_threshold s) u) as [existing|] eqn:Ef.
    + pose proof (find_some _ _ Ef) as [Hin Hnear].
      assert (Hle : (confidence s <= confidence existing)%Q)
        by (apply Hconf; [exact Hin | now left]).
      apply Qlt_bool_false_iff in Hle. rewrite Hle. simpl.
      destruct (IH u Hrest) as (u' & Hrun & Hap & Hinc & Hcov); auto.
      { intros e t He Ht. apply Hconf; [exact He | now right]. }
      exists u'. repeat split; auto.
      intros t [<- | Ht]; [|now apply Hcov].
      exists existing. split; [now apply Hinc | exact Hnear].
    + simpl.
      assert (Hfar : Forall (fun e => apart e s) u).
      { apply Forall_forall. intros e He.
        pose proof (find_none _ _ Ef e He) as Hn.
        split; unfold far; [now rewrite within_threshold_sym | exact Hn]. }
      destruct (IH (u ++ [s]) Hrest) as (u' & Hrun & Hap & Hinc & Hcov).
      { intros e t He Ht. apply in_app_or in He.
        destruct He as [He | [<- | []]].
        - apply Hconf; [exact He | now right].
        - rewrite Forall_forall in Hs. now apply Hs. }
      { now apply ForallOrdPairs_snoc. }
      exists u'. repeat split; auto.
      * intros e He. apply Hinc, in_or_app. now left.
      * intros t [<- | Ht]; [|now apply Hcov].
        exists s. split; [|apply within_threshold_refl].
        apply Hinc, in_or_app. right. now left.
Qed.

(** X7: when no spot of the input has a higher confidence than a spot
    before it, the output is free of duplicates: its spots are pairwise
    at or over the threshold, every spot of the input is under the
    threshold of a spot of the output, and a second run returns the
    output unchanged. *)
Theorem dedup_correct_on_descending_confidence
    (spots : list ScrapedParkingSpot) :
  confidence_descending spots ->
  exists unique_spots,
    _deduplicate_spots spots = Returned unique_spots
    /\ ForallOrdPairs apart unique_spots
    /\ (forall s, In s spots ->
          exists e, In e unique_spots /\ within_threshold s e = true)
    /\ _deduplicate_spots unique_spots = Returned unique_spots.
Proof.
  intro Hsorted.
  destruct (dedup_loop_descending spots [] Hsorted) as (u & Hrun & Hap & _ & Hcov).
  - intros e s [].
  - constructor.
  - exists u. repeat split; auto.
    apply _deduplicate_spots_separated.
    now apply (apart_separated [] u).
Qed.

Lemma dedup_correct_on_descending_confidence_witness :
  exists unique_spots,
    _deduplicate_spots [spot_middle; spot_south; spot_north]
    = Returned unique_spots
    /\ ForallOrdPairs apart unique_spots
    /\ (forall s, In s [spot_middle; spot_south; spot_north] ->
          exists e, In e unique_spots /\ within_threshold s e = true)
    /\ _deduplicate_spots unique_spots = Returned unique_spots.
Proof.
  apply (dedup_correct_on_descending_confidence
           [spot_middle; spot_south; spot_north]).
  repeat constructor; unfold conf_ge; simpl; Lqa.lra.
Defined.

(* ------------------------------------------------------------------ *)
(** ** Requirement filter and ranking, continued *)

Lemma sorted_by_confidence_fixed (l : list ScrapedParkingSpot) :
  StronglySorted conf_ge l -> sorted_by_confidence l = l.
Proof.
  induction 1 as [|x l Hl IH Hx]; simpl; [reflexivity|].
  rewrite IH. destruct l as [|y l]; simpl; [reflexivity|].
  inversion Hx as [|? ? Hxy _]; subst.
  apply Qlt_bool_false_iff in Hxy. now rewrite Hxy.
Qed.

Lemma filter_all_true (A : Type) (f : A -> bool) (l : list A) :
  Forall (fun x => f x = true) l -> filter f l = l.
Proof.
  induction 1 as [|x l Hx _ IH]; simpl; [reflexivity|].
  now rewrite Hx, IH.
Qed.

(** X8: filtering a filtered list again, with the same requirements,
    changes nothing. *)
Theorem filter_idempotent
    (spots : list ScrapedParkingSpot) (reqs : CamperRequirements) :
  _filter_spots (_filter_spots spots reqs) reqs = _filter_spots spots reqs.
Proof.
  unfold _filter_spots at 1.
  rewrite filter_all_true.
  - apply sorted_by_confidence_fixed, sorted_by_confidence_sorted.
  - apply Forall_forall. intros s Hs.
    apply _filter_spots_In in Hs. tauto.
Qed.

Lemma limit_ok_relaxes (limit : option Q) (loose strict : Q) :
  (loose <= strict)%Q ->
  limit_ok limit strict = true -> limit_ok limit loose = true.
Proof.
  intros Hle. destruct limit as [v|]; simpl; [|reflexivity].
  rewrite !orb_true_iff. intros [Hz | Hv]; [now left | right].
  apply Qle_bool_iff in Hv. apply Qle_bool_iff.
  now apply Qle_trans with strict.
Qed.

(** X9: requirements that ask for no more (a lower or equal height and
    weight, no additional need) lose no spot: whatever the filter keeps
    under the stricter requirements it keeps under the looser ones. *)
Theorem filter_monotone
    (spots : list ScrapedParkingSpot) (loose strict : CamperRequirements)
    (spot : ScrapedParkingSpot) :
  relaxes loose strict ->
  In spot (_filter_spots spots strict) ->
  In spot (_filter_spots spots loose).
Proof.
  intros (Hh & Hw & Hf & Ho) Hin.
  apply _filter_spots_In in Hin. destruct Hin as [Hin Hs].
  apply _filter_spots_In. split; [exact Hin|].
  rewrite suitable_retains in *. unfold retains in *.
  rewrite !andb_true_iff in *.
  destruct Hs as [[[H1 H2] H3] H4].
  repeat split.
  - now apply (limit_ok_relaxes _ _ _ Hh).
  - now apply (limit_ok_relaxes _ _ _ Hw).
  - destruct (needs_facilities loose); [|reflexivity].
    now rewrite (Hf eq_refl) in H3.
  - destruct (needs_overnight loose); [|reflexivity].
    now rewrite (Ho eq_refl) in H4.
Qed.

Lemma filter_monotone_witness :
  In spot_3m (_filter_spots [spot_3m] (reqs_of_height (25 # 10))).
Proof.
  apply (filter_monotone [spot_3m] (reqs_of_height (25 # 10))
           (reqs_of_height (28 # 10)) spot_3m).
  - unfold relaxes. simpl. repeat split; auto; Lqa.lra.
  - left. reflexivity.
Defined.

(* ------------------------------------------------------------------ *)
(** ** Result cache, continued *)

(** X10: after an entry is stored under a key, a lookup with that key
    gives the entry, and a lookup with any other key gives what it gave
    before. *)
Theorem cache_store_lookup (key key' : CacheKey) (entry : CacheEntry)
    (c : Cache) :
  cache_lookup key' (cache_store key entry c)
  = if cache_key_eqb key key' then Some entry else cache_lookup key' c.
Proof.
  destruct (cache_key_eqb key key') eqn:E.
  - now apply cache_lookup_store.
  - unfold cache_lookup, cache_store. simpl. rewrite E.
    induction c as [|[k v] c IH]; simpl; [reflexivity|].
    destruct (cache_key_eqb k key) eqn:Ek; simpl.
    + destruct (cache_key_eqb k key') eqn:Ek'; [|exact IH].
      exfalso. rewrite cache_key_eqb_sym in Ek.
      rewrite (cache_key_eqb_trans _ _ _ Ek Ek') in E. discriminate.
    + destruct (cache_key_eqb k key'); [reflexivity | exact IH].
Qed.

(* ------------------------------------------------------------------ *)
(** ** The orchestrator, continued *)

(** The four ways a search can go. *)
Lemma find_parking_spots_cases (env : Env) (location : string)
    (reqs : CamperRequirements) (st : FinderState) :
  (fst (_geocode_location env location st) = Returned None
   /\ find_parking_spots env location reqs st = (Returned [], advance 1 st))
  \/ exists lat lon,
       nominatim_search env (ticks st) location = Returned (Some (lat, lon))
       /\ ((exists cached_data timestamp,
              cache_lookup (cache_key lat lon (radius_km reqs)) (cache st)
              = Some (cached_data, timestamp)
              /\ cache_fresh (time_time env (S (ticks st))) timestamp = true
              /\ find_parking_spots env location reqs st
                 = (Returned (_filter_spots cached_data reqs), advance 2 st))
           \/ exists st_c,
                check_cache env (cache_key lat lon (radius_km reqs))
                  (advance 1 st) = (Returned None, st_c)
                /\ ((exists e,
                       overpass_query env (ticks st_c) lat lon (radius_km reqs)
                       = Raised e
                       /\ osm_handles e = false
                       /\ find_parking_spots env location reqs st
                          = (Raised e,
                             advance 1
                               (logged (OsmCall lat lon (radius_km reqs)) st_c)))
                    \/ exists unique_spots,
                         _deduplicate_spots
                           (all_spots_of env location lat lon (radius_km reqs)
                              st_c
                              (overpass_query env (ticks st_c) lat lon
                                 (radius_km reqs)))
                         = Returned unique_spots
                         /\ find_parking_spots env location reqs st
                            = (Returned (_filter_spots unique_spots reqs),
                               stored_state env location lat lon
                                 (radius_km reqs) st_c unique_spots))).
Proof.
  destruct (nominatim_search env (ticks st) location) as [[[lat lon]|]|e] eqn:Eg.
  - right. exists lat, lon. split; [reflexivity|].
    set (key := cache_key lat lon (radius_km reqs)).
    assert (Hmiss : forall st_c,
              check_cache env key (advance 1 st) = (Returned None, st_c) ->
              (exists e,
                 overpass_query env (ticks st_c) lat lon (radius_km reqs)
                 = Raised e
                 /\ osm_handles e = false
                 /\ find_parking_spots env location reqs st
                    = (Raised e,
                       advance 1
                         (logged (OsmCall lat lon (radius_km reqs)) st_c)))
              \/ exists unique_spots,
                   _deduplicate_spots
                     (all_spots_of env location lat lon (radius_km reqs) st_c
                        (overpass_query env (ticks st_c) lat lon
                           (radius_km reqs)))
                   = Returned unique_spots
                   /\ find_parking_spots env location reqs st
                      = (Returned (_filter_spots unique_spots reqs),
                         stored_state env location lat lon (radius_km reqs)
                           st_c unique_spots)).
    { intros st_c Hc.
      destruct (overpass_query env (ticks st_c) lat lon (radius_km reqs))
        as [l|e] eqn:Eo.
      - right.
        destruct (_deduplicate_spots_returns
                    (all_spots_of env location lat lon (radius_km reqs) st_c
                       (Returned l))) as [u Hu].
        exists u. split; [exact Hu|].
        apply (find_parking_spots_miss env location reqs st st_c lat lon
                 (Returned l)); auto.
        intros e He. discriminate He.
      - destruct (osm_handles e) eqn:Eh.
        + right.
          destruct (_deduplicate_spots_returns
                      (all_spots_of env location lat lon (radius_km reqs) st_c
                         (Raised e))) as [u Hu].
          exists u. split; [exact Hu|].
          apply (find_parking_spots_miss env location reqs st st_c lat lon
                   (Raised e)); auto.
          intros e' He'. inversion He'; subst. exact Eh.
        + left. exists e. repeat split; auto.
          now apply (find_parking_spots_osm_raises env location reqs st st_c
                       lat lon e). }
    pose proof (check_cache_run env key (advance 1 st)) as Hrun.
    simpl in Hrun.
    destruct (cache_lookup key (cache st)) as [[d ts]|] eqn:El.
    + destruct (cache_fresh (time_time env (S (ticks st))) ts) eqn:Ef.
      * left. exists d, ts. repeat split; auto.
        now apply (find_parking_spots_hit env location reqs st lat lon d ts).
      * right. exists (advance 1 (advance 1 st)).
        split; [exact Hrun | now apply Hmiss].
    + right. exists (advance 1 st).
      split; [exact Hrun | now apply Hmiss].
  - left.
    assert (H : fst (_geocode_location env location st) = Returned None)
      by (rewrite _geocode_location_run, Eg; reflexivity).
    split; [exact H | now apply find_parking_spots_unresolved].
  - left.
    assert (H : fst (_geocode_location env location st) = Returned None)
      by (rewrite _geocode_location_run, Eg; reflexivity).
    split; [exact H | now apply find_parking_spots_unresolved].
Qed.

(** X11: whatever way a search goes, the list it returns holds only
    spots that meet the requirements of this search, in descending order
    of confidence; this holds for lists taken from the cache too. *)
Theorem search_result_meets_requirements
    (env : Env) (location : string) (reqs : CamperRequirements)
    (st st' : FinderState) (result : list ScrapedParkingSpot) :
  find_parking_spots env location reqs st = (Returned result, st') ->
  Forall (fun s => suitable reqs s = true) result
  /\ StronglySorted conf_ge result.
Proof.
  intro H.
  assert (Hf : exists data, result = _filter_spots data reqs).
  { destruct (find_parking_spots_cases env location reqs st)
      as [[_ Hr] | (lat & lon & _ & [(d & ts & _ & _ & Hr)
                 | (st_c & _ & [(e & _ & _ & Hr) | (u & _ & Hr)])])];
      rewrite Hr in H; inversion H; subst.
    - exists []. reflexivity.
    - now exists d.
    - now exists u. }
  destruct Hf as [data ->]. split.
  - apply Forall_forall. intros s Hs.
    apply _filter_spots_In in Hs. tauto.
  - apply sorted_by_confidence_sorted.
Qed.

Lemma search_result_meets_requirements_witness :
  Forall (fun s => suitable (reqs_of_height (28 # 10)) s = true) [spot_3m]
  /\ StronglySorted conf_ge [spot_3m].
Proof.
  apply (search_result_meets_requirements
           (sample_env espoo (Returned [spot_3m])) "Espoo"
           (reqs_of_height (28 # 10)) initial_state
           (stored_state (sample_env espoo (Returned [spot_3m])) "Espoo"
              (602055 # 10000) (246559 # 10000) 10 (advance 1 initial_state)
              [spot_3m])
           [spot_3m]).
  reflexivity.
Defined.

(** X12: what a search does to the cache follows from how it went.
    When the location does not resolve the cache stays as it was.  When
    the key has a fresh entry the search returns the stored list filtered
    and the cache stays as it was.  When the key has no entry, or a stale
    one, the search scrapes: if the OpenStreetMap connector lets an
    exception through the search raises it and the cache stays as it was;
    otherwise the cache becomes the old one with, under the key of this
    search, the de-duplicated list of all the records of the three
    connectors and the clock's value after they were asked.  So a search
    that raises never changes the cache. *)
Theorem search_cache_effect
    (env : Env) (location : string) (reqs : CamperRequirements)
    (st : FinderState) :
  (fst (_geocode_location env location st) = Returned None ->
   cache (snd (find_parking_spots env location reqs st)) = cache st)
  /\ (forall e, fst (find_parking_spots env location reqs st) = Raised e ->
        cache (snd (find_parking_spots env location reqs st)) = cache st)
  /\ forall lat lon,
       nominatim_search env (ticks st) location = Returned (Some (lat, lon)) ->
       (forall cached_data timestamp,
          cache_lookup (cache_key lat lon (radius_km reqs)) (cache st)
          = Some (cached_data, timestamp) ->
          (time_time env (S (ticks st)) - timestamp < cache_duration)%Q ->
          fst (find_parking_spots env location reqs st)
          = Returned (_filter_spots cached_data reqs)
          /\ cache (snd (find_parking_spots env location reqs st)) = cache st)
       /\ (forall st_c,
             st_c = match cache_lookup (cache_key lat lon (radius_km reqs))
                            (cache st) with
                    | Some _ => advance 2 st
                    | None => advance 1 st
                    end ->
             (forall cached_data timestamp,
                cache_lookup (cache_key lat lon (radius_km reqs)) (cache st)
                = Some (cached_data, timestamp) ->
                (cache_duration <= time_time env (S (ticks st)) - timestamp)%Q)
             ->
             (forall e,
                overpass_query env (ticks st_c) lat lon (radius_km reqs)
                = Raised e ->
                osm_handles e = false ->
                fst (find_parking_spots env location reqs st) = Raised e
                /\ cache (snd (find_parking_spots env location reqs st))
                   = cache st)
             /\ ((forall e,
                    overpass_query env (ticks st_c) lat lon (radius_km reqs)
                    = Raised e -> osm_handles e = true) ->
                 exists unique_spots,
                   _deduplicate_spots
                     (all_spots_of env location lat lon (radius_km reqs) st_c
                        (overpass_query env (ticks st_c) lat lon
                           (radius_km reqs)))
                   = Returned unique_spots
                   /\ fst (find_parking_spots env location reqs st)
                      = Returned (_filter_spots unique_spots reqs)
                   /\ cache (snd (find_parking_spots env location reqs st))
                      = cache_store (cache_key lat lon (radius_km reqs))
                          (unique_spots,
                           time_time env (t_store env location st_c))
                          (cache st))).
Proof.
  split; [|split].
  - intro H.
    now rewrite (find_parking_spots_unresolved env location reqs st H).
  - intros e He.
    destruct (find_parking_spots_cases env location reqs st)
      as [[_ Hr] | (lat & lon & Hg & [(d & ts & _ & _ & Hr)
                 | (st_c & Hc & [(e' & _ & _ & Hr) | (u & _ & Hr)])])];
      rewrite Hr in He |- *; simpl in *; try discriminate He;
      try reflexivity.
    now destruct (check_cache_keeps _ _ _ _ _ Hc) as [Hcache _].
  - intros lat lon Hgeo. split.
    + intros d ts Hl Hf.
      apply Qlt_bool_iff in Hf.
      rewrite (find_parking_spots_hit env location reqs st lat lon d ts
                 Hgeo Hl Hf).
      split; reflexivity.
    + intros st_c Hst Hstale.
      assert (Hc : check_cache env (cache_key lat lon (radius_km reqs))
                     (advance 1 st) = (Returned None, st_c)).
      { rewrite check_cache_run. simpl.
        destruct (cache_lookup (cache_key lat lon (radius_km reqs))
                    (cache st)) as [[d ts]|] eqn:El.
        - pose proof (Hstale d ts eq_refl) as Hs.
          apply Qlt_bool_false_iff in Hs. unfold cache_fresh.
          rewrite Hs, Hst. reflexivity.
        - now rewrite Hst. }
      destruct (check_cache_keeps _ _ _ _ _ Hc) as [Hcache _].
      simpl in Hcache.
      split.
      * intros e Ho He.
        rewrite (find_parking_spots_osm_raises env location reqs st st_c
                   lat lon e Hgeo Hc Ho He).
        split; [reflexivity | exact Hcache].
      * intro Hh.
        destruct (_deduplicate_spots_returns
                    (all_spots_of env location lat lon (radius_km reqs) st_c
                       (overpass_query env (ticks st_c) lat lon
                          (radius_km reqs)))) as [u Hu].
        exists u. split; [exact Hu|].
        rewrite (find_parking_spots_miss env location reqs st st_c lat lon
                   (overpass_query env (ticks st_c) lat lon (radius_km reqs))
                   u Hgeo Hc eq_refl Hh Hu).
        split; [reflexivity|]. simpl. now rewrite Hcache.
Qed.

(** A first search for Espoo stores its one record with the time 2; a
    second one, answered from the cache, leaves that entry alone. *)
Lemma search_cache_effect_witness :
  cache (snd (find_parking_spots (sample_env espoo (Returned [spot_3m]))
                "Espoo" (reqs_of_height (32 # 10)) initial_state))
  = cache_store (cache_key (602055 # 10000) (246559 # 10000) 10)
      ([spot_3m], 2) []
  /\ cache (snd (find_parking_spots (sample_env espoo (Returned [spot_3m]))
                   "Espoo" (reqs_of_height (28 # 10))
                   (stored_state (sample_env espoo (Returned [spot_3m]))
                      "Espoo" (602055 # 10000) (246559 # 10000) 10
                      (advance 1 initial_state) [spot_3m])))
     = cache_store (cache_key (602055 # 10000) (246559 # 10000) 10)
         ([spot_3m], 2) [].
Proof.
  split.
  - destruct (search_cache_effect (sample_env espoo (Returned [spot_3m]))
                "Espoo" (reqs_of_height (32 # 10)) initial_state)
      as (_ & _ & H).
    destruct (H (602055 # 10000) (246559 # 10000) eq_refl) as [_ Hscrape].
    destruct (Hscrape (advance 1 initial_state) eq_refl) as [_ Hstore].
    + intros d ts Hl. discriminate Hl.
    + destruct Hstore as (u & Hu & _ & Hcache).
      * intros e He. discriminate He.
      * injection Hu as <-. exact Hcache.
  - destruct (search_cache_effect (sample_env espoo (Returned [spot_3m]))
                "Espoo" (reqs_of_height (28 # 10))
                (stored_state (sample_env espoo (Returned [spot_3m]))
                   "Espoo" (602055 # 10000) (246559 # 10000) 10
                   (advance 1 initial_state) [spot_3m]))
      as (_ & _ & H).
    destruct (H (602055 # 10000) (246559 # 10000) eq_refl) as [Hhit _].
    destruct (Hhit [spot_3m] 2 eq_refl) as [_ Hcache].
    + vm_compute. reflexivity.
    + exact Hcache.
Defined.

(** X13: a search calls each connector at most once and in the order
    OpenStreetMap, Google, city: it calls none (location unresolved, or
    answer from the cache), or OpenStreetMap alone, which then raised, or
    all three. *)
Theorem search_connector_calls
    (env : Env) (location : string) (reqs : CamperRequirements)
    (st : FinderState) :
  calls (snd (find_parking_spots env location reqs st)) = calls st
  \/ (exists lat lon e,
        fst (find_parking_spots env location reqs st) = Raised e
        /\ calls (snd (find_parking_spots env location reqs st))
           = OsmCall lat lon (radius_km reqs) :: calls st)
  \/ exists lat lon,
       calls (snd (find_parking_spots env location reqs st))
       = CityCall location lat lon (radius_km reqs)
         :: GoogleCall lat lon (radius_km reqs)
         :: OsmCall lat lon (radius_km reqs) :: calls st.
Proof.
  destruct (find_parking_spots_cases env location reqs st)
    as [[_ Hr] | (lat & lon & Hg & [(d & ts & _ & _ & Hr)
               | (st_c & Hc & [(e & _ & _ & Hr) | (u & _ & Hr)])])];
    rewrite Hr; simpl.
  - now left.
  - now left.
  - destruct (check_cache_keeps _ _ _ _ _ Hc) as [_ Hcalls]. simpl in Hcalls.
    right. left. exists lat, lon, e. split; [reflexivity | now rewrite Hcalls].
  - destruct (check_cache_keeps _ _ _ _ _ Hc) as [_ Hcalls]. simpl in Hcalls.
    right. right. exists lat, lon. now rewrite Hcalls.
Qed.

(** X14: an entry that is no longer fresh is not used: the search
    scrapes, calls the three connectors, and puts the new set with a new
    time stamp in the place of the old entry. *)
Theorem stale_entry_replaced
    (env : Env) (location : string) (reqs : CamperRequirements)
    (st : FinderState) (lat lon : Q)
    (old_data : list ScrapedParkingSpot) (timestamp : Q) :
  nominatim_search env (ticks st) location = Returned (Some (lat, lon)) ->
  cache_lookup (cache_key lat lon (radius_km reqs)) (cache st)
  = Some (old_data, timestamp) ->
  (cache_duration <= time_time env (S (ticks st)) - timestamp)%Q ->
  (forall e, overpass_query env (S (S (ticks st))) lat lon (radius_km reqs)
             = Raised e -> osm_handles e = true) ->
  exists unique_spots st',
    _deduplicate_spots
      (all_spots_of env location lat lon (radius_km reqs) (advance 2 st)
         (overpass_query env (S (S (ticks st))) lat lon (radius_km reqs)))
    = Returned unique_spots
    /\ find_parking_spots env location reqs st
       = (Returned (_filter_spots unique_spots reqs), st')
    /\ cache_lookup (cache_key lat lon (radius_km reqs)) (cache st')
       = Some (unique_spots,
               time_time env (t_store env location (advance 2 st)))
    /\ calls st'
       = CityCall location lat lon (radius_km reqs)
         :: GoogleCall lat lon (radius_km reqs)
         :: OsmCall lat lon (radius_km reqs) :: calls st.
Proof.
  intros Hg Hl Hstale Hosm.
  destruct (_deduplicate_spots_returns
              (all_spots_of env location lat lon (radius_km reqs)
                 (advance 2 st)
                 (overpass_query env (S (S (ticks st))) lat lon
                    (radius_km reqs)))) as [u Hu].
  exists u.
  exists (stored_state env location lat lon (radius_km reqs) (advance 2 st) u).
  split; [exact Hu|]. split; [|split].
  - apply (find_parking_spots_miss env location reqs st (advance 2 st) lat lon
             (overpass_query env (S (S (ticks st))) lat lon (radius_km reqs)));
      auto.
    rewrite check_cache_run. simpl. rewrite Hl. simpl.
    apply Qlt_bool_false_iff in Hstale.
    unfold cache_fresh. now rewrite Hstale.
  - simpl. apply cache_lookup_store, cache_key_eqb_refl.
  - reflexivity.
Qed.

Lemma stale_entry_replaced_witness :
  exists unique_spots st',
    _deduplicate_spots
      (all_spots_of (sample_env espoo (Returned [spot_3m])) "Espoo"
         (602055 # 10000) (246559 # 10000) 10
         (advance 2
            {| cache := cache_store
                          (cache_key (602055 # 10000) (246559 # 10000) 10)
                          ([], 0) [];
               ticks := 4000; calls := [] |})
         (Returned [spot_3m]))
    = Returned unique_spots
    /\ find_parking_spots (sample_env espoo (Returned [spot_3m])) "Espoo"
         (reqs_of_height (28 # 10))
         {| cache := cache_store
                       (cache_key (602055 # 10000) (246559 # 10000) 10)
                       ([], 0) [];
            ticks := 4000; calls := [] |}
       = (Returned (_filter_spots unique_spots (reqs_of_height (28 # 10))), st')
    /\ cache_lookup (cache_key (602055 # 10000) (246559 # 10000) 10) (cache st')
       = Some (unique_spots, 4003)
    /\ calls st'
       = [CityCall "Espoo" (602055 # 10000) (246559 # 10000) 10;
          GoogleCall (602055 # 10000) (246559 # 10000) 10;
          OsmCall (602055 # 10000) (246559 # 10000) 10].
Proof.
  apply (stale_entry_replaced (sample_env espoo (Returned [spot_3m])) "Espoo"
           (reqs_of_height (28 # 10))
           {| cache := cache_store
                         (cache_key (602055 # 10000) (246559 # 10000) 10)
                         ([], 0) [];
              ticks := 4000; calls := [] |}
           (602055 # 10000) (246559 # 10000) [] 0).
  - reflexivity.
  - reflexivity.
  - vm_compute. discriminate.
  - intros e H. discriminate H.
Defined.

(* ------------------------------------------------------------------ *)
(** ** The map view *)

Lemma min_from_le (l : list Q) (current : Q) :
  (min_from current l <= current)%Q
  /\ Forall (fun x => (min_from current l <= x)%Q) l.
Proof.
  revert current. induction l as [|x l IH]; intro current; simpl.
  - split; [apply Qle_refl | constructor].
  - destruct (Qlt_bool x current) eqn:E.
    + apply Qlt_bool_iff in E. destruct (IH x) as [H1 H2].
      split; [|now constructor].
      apply Qle_trans with x; [exact H1 | now apply Qlt_le_weak].
    + apply Qlt_bool_false_iff in E. destruct (IH current) as [H1 H2].
      split; [exact H1|]. constructor; [|exact H2].
      now apply Qle_trans with current.
Qed.

Lemma max_from_ge (l : list Q) (current : Q) :
  (current <= max_from current l)%Q
  /\ Forall (fun x => (x <= max_from current l)%Q) l.
Proof.
  revert current. induction l as [|x l IH]; intro current; simpl.
  - split; [apply Qle_refl | constructor].
  - destruct (Qlt_bool current x) eqn:E.
    + apply Qlt_bool_iff in E. destruct (IH x) as [H1 H2].
      split; [|now constructor].
      apply Qle_trans with x; [now apply Qlt_le_weak | exact H1].
    + apply Qlt_bool_false_iff in E. destruct (IH current) as [H1 H2].
      split; [exact H1|]. constructor; [|exact H2].
      now apply Qle_trans with current.
Qed.

Lemma padding_positive (span : Q) : (0 <= span)%Q -> (0 < padding span)%Q.
Proof.
  intro H. unfold padding.
  destruct (Qeq_bool (span * (1 # 10)) 0) eqn:E.
  - reflexivity.
  - apply Qeq_bool_neq in E. Lqa.lra.
Qed.

(** The least and the greatest of a non-empty list enclose it. *)
Lemma py_min_max (x : Q) (l : list Q) :
  exists lo hi,
    py_min (x :: l) = Returned lo /\ py_max (x :: l) = Returned hi
    /\ (lo <= hi)%Q
    /\ Forall (fun y => (lo <= y)%Q /\ (y <= hi)%Q) (x :: l).
Proof.
  exists (min_from x l), (max_from x l).
  destruct (min_from_le l x) as [Hm Hml].
  destruct (max_from_ge l x) as [HM HMl].
  repeat split.
  - now apply Qle_trans with x.
  - constructor; [split; assumption|].
    rewrite Forall_forall in *. intros y Hy. split; auto.
Qed.

(** The bounds of a non-empty list: they enclose every point and leave
    room on each axis. *)
Lemma map_bounds_cons (c : Q * Q) (coords : list (Q * Q)) :
  exists b,
    map_bounds (c :: coords) = Returned b
    /\ Forall (fun c => (min_lat b <= fst c)%Q /\ (fst c <= max_lat b)%Q
                        /\ (min_lon b <= snd c)%Q /\ (snd c <= max_lon b)%Q)
         (c :: coords)
    /\ (min_lat b < max_lat b)%Q /\ (min_lon b < max_lon b)%Q.
Proof.
  unfold map_bounds.
  destruct (py_min_max (fst c) (map fst coords))
    as (lo1 & hi1 & Hmin1 & Hmax1 & Hle1 & Hall1).
  destruct (py_min_max (snd c) (map snd coords))
    as (lo2 & hi2 & Hmin2 & Hmax2 & Hle2 & Hall2).
  change (map fst (c :: coords)) with (fst c :: map fst coords).
  change (map snd (c :: coords)) with (snd c :: map snd coords).
  rewrite Hmin1, Hmax1, Hmin2, Hmax2. simpl obind.
  eexists. split; [reflexivity|]. simpl.
  assert (Hp1 : (0 < padding (hi1 - lo1))%Q)
    by (apply padding_positive; Lqa.lra).
  assert (Hp2 : (0 < padding (hi2 - lo2))%Q)
    by (apply padding_positive; Lqa.lra).
  change (fst c :: map fst coords) with (map fst (c :: coords)) in Hall1.
  change (snd c :: map snd coords) with (map snd (c :: coords)) in Hall2.
  rewrite Forall_map in Hall1, Hall2.
  split; [|split; Lqa.lra].
  rewrite Forall_forall in *. intros d Hd.
  destruct (Hall1 d Hd) as [H1 H2]. destruct (Hall2 d Hd) as [H3 H4].
  repeat split; Lqa.lra.
Qed.

(** X15: for a non-empty list of coordinates the bounds of the map are
    computed and no spot lies outside them; when the coordinates are
    degrees (latitudes within 90, longitudes within 180 of zero) the
    bounds leave room on both axes, the lower bound being strictly below
    the upper one, also when all spots share a latitude or a longitude:
    this is what the second value of the padding is for.  For the empty
    list the computation raises [ValueError]. *)
Theorem map_bounds_enclose (coords : list (Q * Q)) :
  match coords with
  | [] => map_bounds coords = Raised ValueError
  | _ :: _ =>
      exists b,
        map_bounds coords = Returned b
        /\ Forall (fun c => (min_lat b <= fst c)%Q /\ (fst c <= max_lat b)%Q
                            /\ (min_lon b <= snd c)%Q
                            /\ (snd c <= max_lon b)%Q)
             coords
        /\ (Forall (fun c => (Qabs (fst c) <= 90)%Q
                             /\ (Qabs (snd c) <= 180)%Q) coords ->
            (min_lat b < max_lat b)%Q /\ (min_lon b < max_lon b)%Q)
  end.
Proof.
  destruct coords as [|c coords]; [reflexivity|].
  destruct (map_bounds_cons c coords) as (b & Hb & Hin & Hbox).
  exists b. split; [exact Hb|]. split; [exact Hin|]. intros _. exact Hbox.
Qed.

(** One spot alone: the padding is 0.01 degrees on each side. *)
Lemma map_bounds_enclose_witness :
  exists b,
    map_bounds [(601699 # 10000, 249384 # 10000)] = Returned b
    /\ (min_lat b < max_lat b)%Q /\ (min_lon b < max_lon b)%Q.
Proof.
  destruct (map_bounds_enclose [(601699 # 10000, 249384 # 10000)])
    as (b & Hb & _ & Hbox).
  exists b. split; [exact Hb|]. apply Hbox.
  constructor; [|constructor].
  split; vm_compute; discriminate.
Defined.

(** X16: [search_parking] reports "success" only with at least one spot,
    [spots_found] being their number; so [show_map] draws exactly for
    the results of status "success", and the bounds of the map are then
    computed without an exception. *)
Theorem success_has_spots
    (env : Env) (ai : AIState) (location : string)
    (height weight length : Q) (needs_facilities needs_overnight : bool)
    (radius_km : Q) :
  (show_map_draws
     (fst (search_parking env ai location height weight length
             needs_facilities needs_overnight radius_km)) = true
   <-> status
         (fst (search_parking env ai location height weight length
                 needs_facilities needs_overnight radius_km))
       = "success"%string)
  /\ match fst (search_parking env ai location height weight length
                  needs_facilities needs_overnight radius_km) with
     | success loc _ _ spots_found parking_spots =>
         loc = location
         /\ spots_found = List.length parking_spots
         /\ (0 < spots_found)%nat
         /\ exists b,
              visualization_bounds
                (fst (search_parking env ai location height weight length
                        needs_facilities needs_overnight radius_km))
              = Returned b
     | _ => True
     end.
Proof.
  unfold search_parking.
  destruct (find_parking_spots env location
              (Build_CamperRequirements height weight length needs_facilities
                 needs_overnight radius_km) (finder ai)) as [[[|s l]|e] st'];
    simpl.
  - split; [split; discriminate | exact I].
  - split; [split; reflexivity|].
    repeat split.
    + now rewrite length_map.
    + lia.
    + destruct (map_bounds_cons (f_coordinates (_format_spot s))
                  (map f_coordinates (map _format_spot l))) as [b [Hb _]].
      now exists b.
  - split; [split; discriminate | exact I].
Qed.

(* ------------------------------------------------------------------ *)
(** ** OpenStreetMap tags *)

Lemma search_number_none (s : string) :
  search_number s = None <-> has_digit s = false.
Proof.
  induction s as [|c s IH]; simpl; [tauto|].
  destruct (is_digit c); simpl.
  - destruct (digits_prefix s). split; discriminate.
  - exact IH.
Qed.

Lemma digits_value_nonneg (s : string) (acc : Z) :
  (0 <= acc)%Z -> (0 <= digits_value s acc)%Z.
Proof.
  revert acc. induction s as [|c s IH]; intros acc H; [exact H|].
  cbn [digits_value]. apply IH.
  pose proof (Zle_0_nat (nat_of_ascii c - 48)). lia.
Qed.

Lemma float_of_number_nonneg (text : string) : (0 <= float_of_number text)%Q.
Proof.
  unfold float_of_number. destruct (digits_prefix text) as [i r].
  unfold Qle. simpl. rewrite Z.mul_1_r.
  apply digits_value_nonneg. lia.
Qed.

(** X17: the height limit and the weight limit read from the tags are
    never negative (a sign in front of the number is not read); and for
    a tag text of ASCII characters there is no limit exactly when the
    text holds no digit, which includes a missing and an empty tag.  (In
    a text with characters outside ASCII the source also reads the
    decimal digits of other scripts, which the model does not.) *)
Theorem limit_parsers_spec (tags : Tags) :
  (ascii_only (height_text tags) = true ->
   (_parse_height_restriction tags = None
    <-> has_digit (height_text tags) = false))
  /\ (ascii_only (weight_text tags) = true ->
      (_parse_weight_restriction tags = None
       <-> has_digit (weight_text tags) = false))
  /\ (forall h, _parse_height_restriction tags = Some h -> (0 <= h)%Q)
  /\ (forall w, _parse_weight_restriction tags = Some w -> (0 <= w)%Q).
Proof.
  unfold _parse_height_restriction, _parse_weight_restriction.
  split; [|split; [|split]].
  - intros _.
    destruct (height_text tags) as [|c s] eqn:E; [simpl; tauto|].
    change (negb (String.eqb (String c s) "")) with true. cbv iota.
    rewrite <- search_number_none.
    destruct (search_number (String c s)); split; congruence.
  - intros _.
    destruct (weight_text tags) as [|c s] eqn:E; [simpl; tauto|].
    change (negb (String.eqb (String c s) "")) with true. cbv iota.
    rewrite <- search_number_none.
    destruct (search_number (String c s)); split; congruence.
  - intros h. destruct (negb _); [|discriminate].
    destruct (search_number _); [|discriminate].
    intro H. inversion H. apply float_of_number_nonneg.
  - intros w. destruct (negb _); [|discriminate].
    destruct (search_number _) as [text|]; [|discriminate].
    intro H. inversion H.
    pose proof (float_of_number_nonneg text) as Hn.
    destruct (contains _ _); [|exact Hn].
    unfold Qdiv. apply Qmult_le_0_compat; [exact Hn | discriminate].
Qed.

(** A height "-3.5 m" is read as 3.5 and a weight "3500 kg" as 3.5; a
    height "none" and a missing weight give no limit. *)
Lemma limit_parsers_spec_witness :
  (0 <= 35 # 10)%Q /\ (0 <= 3500 / 1000)%Q
  /\ _parse_height_restriction [("maxheight", "none")]%string = None
  /\ _parse_weight_restriction [("maxheight", "none")]%string = None.
Proof.
  destruct (limit_parsers_spec
              [("maxheight", "-3.5 m"); ("maxweight", "3500 kg")]%string)
    as (_ & _ & Hh & Hw).
  destruct (limit_parsers_spec [("maxheight", "none")]%string)
    as (Hnh & Hnw & _ & _).
  split; [|split; [|split]].
  - apply (Hh (35 # 10)). reflexivity.
  - apply (Hw (3500 / 1000)%Q). reflexivity.
  - apply (Hnh eq_refl). reflexivity.
  - apply (Hnw eq_refl). reflexivity.
Defined.

(** An OpenStreetMap element allows overnight stays unless its tags
    say [camping=no] or its note holds "no overnight" in any letter
    case; whether it is a camp site or a rest area makes no
    difference. *)
Lemma _overnight_allowed_spec (tags : Tags) :
  _overnight_allowed tags
  = negb (tag_is tags "camping" "no"
          || contains "no overnight" (lower (tags_get_default tags "note" ""))).
Proof.
  unfold _overnight_allowed.
  destruct (tag_is tags "camping" "no"); [reflexivity|].
  destruct (contains "no overnight" _); [reflexivity|].
  destruct (tag_is tags "tourism" "camp_site"); [reflexivity|].
  destruct (tag_is tags "highway" "rest_area"); reflexivity.
Qed.

(* ------------------------------------------------------------------ *)
(** ** OpenStreetMap elements *)

Lemma element_coordinates_broken (element : OsmElement) :
  if broken_center element
  then element_coordinates element = Raised OtherException
  else exists c, element_coordinates element = Returned c.
Proof.
  unfold broken_center, element_coordinates.
  destruct (el_lat element), (el_lon element); eauto;
    destruct (el_center element) as [[[?|] [?|]]|]; simpl; eauto.
Qed.

Lemma _parse_osm_element_cases (element : OsmElement) :
  (broken_center element = true
   /\ _parse_osm_element element = Raised OtherException)
  \/ (broken_center element = false
      /\ element_coordinates element = Returned None
      /\ _parse_osm_element element = Returned None)
  \/ (broken_center element = false
      /\ exists s,
           element_coordinates element
           = Returned (Some (latitude s, longitude s))
           /\ osm_stamp s
           /\ _parse_osm_element element = Returned (Some s)).
Proof.
  pose proof (element_coordinates_broken element) as H.
  unfold _parse_osm_element.
  destruct (broken_center element).
  - left. now rewrite H.
  - right. destruct H as [[[lat lon]|] H]; rewrite H; simpl.
    + right. split; [reflexivity|].
      eexists. split; [|split; [|reflexivity]]; [reflexivity|].
      split; reflexivity.
    + left. auto.
Qed.

Lemma osm_collect_acc (elements : list OsmElement)
    (acc : list ScrapedParkingSpot) :
  (existsb broken_center elements = true
   /\ osm_collect elements acc = Raised OtherException)
  \/ (existsb broken_center elements = false
      /\ exists new,
           osm_collect elements acc = Returned (acc ++ new)
           /\ (List.length new <= List.length elements)%nat
           /\ Forall osm_stamp new
           /\ map (fun s => (latitude s, longitude s)) new
              = coordinates_of elements).
Proof.
  revert acc. induction elements as [|e elements IH]; intro acc.
  - right. split; [reflexivity|]. exists [].
    simpl. rewrite app_nil_r. repeat split; auto.
  - cbn [existsb osm_collect coordinates_of flat_map].
    destruct (_parse_osm_element_cases e)
      as [[Hb Hp] | [(Hb & Hc & Hp) | (Hb & s & Hc & Hs & Hp)]];
      rewrite Hb, Hp; simpl obind.
    + left. auto.
    + rewrite Hc. simpl. destruct (IH acc) as [[He Hr] | (He & new & Hr & Hl & Hf & Hm)].
      * left. auto.
      * right. split; [exact He|]. exists new. repeat split; auto.
    + rewrite Hc. simpl.
      destruct (IH (acc ++ [s])) as [[He Hr] | (He & new & Hr & Hl & Hf & Hm)].
      * left. auto.
      * right. split; [exact He|]. exists (s :: new).
        rewrite Hr, <- app_assoc. simpl. repeat split; auto.
        -- lia.
        -- fold (coordinates_of elements). now rewrite <- Hm.
Qed.

(** X18: the loop over the elements of an Overpass answer raises
    [KeyError], which the connector does not handle, exactly when some
    element has no coordinates of its own and a [center] that lacks the
    latitude or the longitude; otherwise it returns one spot for every
    element with coordinates, in the order of the elements, each with
    confidence 0.8 and source "OpenStreetMap", and skips the elements
    without coordinates. *)
Theorem osm_collect_spec (elements : list OsmElement) :
  (existsb broken_center elements = true
   /\ osm_collect elements [] = Raised OtherException
   /\ osm_handles OtherException = false)
  \/ (existsb broken_center elements = false
      /\ exists spots,
           osm_collect elements [] = Returned spots
           /\ (List.length spots <= List.length elements)%nat
           /\ Forall osm_stamp spots
           /\ map (fun s => (latitude s, longitude s)) spots
              = coordinates_of elements).
Proof.
  destruct (osm_collect_acc elements []) as [[He Hr] | (He & new & Hr & H)].
  - left. auto.
  - right. split; [exact He|]. now exists new.
Qed.

(** X19: one element with such a [center] in the answer of the Overpass
    server makes the whole search fail: [search_parking] reports the
    status "error", the spots of the other elements are lost, Google and
    the city connector are not called and nothing is cached. *)
Theorem broken_center_fails_search
    (env : Env) (response : nat -> Q -> Q -> Q -> outcome (list OsmElement))
    (ai : AIState) (location : string) (height weight length : Q)
    (needs_facilities needs_overnight : bool) (radius_km : Q)
    (lat lon : Q) (st_c : FinderState) (elements : list OsmElement) :
  nominatim_search env (ticks (finder ai)) location
  = Returned (Some (lat, lon)) ->
  check_cache (with_overpass env response) (cache_key lat lon radius_km)
    (advance 1 (finder ai)) = (Returned None, st_c) ->
  response (ticks st_c) lat lon radius_km = Returned elements ->
  existsb broken_center elements = true ->
  fst (search_parking (with_overpass env response) ai location height weight
         length needs_facilities needs_overnight radius_km)
  = error OtherException
  /\ calls (finder (snd (search_parking (with_overpass env response) ai
                           location height weight length needs_facilities
                           needs_overnight radius_km)))
     = OsmCall lat lon radius_km :: calls (finder ai)
  /\ cache (finder (snd (search_parking (with_overpass env response) ai
                           location height weight length needs_facilities
                           needs_overnight radius_km)))
     = cache (finder ai).
Proof.
  intros Hg Hc Hr Hb.
  unfold search_parking.
  rewrite (find_parking_spots_osm_raises (with_overpass env response) location
             (Build_CamperRequirements height weight length needs_facilities
                needs_overnight radius_km)
             (finder ai) st_c lat lon OtherException); auto.
  - destruct (check_cache_keeps _ _ _ _ _ Hc) as [Hcache Hcalls].
    simpl in *. rewrite Hcache, Hcalls. auto.
  - simpl. unfold overpass_try_block. rewrite Hr. simpl.
    destruct (osm_collect_acc elements []) as [[_ H] | [H _]];
      [exact H | congruence].
Qed.

Lemma broken_center_fails_search_witness :
  fst (search_parking
         (with_overpass (sample_env espoo (Returned []))
            (fun _ _ _ _ => Returned [element_plain; element_broken]))
         initial_ai "Espoo" (28 # 10) (35 # 10) 7 false true 10)
  = error OtherException
  /\ calls (finder (snd (search_parking
         (with_overpass (sample_env espoo (Returned []))
            (fun _ _ _ _ => Returned [element_plain; element_broken]))
         initial_ai "Espoo" (28 # 10) (35 # 10) 7 false true 10)))
     = OsmCall (602055 # 10000) (246559 # 10000) 10 :: calls (finder initial_ai)
  /\ cache (finder (snd (search_parking
         (with_overpass (sample_env espoo (Returned []))
            (fun _ _ _ _ => Returned [element_plain; element_broken]))
         initial_ai "Espoo" (28 # 10) (35 # 10) 7 false true 10)))
     = cache (finder initial_ai).
Proof.
  apply (broken_center_fails_search (sample_env espoo (Returned []))
           (fun _ _ _ _ => Returned [element_plain; element_broken])
           initial_ai "Espoo" (28 # 10) (35 # 10) 7 false true 10
           (602055 # 10000) (246559 # 10000) (advance 1 initial_state)
           [element_plain; element_broken]);
    reflexivity.
Defined.

Lemma equal_confidence_descending (l : list ScrapedParkingSpot) (c : Q) :
  Forall (fun s => confidence s = c) l -> confidence_descending l.
Proof.
  induction 1 as [|s l Hs Hl IH]; [constructor|].
  constructor; [exact IH|].
  eapply Forall_impl; [|exact Hl].
  intros t Ht. unfold conf_ge. rewrite Hs, Ht. apply Qle_refl.
Qed.

(** X20: the spots read from one Overpass answer all have the same
    confidence, so none of them replaces another: de-duplicating them
    gives spots that are pairwise at or over the threshold, every spot of
    the answer is under the threshold of one that is kept, and a second
    run changes nothing. *)
Theorem osm_spots_dedup_clean
    (elements : list OsmElement) (spots : list ScrapedParkingSpot) :
  osm_collect elements [] = Returned spots ->
  exists unique_spots,
    _deduplicate_spots spots = Returned unique_spots
    /\ ForallOrdPairs apart unique_spots
    /\ (forall s, In s spots ->
          exists e, In e unique_spots /\ within_threshold s e = true)
    /\ _deduplicate_spots unique_spots = Returned unique_spots.
Proof.
  intro H.
  assert (Hd : confidence_descending spots).
  { destruct (osm_collect_acc elements [])
      as [[_ Hr] | (_ & spots' & Hr & _ & Hs & _)]; [congruence|].
    simpl in Hr. rewrite Hr in H. inversion H; subst.
    apply (equal_confidence_descending spots (8 # 10)).
    eapply Forall_impl; [|exact Hs]. intros s [Hc _]. exact Hc. }
  destruct (dedup_loop_descending spots [] Hd) as (u & Hrun & Hap & _ & Hcov).
  - intros e s [].
  - constructor.
  - exists u. repeat split; auto.
    apply _deduplicate_spots_separated. now apply (apart_separated [] u).
Qed.

(** An answer of three elements, two of them at one place: the second
    spot is compared with the first and dropped, the third is compared
    with the first and kept. *)
Lemma osm_spots_dedup_clean_witness :
  List.length sample_answer_spots = 3%nat
  /\ exists unique_spots,
       _deduplicate_spots sample_answer_spots = Returned unique_spots
       /\ ForallOrdPairs apart unique_spots
       /\ (forall s, In s sample_answer_spots ->
             exists e, In e unique_spots /\ within_threshold s e = true)
       /\ _deduplicate_spots unique_spots = Returned unique_spots.
Proof.
  split; [reflexivity|].
  apply (osm_spots_dedup_clean sample_answer).
  reflexivity.
Defined.

(* ------------------------------------------------------------------ *)
(** ** Google places *)

Lemma _parse_google_place_stamp (place : GooglePlace) (place_type : string)
    (s : ScrapedParkingSpot) :
  _parse_google_place place place_type = Returned (Some s) ->
  google_stamp place_type s.
Proof.
  unfold _parse_google_place.
  destruct (place_location place) as [[[lat|] [lng|]]|]; try discriminate.
  intro H. inversion H; subst. unfold google_stamp. simpl. tauto.
Qed.

Lemma google_collect_acc (place_type : string) (places : list GooglePlace)
    (acc spots : list ScrapedParkingSpot) :
  google_collect place_type places acc = Returned spots ->
  exists new, spots = acc ++ new /\ Forall (google_stamp place_type) new.
Proof.
  revert acc. induction places as [|p places IH]; intros acc H; simpl in H.
  - inversion H; subst. exists []. now rewrite app_nil_r.
  - destruct (_parse_google_place p place_type) as [[s|]|e] eqn:Ep;
      simpl in H; [| |discriminate].
    + destruct (IH _ H) as (new & -> & Hf).
      exists (s :: new). rewrite <- app_assoc. split; [reflexivity|].
      constructor; [|exact Hf].
      now apply (_parse_google_place_stamp p).
    + now apply IH.
Qed.

Lemma google_collect_stamp (place_type : string) (places : list GooglePlace)
    (spots : list ScrapedParkingSpot) :
  google_collect place_type places [] = Returned spots ->
  Forall (google_stamp place_type) spots.
Proof.
  intro H. destruct (google_collect_acc _ _ _ _ H) as (new & -> & Hf).
  exact Hf.
Qed.

(** X21: the places Google returns for a search type other than
    campground, rv_park and rest_area (of the four types searched:
    parking) are marked as not allowing overnight stays, so a search that
    needs overnight parking keeps none of them. *)
Theorem google_day_types_filtered
    (place_type : string) (places : list GooglePlace)
    (spots : list ScrapedParkingSpot) (reqs : CamperRequirements) :
  in_list place_type ["campground"; "rv_park"; "rest_area"]%string = false ->
  google_collect place_type places [] = Returned spots ->
  needs_overnight reqs = true ->
  _filter_spots spots reqs = [].
Proof.
  intros Ht Hc Hn.
  apply _filter_spots_nil_iff.
  eapply Forall_impl; [|exact (google_collect_stamp _ _ _ Hc)].
  intros s (_ & _ & _ & _ & Ho & _).
  unfold suitable. rewrite Hn, Ho, Ht. simpl.
  destruct (restricted_below _ _); [reflexivity|].
  destruct (restricted_below _ _); [reflexivity|].
  destruct (needs_facilities reqs && _); reflexivity.
Qed.

Lemma google_day_types_filtered_witness :
  _filter_spots
    [{| name := "Rastila"; latitude := 601699 # 10000;
        longitude := 249384 # 10000; address := "Unknown address";
        parking_type := "parking"; max_height := None; max_weight := None;
        has_facilities := false; overnight_allowed := false;
        restrictions := ["Rating: N/A"%string]; source := "Google Places";
        confidence := 7 # 10 |}]
    (reqs_of_height (32 # 10))
  = [].
Proof.
  apply (google_day_types_filtered "parking" [place_plain]); reflexivity.
Defined.

(** X22: the places Google returns for the search types campground and
    rv_park carry no height or weight limit and are marked as having
    facilities and allowing overnight stays: the filter keeps all of
    them, in their order, whatever the requirements. *)
Theorem google_camp_types_always_kept
    (place_type : string) (places : list GooglePlace)
    (spots : list ScrapedParkingSpot) (reqs : CamperRequirements) :
  in_list place_type ["campground"; "rv_park"]%string = true ->
  google_collect place_type places [] = Returned spots ->
  _filter_spots spots reqs = spots.
Proof.
  intros Ht Hc.
  pose proof (google_collect_stamp _ _ _ Hc) as Hs.
  assert (Ho : in_list place_type ["campground"; "rv_park"; "rest_area"]%string
               = true).
  { unfold in_list in *. simpl in *.
    destruct (String.eqb place_type "campground"); [reflexivity|].
    destruct (String.eqb place_type "rv_park"); [reflexivity | discriminate]. }
  unfold _filter_spots. rewrite filter_all_true.
  - apply sorted_by_confidence_fixed.
    apply (equal_confidence_descending spots (7 # 10)).
    eapply Forall_impl; [|exact Hs]. intros s H. apply H.
  - eapply Forall_impl; [|exact Hs].
    intros s (_ & Hh & Hw & Hf & Hov & _).
    unfold suitable. rewrite Hh, Hw, Hf, Hov, Ht, Ho. simpl.
    now rewrite !andb_false_r.
Qed.

Lemma google_camp_types_always_kept_witness :
  _filter_spots
    [{| name := "Rastila"; latitude := 601699 # 10000;
        longitude := 249384 # 10000; address := "Unknown address";
        parking_type := "campground"; max_height := None; max_weight := None;
        has_facilities := true; overnight_allowed := true;
        restrictions := ["Rating: N/A"%string]; source := "Google Places";
        confidence := 7 # 10 |}]
    {| height := 4; weight := 12; length := 9; needs_facilities := true;
       needs_overnight := true; radius_km := 10 |}
  = [{| name := "Rastila"; latitude := 601699 # 10000;
        longitude := 249384 # 10000; address := "Unknown address";
        parking_type := "campground"; max_height := None; max_weight := None;
        has_facilities := true; overnight_allowed := true;
        restrictions := ["Rating: N/A"%string]; source := "Google Places";
        confidence := 7 # 10 |}].
Proof.
  apply (google_camp_types_always_kept "campground" [place_plain]);
    reflexivity.
Defined.

(* ------------------------------------------------------------------ *)
(** ** Helsinki Palvelukartta *)

Lemma prefix_trans (a b c : string) :
  String.prefix a b = true -> String.prefix b c = true ->
  String.prefix a c = true.
Proof.
  revert b c. induction a as [|x a IH]; intros b c Hab Hbc;
    [destruct c; reflexivity|].
  destruct b as [|y b]; [discriminate|].
  destruct c as [|z c]; [discriminate|].
  simpl in *.
  destruct (ascii_dec x y) as [->|]; [|discriminate].
  destruct (ascii_dec y z) as [->|]; [|discriminate].
  now apply (IH b c).
Qed.

(** A text that holds a word holds every beginning of the word. *)
Lemma contains_prefix (a b text : string) :
  String.prefix a b = true -> contains b text = true ->
  contains a text = true.
Proof.
  intro Hab. induction text as [|c text IH]; cbn [contains].
  - rewrite !orb_false_r. intro Hb. now apply (prefix_trans a b).
  - rewrite !orb_true_iff. intros [Hb | Hb].
    + left. now apply (prefix_trans a b).
    + right. now apply IH.
Qed.

(** X23: "Paid parking" is noted for every description that holds
    "maksu", which the word "maksuton" (free of charge) does too: a
    description holding "maksuton" is noted as paid, and "Free parking"
    is noted exactly for the descriptions that hold "ilmainen" and do
    not hold "maksu". *)
Theorem free_parking_only_ilmainen (description : string) :
  (In "Free parking"%string (_parse_restrictions_from_description description)
   <-> contains "ilmainen" description = true
       /\ contains "maksu" description = false)
  /\ (contains "maksuton" description = true ->
      In "Paid parking"%string
        (_parse_restrictions_from_description description)
      /\ ~ In "Free parking"%string
             (_parse_restrictions_from_description description)).
Proof.
  assert (Hton : contains "maksuton" description = true ->
                 contains "maksu" description = true)
    by (apply contains_prefix; reflexivity).
  assert (Hlin : contains "maksullinen" description = true ->
                 contains "maksu" description = true)
    by (apply contains_prefix; reflexivity).
  assert (Hfree : In "Free parking"%string
                    (_parse_restrictions_from_description description)
                  <-> contains "ilmainen" description = true
                      /\ contains "maksu" description = false).
  { unfold _parse_restrictions_from_description.
    set (B := if contains "aikarajoitus" description
                 || contains "time limit" description
              then ["Time restrictions apply"%string] else []).
    set (C := if contains "lupa" description || contains "permit" description
              then ["Permit may be required"%string] else []).
    assert (HB : ~ In "Free parking"%string B)
      by (unfold B;
          destruct (contains "aikarajoitus" description
                    || contains "time limit" description); simpl;
          [intros [H | []]; discriminate H | tauto]).
    assert (HC : ~ In "Free parking"%string C)
      by (unfold C;
          destruct (contains "lupa" description
                    || contains "permit" description); simpl;
          [intros [H | []]; discriminate H | tauto]).
    rewrite !in_app_iff.
    destruct (contains "maksu" description) eqn:Em.
    - rewrite orb_true_r. simpl. split; [|intros [_ H]; discriminate H].
      intros [[H | []] | [H | H]]; [discriminate H | tauto | tauto].
    - destruct (contains "maksullinen" description) eqn:El;
        [exfalso; first [discriminate (Hlin El) | discriminate (Hlin eq_refl)]|].
      destruct (contains "maksuton" description) eqn:Et;
        [exfalso; first [discriminate (Hton Et) | discriminate (Hton eq_refl)]|].
      simpl. destruct (contains "ilmainen" description); simpl.
      + split; [auto | intros _; left; now left].
      + split; [|intros [H _]; discriminate H].
        intros [[] | [H | H]]; tauto. }
  split; [exact Hfree|].
  intro Ht. pose proof (Hton Ht) as Hm. split.
  - unfold _parse_restrictions_from_description.
    rewrite Hm, orb_true_r. now left.
  - rewrite Hfree. intros [_ H]. congruence.
Qed.

Lemma free_parking_only_ilmainen_witness :
  In "Paid parking"%string
    (_parse_restrictions_from_description "maksuton pysäköinti")
  /\ ~ In "Free parking"%string
         (_parse_restrictions_from_description "maksuton pysäköinti").
Proof.
  apply (free_parking_only_ilmainen "maksuton pysäköinti").
  reflexivity.
Defined.
